(** * Voice-command spreadsheet assistant: the safety pipeline

    A shallow embedding of the services and route handlers that decide
    whether and how a spreadsheet mutation runs:

    - [DryRunService]        (lib/services/dry-run.service.ts)
    - [StateMachineService]  (lib/services/state-machine.service.ts)
    - [RollbackService]      (lib/services/rollback.service.ts)
    - [GoogleSheetsService]  (lib/services/google-sheets.service.ts)
    - [IntentParserService.validateIntent]
    - the route handlers  /api/sheets/dry-run, /api/sheets/execute and
      /api/conversation/state.

    Conventions of the embedding.

    - A request body is JSON, so a parameter value is a [JsValue]: the JSON
      shapes plus [JUndefined] for an absent property.  Numbers are integers
      or [NaN]; fractional numbers and the infinities are outside the model.
      Arithmetic on the integers is exact, as it is on the doubles of the
      engine below 2^53 in absolute value: a theorem that names a computed
      number bounds it there.
    - A conversion of a value to a string or a number can throw, and so
      can the making of an array: an object of a request holds no function,
      so one with an own property [toString] has no primitive value, and an
      array has at most 2^32 - 1 elements.  The engine's further limits on
      the size of a string, on memory and on the stack are not modelled.
    - The two conversions between strings and numbers and the case mapping
      of strings belong to the JavaScript engine; they are the fields of
      [JsRuntime] and every definition and theorem is parametric in them.
    - An [async] method that can throw returns an [Outcome]; one that also
      writes to the database threads the [World] explicitly.
    - The database itself never fails: a Prisma call either finds its row
      or it does not.
    - A method reads the clock once: [now] is the time of the call.
    - What the services send to the logger is not part of the model. *)

From stdpp Require Import gmap strings list fin_maps sorting.
From Stdlib Require Import ZArith QArith Ascii String DecimalString.
From Equations Require Import Equations.

#[local] Set Warnings "-register-all".
Local Open Scope string_scope.
Local Open Scope Z_scope.

(* ===================================================================== *)
(** ** Results of calls that may throw *)
(* ===================================================================== *)

(** A thrown value.  [Error m] is [new Error(m)]; [TypeError site] is the
    engine's TypeError for reading a property of undefined/null or calling
    something that is not a function at [site], or for a conversion that
    finds no primitive; [RangeError m] is the engine's RangeError;
    [Wrapped p e] is [new Error(`${p}${e.message}`)], the re-throw pattern
    of the services. *)
Inductive JsError : Type :=
| Error (message : string)
| TypeError (site : string)
| RangeError (message : string)
| Wrapped (prefix : string) (inner : JsError).

Inductive Outcome (A : Type) : Type :=
| Returns (a : A)
| Throws (e : JsError).
Arguments Returns {A} a.
Arguments Throws {A} e.

Definition bind {A B : Type} (m : Outcome A) (k : A -> Outcome B) : Outcome B :=
  match m with
  | Returns a => k a
  | Throws e => Throws e
  end.

(** [try { m } catch (error) { throw new Error(prefix + error.message) }] *)
Definition rethrow {A : Type} (prefix : string) (m : Outcome A) : Outcome A :=
  match m with
  | Returns a => Returns a
  | Throws e => Throws (Wrapped prefix e)
  end.

Notation "'let*' x ':=' m 'in' k" := (bind m (fun x => k))
  (at level 10, x name, m at level 100, k at level 200).

Definition returned {A : Type} (m : Outcome A) : bool :=
  match m with Returns _ => true | Throws _ => false end.

(** Calls made one after the other: the results, or the first throw. *)
Fixpoint collect {A : Type} (calls : list (Outcome A)) : Outcome (list A) :=
  match calls with
  | [] => Returns []
  | m :: rest =>
      let* a := m in
      let* others := collect rest in
      Returns (a :: others)
  end.

(* ===================================================================== *)
(** ** JavaScript values *)
(* ===================================================================== *)

Module Js.

(** A number of a request or of a computation: NaN, or an integer, which
    stands for the double of that value. *)
Inductive JsNumber : Type :=
| NaN
| Num (z : Z).

Inductive JsValue : Type :=
| JUndefined
| JNull
| JBool (b : bool)
| JNumber (n : JsNumber)
| JString (s : string)
| JArray (items : list JsValue)
| JObject (fields : gmap string JsValue).

(** What the engine supplies. *)
Class JsRuntime : Type := {
  (** StringToNumber of ECMA-262 on strings that denote an integer or no
      number at all. *)
  StringToNumber : string -> JsNumber;
  (** Number::toString on integers. *)
  IntegerToString : Z -> string;
  (** String.prototype.toLowerCase. *)
  toLowerCase : string -> string
}.

Definition num (z : Z) : JsValue := JNumber (Num z).

(** [ToBoolean]. *)
Definition truthy (v : JsValue) : bool :=
  match v with
  | JUndefined | JNull => false
  | JBool b => b
  | JNumber NaN => false
  | JNumber (Num z) => negb (z =? 0)%Z
  | JString s => negb (String.eqb s "")
  | JArray _ | JObject _ => true
  end.

(** [a || b] *)
Definition js_or (a b : JsValue) : JsValue := if truthy a then a else b.

(** [a ?? b] *)
Definition js_nullish (a b : JsValue) : JsValue :=
  match a with
  | JUndefined | JNull => b
  | _ => a
  end.

(** Destructuring default, [const { k = d } = o]: only [undefined] takes
    the default. *)
Definition with_default (v d : JsValue) : JsValue :=
  match v with
  | JUndefined => d
  | _ => v
  end.

(** [o.k] on the parameter record. *)
Definition get (o : gmap string JsValue) (k : string) : JsValue :=
  default JUndefined (o !! k).

Definition is_defined (v : JsValue) : bool :=
  match v with JUndefined => false | _ => true end.

(** An object literal as JSON keeps it (in a Json column, in a response):
    a property whose value is [undefined] is dropped. *)
Definition object (fields : list (string * JsValue)) : gmap string JsValue :=
  list_to_map (List.filter (fun kv => is_defined kv.2) fields).

(** [v.k] for a key [k] that no prototype defines ([amount], [bold], ...):
    a TypeError on undefined and null, the own property of an object,
    [undefined] on every other value. *)
Definition prop (site : string) (v : JsValue) (k : string) : Outcome JsValue :=
  match v with
  | JUndefined | JNull => Throws (TypeError site)
  | JObject fields => Returns (get fields k)
  | _ => Returns JUndefined
  end.

(** [v.length]: defined by the prototype of strings and arrays. *)
Definition length_of (site : string) (v : JsValue) : Outcome JsValue :=
  match v with
  | JUndefined | JNull => Throws (TypeError site)
  | JString s => Returns (num (Z.of_nat (String.length s)))
  | JArray items => Returns (num (Z.of_nat (List.length items)))
  | JObject fields => Returns (get fields "length")
  | _ => Returns JUndefined
  end.

(** Whether [ToPrimitive] finds a primitive for [v].  An object parsed
    from JSON holds no function.  Without an own property [toString] it
    inherits [Object.prototype.toString], which gives a string; with one,
    [toString] is not callable and [valueOf], own or inherited, gives no
    primitive, so the conversion throws a TypeError.  An array is converted
    by [join], which converts every element but undefined and null. *)
Fixpoint convertible (v : JsValue) : bool :=
  match v with
  | JArray items => forallb convertible items
  | JObject fields =>
      match fields !! "toString" with
      | Some _ => false
      | None => true
      end
  | _ => true
  end.

(** The TypeError of a conversion that finds no primitive. *)
Definition cannot_convert : JsError :=
  TypeError "Cannot convert object to primitive value".

Section WithRuntime.
Context {RT : JsRuntime}.

Definition NumberToString (n : JsNumber) : string :=
  match n with
  | NaN => "NaN"
  | Num z => IntegerToString z
  end.

(** [Array.prototype.join] over already converted elements. *)
Fixpoint join_strings (sep : string) (parts : list string) : string :=
  match parts with
  | [] => ""
  | [p] => p
  | p :: rest => p +:+ sep +:+ join_strings sep rest
  end.

(** The string of a convertible value; an array prints its elements joined
    by commas, with undefined and null elements printed as the empty
    string. *)
Fixpoint string_of (v : JsValue) : string :=
  match v with
  | JUndefined => "undefined"
  | JNull => "null"
  | JBool true => "true"
  | JBool false => "false"
  | JNumber n => NumberToString n
  | JString s => s
  | JArray items =>
      join_strings ","
        (map (fun x => match x with
                       | JUndefined | JNull => ""
                       | _ => string_of x
                       end) items)
  | JObject _ => "[object Object]"
  end.

(** The result of [Array.prototype.join(sep)] on convertible elements. *)
Definition join (sep : string) (items : list JsValue) : string :=
  join_strings sep
    (map (fun x => match x with
                   | JUndefined | JNull => ""
                   | _ => string_of x
                   end) items).

(** The primitive of a convertible value: arrays and objects become their
    string. *)
Definition primitive_of (v : JsValue) : JsValue :=
  match v with
  | JArray _ | JObject _ => JString (string_of v)
  | _ => v
  end.

(** The number of a convertible value. *)
Definition number_of (v : JsValue) : JsNumber :=
  match v with
  | JUndefined => NaN
  | JNull => Num 0
  | JBool b => Num (if b then 1 else 0)
  | JNumber n => n
  | JString s => StringToNumber s
  | JArray _ => StringToNumber (string_of v)
  | JObject _ => NaN
  end.

(** [ToPrimitive], [ToString] and [ToNumber]: the conversions of
    ECMA-262, as a template literal, [String(v)], [Number(v)] and the
    operators apply them. *)
Definition ToPrimitive (v : JsValue) : Outcome JsValue :=
  if convertible v then Returns (primitive_of v) else Throws cannot_convert.

Definition ToString (v : JsValue) : Outcome string :=
  if convertible v then Returns (string_of v) else Throws cannot_convert.

Definition ToNumber (v : JsValue) : Outcome JsNumber :=
  if convertible v then Returns (number_of v) else Throws cannot_convert.

(** Arithmetic on integers is exact. *)
Definition lift2 (f : Z -> Z -> Z) (a b : JsNumber) : JsNumber :=
  match a, b with
  | Num x, Num y => Num (f x y)
  | _, _ => NaN
  end.

Definition is_string (v : JsValue) : bool :=
  match v with JString _ => true | _ => false end.

(** The value of [a + b] for convertible operands. *)
Definition js_add (a b : JsValue) : JsValue :=
  let pa := primitive_of a in
  let pb := primitive_of b in
  if is_string pa || is_string pb
  then JString (string_of pa +:+ string_of pb)
  else JNumber (lift2 Z.add (number_of pa) (number_of pb)).

(** [a + b]: both operands are converted, the left one first. *)
Definition plus (a b : JsValue) : Outcome JsValue :=
  let* _ := ToPrimitive a in
  let* _ := ToPrimitive b in
  Returns (js_add a b).

(** The values of [a - n], [a % n] and [Math.floor(a / n)] for a numeric
    literal [n] and a convertible [a]. *)
Definition js_sub (a : JsValue) (n : Z) : JsValue :=
  JNumber (lift2 Z.sub (number_of a) (Num n)).

Definition js_rem (a : JsValue) (n : Z) : JsValue :=
  JNumber (lift2 Z.rem (number_of a) (Num n)).

Definition floor_div (a : JsValue) (n : Z) : JsValue :=
  JNumber (lift2 Z.div (number_of a) (Num n)).

(** The values of [a > n] and [a >= n] against a numeric literal, for a
    convertible [a]: false on NaN. *)
Definition js_gt (a : JsValue) (n : Z) : bool :=
  match number_of a with
  | Num z => n <? z
  | NaN => false
  end.

Definition js_ge (a : JsValue) (n : Z) : bool :=
  match number_of a with
  | Num z => n <=? z
  | NaN => false
  end.

(** [a > n] and [a >= n]: the operand is converted first. *)
Definition greater_than (a : JsValue) (n : Z) : Outcome bool :=
  let* _ := ToPrimitive a in
  Returns (js_gt a n).

Definition at_least (a : JsValue) (n : Z) : Outcome bool :=
  let* _ := ToPrimitive a in
  Returns (js_ge a n).

(** [ToLength]: the length of the array-like [{ length: v }], between 0
    and 2^53 - 1. *)
Definition ToLength (v : JsValue) : Outcome Z :=
  let* n := ToNumber v in
  Returns match n with
          | Num z => Z.max 0 (Z.min z (2 ^ 53 - 1))
          | NaN => 0
          end.

(** [Array.from({ length: v }, (_, i) => f(i))]: the length is converted,
    an array of that length is made, which throws a RangeError above
    2^32 - 1 elements, and [f] is called for the indexes in turn. *)
Definition array_from_length {A : Type} (v : JsValue) (f : Z -> Outcome A)
    : Outcome (list A) :=
  let* len := ToLength v in
  if 2 ^ 32 - 1 <? len
  then Throws (RangeError "Invalid array length")
  else collect (map (fun i => f (Z.of_nat i)) (seq 0 (Z.to_nat len))).

(** [String.fromCharCode(v)] for a number [v]: the code unit [ToUint16(v)].
    Strings here are made of 8-bit characters, so a unit above 255 is kept
    modulo 256. *)
Definition fromCharCode (v : JsValue) : string :=
  match number_of v with
  | Num z => String (ascii_of_nat (Z.to_nat (z mod 65536))) ""
  | NaN => String (ascii_of_nat 0) ""
  end.

(** [v.k] read only for its truth: [if (format.bold) ...].  Of the keys
    read this way (bold, italic, underline, textColor, backgroundColor,
    fontSize, numberFormat) only [bold] is inherited from a prototype:
    String.prototype.bold is a function, so it is truthy on every string. *)
Definition truthy_prop (site : string) (v : JsValue) (k : string) : Outcome bool :=
  match v with
  | JUndefined | JNull => Throws (TypeError site)
  | JObject fields => Returns (truthy (get fields k))
  | JString _ => Returns (String.eqb k "bold")
  | _ => Returns false
  end.

(** [v.join(sep)]: only an array has the method, and it converts the
    elements. *)
Definition call_join (site : string) (v : JsValue) (sep : string) : Outcome string :=
  match v with
  | JArray items =>
      if convertible v then Returns (join sep items) else Throws cannot_convert
  | _ => Throws (TypeError site)
  end.

(** [v.toLowerCase()]: only a string has the method. *)
Definition call_toLowerCase (site : string) (v : JsValue) : Outcome string :=
  match v with
  | JString s => Returns (toLowerCase s)
  | _ => Throws (TypeError site)
  end.

End WithRuntime.

End Js.

(* ===================================================================== *)
(** ** DryRunService (lib/services/dry-run.service.ts) *)
(* ===================================================================== *)

Module DryRun.
Import Js.

Inductive RiskLevel : Type := low | medium | high.

#[global] Instance RiskLevel_eq_dec : EqDecision RiskLevel.
Proof. solve_decision. Defined.

Record EstimatedImpact : Type := {
  cells : JsValue;
  rows : option JsValue;
  columns : option JsValue
}.

Record DryRunResult : Type := {
  cells_affected : list JsValue;
  rows_affected : option (list JsValue);
  columns_affected : option (list string);
  risk_level : RiskLevel;
  reversible : bool;
  preview : string;
  warnings : option (list string);
  estimated_impact : EstimatedImpact
}.

(** The double quote and the warning sign (U+26A0 U+FE0F in UTF-8) of the
    preview texts. *)
Definition dquote : string := String (ascii_of_nat 34) "".

Definition warning_sign : string :=
  String (ascii_of_nat 226) (String (ascii_of_nat 154) (String (ascii_of_nat 160)
  (String (ascii_of_nat 239) (String (ascii_of_nat 184) (String (ascii_of_nat 143) ""))))).

Section WithRuntime.
Context {RT : JsRuntime}.

(** [expandRange]: "For simplicity, just return the range as-is". *)
Definition expandRange (range : JsValue) : list JsValue := [range].

(** [values.reduce((sum, row) => sum + row.length, 0)] *)
Definition countCellsInRange (values : JsValue) : Outcome JsValue :=
  match values with
  | JArray rows =>
      fold_left
        (fun acc row =>
           let* sum := acc in
           let* len := length_of "row.length" row in
           plus sum len)
        rows (Returns (num 0))
  | _ => Throws (TypeError "values.reduce")
  end.

(** A test remembered together with its outcome. *)
Definition inspect {A : Type} (a : A) : {b : A | a = b} := exist _ a eq_refl.

Definition loop_measure (temp : JsValue) : nat :=
  match number_of temp with
  | Num z => Z.to_nat (z + 1)
  | NaN => 0%nat
  end.

(** The loop of [indexToColumn], once its first test has converted
    [temp]; from then on [temp] is a number:
    [while (temp >= 0) { column = String.fromCharCode((temp % 26) + 65) + column;
                         temp = Math.floor(temp / 26) - 1; }] *)
Equations? indexToColumn_loop (temp : JsValue) (column : string) : string
  by wf (loop_measure temp) lt :=
indexToColumn_loop temp column with inspect (js_ge temp 0) => {
  | exist _ true Hge =>
      indexToColumn_loop (js_sub (floor_div temp 26) 1)
        (fromCharCode (js_add (js_rem temp 26) (num 65)) +:+ column)
  | exist _ false Hlt => column
}.
Proof.
  unfold loop_measure, js_sub, floor_div, js_ge in *. simpl.
  destruct (number_of temp) as [|z]; simpl in *; [discriminate|].
  apply Z.leb_le in Hge.
  assert (z / 26 <= z) by (apply Z.div_le_upper_bound; lia).
  lia.
Qed.

(** [indexToColumn(index)]: the first test of the loop, [temp >= 0],
    converts the index and throws if it has no primitive. *)
Definition indexToColumn (index : JsValue) : Outcome string :=
  let* _ := ToPrimitive index in
  Returns (indexToColumn_loop index "").

(** [describeFormat] *)
Definition describeFormat (format : JsValue) : Outcome string :=
  let* bold := truthy_prop "format.bold" format "bold" in
  let* italic := truthy_prop "format.italic" format "italic" in
  let* underline := truthy_prop "format.underline" format "underline" in
  let* textColor := truthy_prop "format.textColor" format "textColor" in
  let* backgroundColor := truthy_prop "format.backgroundColor" format "backgroundColor" in
  let* fontSize := prop "format.fontSize" format "fontSize" in
  let* size :=
    (if truthy fontSize
     then let* text := ToString fontSize in Returns ["font size " +:+ text]
     else Returns []) in
  let* numberFormat := truthy_prop "format.numberFormat" format "numberFormat" in
  let parts : list string :=
    ((if bold then ["bold"] else []) ++
     (if italic then ["italic"] else []) ++
     (if underline then ["underline"] else []) ++
     (if textColor then ["text color"] else []) ++
     (if backgroundColor then ["background color"] else []) ++
     size ++
     (if numberFormat then ["number format"] else []))%list in
  Returns (if (0 <? Z.of_nat (List.length parts))%Z
           then join_strings ", " parts else "formatting").

(** [`${sheetName ? sheetName + '!' : ''}`] *)
Definition sheet_prefix (sheetName : JsValue) : Outcome string :=
  if truthy sheetName
  then let* named := plus sheetName (JString "!") in ToString named
  else Returns "".

Definition simulateCreateSpreadsheet (params : gmap string JsValue) : Outcome DryRunResult :=
  let title := get params "title" in
  let sheetNames := get params "sheetNames" in
  let* title_text := ToString title in
  let* suffix :=
    (if truthy sheetNames
     then let* names := call_join "sheetNames.join" sheetNames ", " in
          Returns (" with sheets: " +:+ names)
     else Returns "") in
  Returns {|
    cells_affected := [];
    rows_affected := None;
    columns_affected := None;
    risk_level := low;
    reversible := false;
    preview := "Will create new spreadsheet " +:+ dquote +:+ title_text +:+ dquote +:+ suffix;
    warnings := None;
    estimated_impact := {| cells := num 0; rows := None; columns := None |}
  |}.

Definition simulateUpdateCells (params : gmap string JsValue) : Outcome DryRunResult :=
  let range := get params "range" in
  let values := get params "values" in
  let sheetName := get params "sheetName" in
  let* cellCount := countCellsInRange values in
  let affectedCells := expandRange range in
  let* large := greater_than cellCount 100 in
  let* count_text := ToString cellCount in
  let* prefix := sheet_prefix sheetName in
  let* range_text := ToString range in
  let* large_again := greater_than cellCount 100 in
  Returns {|
    cells_affected := affectedCells;
    rows_affected := None;
    columns_affected := None;
    risk_level := if large then medium else low;
    reversible := true;
    preview := "Will update " +:+ count_text +:+ " cell(s) in range "
               +:+ prefix +:+ range_text;
    warnings := if large_again
                then Some ["Large update detected - affects more than 100 cells"]
                else None;
    estimated_impact := {| cells := cellCount; rows := None; columns := None |}
  |}.

Definition simulateFormatCells (params : gmap string JsValue) : Outcome DryRunResult :=
  let range := get params "range" in
  let format := get params "format" in
  let sheetName := get params "sheetName" in
  let affectedCells := expandRange range in
  let* formatDesc := describeFormat format in
  let* prefix := sheet_prefix sheetName in
  let* range_text := ToString range in
  Returns {|
    cells_affected := affectedCells;
    rows_affected := None;
    columns_affected := None;
    risk_level := low;
    reversible := true;
    preview := "Will apply " +:+ formatDesc +:+ " to range " +:+ prefix +:+ range_text;
    warnings := None;
    estimated_impact :=
      {| cells := num (Z.of_nat (List.length affectedCells)); rows := None; columns := None |}
  |}.

(** [(_, i) => startIndex + i + 1] *)
Definition row_number (startIndex : JsValue) (i : Z) : Outcome JsValue :=
  let* shifted := plus startIndex (num i) in
  plus shifted (num 1).

Definition simulateInsertRows (params : gmap string JsValue) : Outcome DryRunResult :=
  let startIndex := get params "startIndex" in
  let count := with_default (get params "count") (num 1) in
  let* rows := array_from_length count (row_number startIndex) in
  let* many := greater_than count 10 in
  let* count_text := ToString count in
  let* first := plus startIndex (num 1) in
  let* first_text := ToString first in
  let* many_again := greater_than count 10 in
  Returns {|
    cells_affected := [];
    rows_affected := Some rows;
    columns_affected := None;
    risk_level := if many then medium else low;
    reversible := true;
    preview := "Will insert " +:+ count_text +:+ " row(s) starting at row " +:+ first_text;
    warnings := if many_again then Some ["Inserting more than 10 rows"] else None;
    estimated_impact := {| cells := num 0; rows := Some count; columns := None |}
  |}.

(** [(_, i) => this.indexToColumn(startIndex + i)] *)
Definition column_name (startIndex : JsValue) (i : Z) : Outcome string :=
  let* index := plus startIndex (num i) in
  indexToColumn index.

Definition simulateInsertColumns (params : gmap string JsValue) : Outcome DryRunResult :=
  let startIndex := get params "startIndex" in
  let count := with_default (get params "count") (num 1) in
  let* columns := array_from_length count (column_name startIndex) in
  let* many := greater_than count 5 in
  let* count_text := ToString count in
  let* first := indexToColumn startIndex in
  let* many_again := greater_than count 5 in
  Returns {|
    cells_affected := [];
    rows_affected := None;
    columns_affected := Some columns;
    risk_level := if many then medium else low;
    reversible := true;
    preview := "Will insert " +:+ count_text +:+ " column(s) starting at column " +:+ first;
    warnings := if many_again then Some ["Inserting more than 5 columns"] else None;
    estimated_impact := {| cells := num 0; rows := None; columns := Some count |}
  |}.

Definition simulateDeleteRows (params : gmap string JsValue) : Outcome DryRunResult :=
  let startIndex := get params "startIndex" in
  let count := with_default (get params "count") (num 1) in
  let* rows := array_from_length count (row_number startIndex) in
  let* count_text := ToString count in
  let* first := plus startIndex (num 1) in
  let* first_text := ToString first in
  Returns {|
    cells_affected := [];
    rows_affected := Some rows;
    columns_affected := None;
    risk_level := high;
    reversible := true;
    preview := warning_sign +:+ "  Will DELETE " +:+ count_text
               +:+ " row(s) starting at row " +:+ first_text
               +:+ ". This action removes data.";
    warnings := Some ["This is a destructive action"; "All data in these rows will be removed"];
    estimated_impact := {| cells := num 0; rows := Some count; columns := None |}
  |}.

Definition simulateDeleteColumns (params : gmap string JsValue) : Outcome DryRunResult :=
  let startIndex := get params "startIndex" in
  let count := with_default (get params "count") (num 1) in
  let* count_text := ToString count in
  let* first := indexToColumn startIndex in
  Returns {|
    cells_affected := [];
    rows_affected := None;
    columns_affected := None;
    risk_level := high;
    reversible := true;
    preview := warning_sign +:+ "  Will DELETE " +:+ count_text
               +:+ " column(s) starting at column " +:+ first
               +:+ ". This action removes data.";
    warnings := Some ["This is a destructive action"; "All data in these columns will be removed"];
    estimated_impact := {| cells := num 0; rows := None; columns := Some count |}
  |}.

Definition simulateClearRange (params : gmap string JsValue) : Outcome DryRunResult :=
  let range := get params "range" in
  let sheetName := get params "sheetName" in
  let affectedCells := expandRange range in
  let* cells_text := ToString (num (Z.of_nat (List.length affectedCells))) in
  let* prefix := sheet_prefix sheetName in
  let* range_text := ToString range in
  Returns {|
    cells_affected := affectedCells;
    rows_affected := None;
    columns_affected := None;
    risk_level := high;
    reversible := true;
    preview := warning_sign +:+ "  Will CLEAR " +:+ cells_text
               +:+ " cell(s) in range " +:+ prefix +:+ range_text
               +:+ ". All content will be removed.";
    warnings := Some ["This is a destructive action"; "Cell contents will be permanently cleared"];
    estimated_impact :=
      {| cells := num (Z.of_nat (List.length affectedCells)); rows := None; columns := None |}
  |}.

Definition simulateSortData (params : gmap string JsValue) : Outcome DryRunResult :=
  let range := get params "range" in
  let columnIndex := get params "columnIndex" in
  let ascending := get params "ascending" in
  let* column := indexToColumn columnIndex in
  Returns {|
    cells_affected := expandRange range;
    rows_affected := None;
    columns_affected := None;
    risk_level := medium;
    reversible := false;
    preview := "Will sort data by column " +:+ column +:+ " in "
               +:+ (if truthy ascending then "ascending" else "descending") +:+ " order";
    warnings := Some ["Sorting changes the order of rows"; "This action cannot be easily undone"];
    estimated_impact :=
      {| cells := num (Z.of_nat (List.length (expandRange range))); rows := None; columns := None |}
  |}.

Definition simulateMergeCells (params : gmap string JsValue) : Outcome DryRunResult :=
  let range := get params "range" in
  let* range_text := ToString range in
  Returns {|
    cells_affected := expandRange range;
    rows_affected := None;
    columns_affected := None;
    risk_level := low;
    reversible := true;
    preview := "Will merge cells in range " +:+ range_text;
    warnings := None;
    estimated_impact :=
      {| cells := num (Z.of_nat (List.length (expandRange range))); rows := None; columns := None |}
  |}.

Definition simulateAppendTransaction (params : gmap string JsValue) : Outcome DryRunResult :=
  let tx := js_or (get params "transaction") (JObject ∅) in
  let* tx_amount := prop "tx.amount" tx "amount" in
  let amount := js_nullish (js_nullish tx_amount (get params "amount")) (num 0) in
  let* tx_type := prop "tx.type" tx "type" in
  let* type_text := ToString (js_or tx_type (JString "transaction")) in
  let* amount_text := ToString amount in
  let* sheet_text := ToString (js_or (get params "sheetName") (JString "the active sheet")) in
  Returns {|
    cells_affected := [];
    rows_affected := None;
    columns_affected := None;
    risk_level := low;
    reversible := true;
    preview := "Will append a " +:+ type_text +:+ " entry (" +:+ amount_text +:+ ") to "
               +:+ sheet_text;
    warnings := None;
    estimated_impact := {| cells := num 5; rows := Some (num 1); columns := None |}
  |}.

Definition simulateCreateTallySheet (params : gmap string JsValue) : Outcome DryRunResult :=
  let* title_text := ToString (js_or (get params "title") (JString "Business Tally Sheet")) in
  Returns {|
    cells_affected := [JString "A1"; JString "B1"; JString "C1"; JString "D1"; JString "E1"];
    rows_affected := None;
    columns_affected := None;
    risk_level := low;
    reversible := false;
    preview := "Will create a new tally spreadsheet " +:+ dquote +:+ title_text
               +:+ dquote +:+ " with columns Date, Type, Category, Description, Amount";
    warnings := None;
    estimated_impact := {| cells := num 5; rows := Some (num 1); columns := Some (num 5) |}
  |}.

Definition simulateFreezeRows (params : gmap string JsValue) : Outcome DryRunResult :=
  let rowCount := get params "rowCount" in
  let columnCount := get params "columnCount" in
  let* rows_text := ToString (js_or rowCount (num 0)) in
  let* columns_text := ToString (js_or columnCount (num 0)) in
  Returns {|
    cells_affected := [];
    rows_affected := None;
    columns_affected := None;
    risk_level := low;
    reversible := true;
    preview := "Will freeze " +:+ rows_text +:+ " row(s) and " +:+ columns_text
               +:+ " column(s)";
    warnings := None;
    estimated_impact := {| cells := num 0; rows := None; columns := None |}
  |}.

Definition simulateCreateChart (params : gmap string JsValue) : Outcome DryRunResult :=
  let chartType := get params "chartType" in
  let* lowered := call_toLowerCase "chartType.toLowerCase" chartType in
  Returns {|
    cells_affected := [];
    rows_affected := None;
    columns_affected := None;
    risk_level := low;
    reversible := true;
    preview := "Will create a " +:+ lowered +:+ " chart";
    warnings := None;
    estimated_impact := {| cells := num 0; rows := None; columns := None |}
  |}.

Definition simulateApplyFormula (params : gmap string JsValue) : Outcome DryRunResult :=
  let range := get params "range" in
  let formula := get params "formula" in
  let affectedCells := expandRange range in
  let* formula_text := ToString formula in
  let* cells_text := ToString (num (Z.of_nat (List.length affectedCells))) in
  Returns {|
    cells_affected := affectedCells;
    rows_affected := None;
    columns_affected := None;
    risk_level := low;
    reversible := true;
    preview := "Will apply formula " +:+ dquote +:+ formula_text +:+ dquote +:+ " to "
               +:+ cells_text +:+ " cell(s)";
    warnings := None;
    estimated_impact :=
      {| cells := num (Z.of_nat (List.length affectedCells)); rows := None; columns := None |}
  |}.

(** The [switch (action)] of [simulate]; [None] is its [default:] branch. *)
Definition handler (action : string)
  : option (gmap string JsValue -> Outcome DryRunResult) :=
  if String.eqb action "create_spreadsheet" then Some simulateCreateSpreadsheet
  else if String.eqb action "update_cell" then Some simulateUpdateCells
  else if String.eqb action "update_range" then Some simulateUpdateCells
  else if String.eqb action "format_cells" then Some simulateFormatCells
  else if String.eqb action "insert_row" then Some simulateInsertRows
  else if String.eqb action "insert_column" then Some simulateInsertColumns
  else if String.eqb action "delete_row" then Some simulateDeleteRows
  else if String.eqb action "delete_column" then Some simulateDeleteColumns
  else if String.eqb action "clear_range" then Some simulateClearRange
  else if String.eqb action "sort_data" then Some simulateSortData
  else if String.eqb action "merge_cells" then Some simulateMergeCells
  else if String.eqb action "freeze_rows" then Some simulateFreezeRows
  else if String.eqb action "freeze_columns" then Some simulateFreezeRows
  else if String.eqb action "create_chart" then Some simulateCreateChart
  else if String.eqb action "apply_formula" then Some simulateApplyFormula
  else if String.eqb action "append_transaction" then Some simulateAppendTransaction
  else if String.eqb action "create_tally_sheet" then Some simulateCreateTallySheet
  else None.

(** [simulate(action, parameters, sheetId)]; no handler reads the sheet id. *)
Definition simulate (action : string) (parameters : gmap string JsValue) : Outcome DryRunResult :=
  rethrow "Dry-run failed: "
    match handler action with
    | Some simulateAction => simulateAction parameters
    | None => Throws (Error ("Unsupported action for dry-run: " +:+ action))
    end.

End WithRuntime.

(** The action kinds with a case in the [switch] of [simulate]. *)
Definition supported_actions : list string :=
  ["create_spreadsheet"; "update_cell"; "update_range"; "format_cells";
   "insert_row"; "insert_column"; "delete_row"; "delete_column";
   "clear_range"; "sort_data"; "merge_cells"; "freeze_rows"; "freeze_columns";
   "create_chart"; "apply_formula"; "append_transaction"; "create_tally_sheet"].

End DryRun.

(* ===================================================================== *)
(** ** The database and the Sheets backend *)
(* ===================================================================== *)

Module Store.
Import Js.

(** [enum ConversationState] *)
Inductive ConversationState : Type :=
| IDLE
| LISTENING
| TRANSCRIBING
| INTENT_CLASSIFIED
| CLARIFICATION_REQUIRED
| CONFIRMATION_REQUIRED
| READY_TO_EXECUTE
| EXECUTING
| COMPLETED
| ERROR.

#[global] Instance ConversationState_eq_dec : EqDecision ConversationState.
Proof. solve_decision. Defined.

Definition state_name (s : ConversationState) : string :=
  match s with
  | IDLE => "IDLE"
  | LISTENING => "LISTENING"
  | TRANSCRIBING => "TRANSCRIBING"
  | INTENT_CLASSIFIED => "INTENT_CLASSIFIED"
  | CLARIFICATION_REQUIRED => "CLARIFICATION_REQUIRED"
  | CONFIRMATION_REQUIRED => "CONFIRMATION_REQUIRED"
  | READY_TO_EXECUTE => "READY_TO_EXECUTE"
  | EXECUTING => "EXECUTING"
  | COMPLETED => "COMPLETED"
  | ERROR => "ERROR"
  end.

(** Rows of the tables.  Times are milliseconds since the epoch.
    [history] is not a column: it lists the states the row has held, oldest
    first and the current one last, and is kept only to state properties
    of the sequence of states a conversation visits. *)
Record Conversation : Type := {
  conv_userId : string;
  conv_sheetId : option string;
  state : ConversationState;
  updatedAt : Z;
  endedAt : option Z;
  history : list ConversationState
}.

Record RollbackAction : Type := {
  rb_userId : string;
  rb_actionId : string;
  rb_sheetId : string;
  undoAction : string;
  undoData : gmap string JsValue;
  executed : bool;
  expiresAt : Z;
  rb_createdAt : Z
}.

Record AuditLog : Type := {
  audit_userId : string;
  audit_action : string;
  audit_sheetId : JsValue;
  audit_success : bool;
  audit_errorMessage : option JsError
}.

(** A stored OAuth token: when it expires and whether [decrypt] succeeds on
    what is stored under the configured key. *)
Record GoogleToken : Type := {
  token_expiresAt : Z;
  token_decrypts : bool
}.

(** A call of a public method of [GoogleSheetsService] with its arguments;
    the class has these twelve methods and no other. *)
Inductive SheetsCall : Type :=
| createSpreadsheet (title sheetNames : JsValue)
| getSpreadsheet (spreadsheetId : JsValue)
| updateCells (spreadsheetId range values sheetName : JsValue)
| getCells (spreadsheetId range sheetName : JsValue)
| formatCells (spreadsheetId range format sheetId : JsValue)
| insertRows (spreadsheetId sheetId startIndex count : JsValue)
| insertColumns (spreadsheetId sheetId startIndex count : JsValue)
| deleteRows (spreadsheetId sheetId startIndex count : JsValue)
| sortData (spreadsheetId sheetId range sortColumnIndex ascending : JsValue)
| createChart (spreadsheetId sheetId chartType dataRange position : JsValue)
| freezeRows (spreadsheetId sheetId rowCount : JsValue)
| mergeCells (spreadsheetId range mergeType : JsValue).

Record World : Type := {
  conversations : gmap string Conversation;
  rollbackActions : gmap string RollbackAction;
  auditLogs : gmap string AuditLog;
  googleTokens : gmap string GoogleToken;
  (** the calls made on the Sheets service so far, oldest first *)
  sheetsCalls : list SheetsCall
}.

Definition set_conversations (f : gmap string Conversation -> gmap string Conversation)
    (w : World) : World :=
  {| conversations := f (conversations w);
     rollbackActions := rollbackActions w;
     auditLogs := auditLogs w;
     googleTokens := googleTokens w;
     sheetsCalls := sheetsCalls w |}.

Definition set_rollbackActions (f : gmap string RollbackAction -> gmap string RollbackAction)
    (w : World) : World :=
  {| conversations := conversations w;
     rollbackActions := f (rollbackActions w);
     auditLogs := auditLogs w;
     googleTokens := googleTokens w;
     sheetsCalls := sheetsCalls w |}.

Definition set_auditLogs (f : gmap string AuditLog -> gmap string AuditLog)
    (w : World) : World :=
  {| conversations := conversations w;
     rollbackActions := rollbackActions w;
     auditLogs := f (auditLogs w);
     googleTokens := googleTokens w;
     sheetsCalls := sheetsCalls w |}.

Definition record_call (c : SheetsCall) (w : World) : World :=
  {| conversations := conversations w;
     rollbackActions := rollbackActions w;
     auditLogs := auditLogs w;
     googleTokens := googleTokens w;
     sheetsCalls := sheetsCalls w ++ [c] |}.

(** What lies outside the sources: the Prisma schema and Google's servers. *)
Class Environment : Type := {
  (** whether the schema marks [Conversation.updatedAt] with [@updatedAt],
      so that every write to a row refreshes it *)
  updatedAt_managed : bool;
  (** the answer of the Sheets service to a call, given the calls before
      it: the data it resolves to, or the error it throws *)
  respond : list SheetsCall -> SheetsCall -> Outcome JsValue
}.

Section WithEnvironment.
Context {ENV : Environment}.

(** A Prisma write of [state] to one conversation row at time [now]. *)
Definition write_state (now : Z) (s : ConversationState) (c : Conversation) : Conversation :=
  {| conv_userId := conv_userId c;
     conv_sheetId := conv_sheetId c;
     state := s;
     updatedAt := if updatedAt_managed then now else updatedAt c;
     endedAt := endedAt c;
     history := history c ++ [s] |}.

(** [await sheetsService.method(args)] *)
Definition call_sheets (c : SheetsCall) (w : World) : Outcome JsValue * World :=
  (respond (sheetsCalls w) c, record_call c w).

End WithEnvironment.

End Store.

(* ===================================================================== *)
(** ** StateMachineService (lib/services/state-machine.service.ts) *)
(* ===================================================================== *)

Module StateMachine.
Import Js Store.

Definition VALID_TRANSITIONS (s : ConversationState) : list ConversationState :=
  match s with
  | IDLE => [LISTENING]
  | LISTENING => [TRANSCRIBING; IDLE; ERROR]
  | TRANSCRIBING => [INTENT_CLASSIFIED; ERROR]
  | INTENT_CLASSIFIED =>
      [CLARIFICATION_REQUIRED; CONFIRMATION_REQUIRED; READY_TO_EXECUTE; ERROR]
  | CLARIFICATION_REQUIRED => [LISTENING; IDLE]
  | CONFIRMATION_REQUIRED => [READY_TO_EXECUTE; IDLE; ERROR]
  | READY_TO_EXECUTE => [EXECUTING; ERROR]
  | EXECUTING => [COMPLETED; ERROR]
  | COMPLETED => [IDLE]
  | ERROR => [IDLE; LISTENING]
  end.

(** [includes] *)
Definition includes (l : list ConversationState) (s : ConversationState) : bool :=
  existsb (fun x => bool_decide (x = s)) l.

Definition isValidTransition (fromState toState : ConversationState) : bool :=
  includes (VALID_TRANSITIONS fromState) toState.

Record TransitionResult : Type := {
  success : bool;
  currentState : ConversationState;
  result_message : option string
}.

Section WithEnvironment.
Context {ENV : Environment}.

Definition transitionState (conversationId : string) (newState : ConversationState)
    (reason : option string) (now : Z) (w : World) : Outcome TransitionResult * World :=
  match conversations w !! conversationId with
  | None => (Throws (Error "Failed to transition state"), w)
  | Some conversation =>
      let currentState := state conversation in
      if isValidTransition currentState newState
      then
        (Returns {| success := true; currentState := newState; result_message := None |},
         set_conversations (insert conversationId (write_state now newState conversation)) w)
      else
        (Returns {| success := false;
                    currentState := currentState;
                    result_message :=
                      Some ("Invalid state transition from " +:+ state_name currentState
                            +:+ " to " +:+ state_name newState) |},
         w)
  end.

Definition getCurrentState (conversationId : string) (w : World)
    : Outcome ConversationState :=
  match conversations w !! conversationId with
  | None => Throws (Error "Failed to retrieve conversation state")
  | Some conversation => Returns (state conversation)
  end.

Definition resetToIdle (conversationId : string) (now : Z) (w : World) : Outcome unit * World :=
  match conversations w !! conversationId with
  | None => (Throws (Error "Failed to reset conversation state"), w)
  | Some conversation =>
      (Returns tt,
       set_conversations (insert conversationId (write_state now IDLE conversation)) w)
  end.

(** [handleError]: a failure of the write is caught and not thrown on. *)
Definition handleError (conversationId : string) (errorMessage : JsError)
    (currentState : option ConversationState) (now : Z) (w : World) : World :=
  match conversations w !! conversationId with
  | None => w
  | Some conversation =>
      set_conversations (insert conversationId (write_state now ERROR conversation)) w
  end.

Definition canReset (conversationId : string) (w : World) : Outcome bool :=
  let* currentState := getCurrentState conversationId w in
  Returns (negb (bool_decide (currentState = EXECUTING))).

Definition forceTransition (conversationId : string) (newState : ConversationState)
    (reason : string) (now : Z) (w : World) : Outcome unit * World :=
  match conversations w !! conversationId with
  | None => (Throws (Error "Failed to force state transition"), w)
  | Some conversation =>
      (Returns tt,
       set_conversations (insert conversationId (write_state now newState conversation)) w)
  end.

(** The [where] clause of [cleanupStuckConversations]:
    [state notIn (IDLE, COMPLETED)] and [updatedAt < cutoffTime]. *)
Definition stuck (cutoffTime : Z) (c : Conversation) : bool :=
  negb (includes [IDLE; COMPLETED] (state c)) && (updatedAt c <? cutoffTime).

(** [cleanupStuckConversations(maxAgeMinutes = 30)].  The cutoff is the
    clock moved back by [maxAgeMinutes] minutes; the server's time zone is
    taken to have no clock change in between. *)
Definition cleanupStuckConversations (maxAgeMinutes : option Z) (now : Z) (w : World)
    : nat * World :=
  let cutoffTime := now - default 30 maxAgeMinutes * 60000 in
  let count := size (filter (fun kv => stuck cutoffTime kv.2 = true) (conversations w)) in
  (count,
   set_conversations
     (fmap (fun c => if stuck cutoffTime c then write_state now ERROR c else c)) w).

End WithEnvironment.

End StateMachine.

(* ===================================================================== *)
(** ** GoogleSheetsService (lib/services/google-sheets.service.ts) *)
(* ===================================================================== *)

Module Sheets.
Import Js Store.

Inductive Dimension : Type := ROWS | COLUMNS.

(** The [range] of an insertDimension or deleteDimension request. *)
Record DimensionRange : Type := {
  range_sheetId : JsValue;
  dimension : Dimension;
  startIndex : JsValue;
  endIndex : JsValue
}.

(** A range argument of a batch request: given as a GridRange by the
    caller, or parsed from A1 notation by [parseRangeToGridRange]. *)
Inductive GridRange : Type :=
| given_range (range : JsValue)
| parsed_range (range sheetId : JsValue).

(** One element of [requests] in [spreadsheets.batchUpdate]. *)
Inductive BatchRequest : Type :=
| repeatCell (range : GridRange) (userEnteredFormat : JsValue)
| insertDimension (range : DimensionRange)
| deleteDimension (range : DimensionRange)
| sortRange (range : GridRange) (dimensionIndex ascending : JsValue)
| addChart (sheetId chartType dataRange position : JsValue)
| updateSheetProperties (sheetId frozenRowCount : JsValue)
| mergeCellsRequest (range : GridRange) (mergeType : JsValue).

(** A request to the Sheets API.  [fullRange] is
    [sheetName ? `${sheetName}!${range}` : range]. *)
Inductive ApiRequest : Type :=
| spreadsheets_create (title sheetNames : JsValue)
| spreadsheets_get (spreadsheetId : JsValue)
| values_update (spreadsheetId sheetName range values : JsValue)
| values_get (spreadsheetId sheetName range : JsValue)
| batchUpdate (spreadsheetId : JsValue) (requests : list BatchRequest).

Section WithRuntime.
Context {RT : JsRuntime}.

(** The request each method of the service sends. *)
Definition request_of (c : SheetsCall) : ApiRequest :=
  match c with
  | createSpreadsheet title sheetNames => spreadsheets_create title sheetNames
  | getSpreadsheet spreadsheetId => spreadsheets_get spreadsheetId
  | updateCells spreadsheetId range values sheetName =>
      values_update spreadsheetId sheetName range values
  | getCells spreadsheetId range sheetName => values_get spreadsheetId sheetName range
  | formatCells spreadsheetId range format sheetId =>
      batchUpdate spreadsheetId
        [repeatCell (parsed_range range (with_default sheetId (num 0))) format]
  | insertRows spreadsheetId sheetId startIndex count =>
      batchUpdate spreadsheetId
        [insertDimension {| range_sheetId := sheetId; dimension := ROWS;
                            startIndex := startIndex;
                            endIndex := js_add startIndex count |}]
  | insertColumns spreadsheetId sheetId startIndex count =>
      batchUpdate spreadsheetId
        [insertDimension {| range_sheetId := sheetId; dimension := COLUMNS;
                            startIndex := startIndex;
                            endIndex := js_add startIndex count |}]
  | deleteRows spreadsheetId sheetId startIndex count =>
      batchUpdate spreadsheetId
        [deleteDimension {| range_sheetId := sheetId; dimension := ROWS;
                            startIndex := startIndex;
                            endIndex := js_add startIndex count |}]
  | sortData spreadsheetId sheetId range sortColumnIndex ascending =>
      batchUpdate spreadsheetId
        [sortRange (given_range range) sortColumnIndex
           (JBool (truthy (with_default ascending (JBool true))))]
  | createChart spreadsheetId sheetId chartType dataRange position =>
      batchUpdate spreadsheetId [addChart sheetId chartType dataRange position]
  | freezeRows spreadsheetId sheetId rowCount =>
      batchUpdate spreadsheetId [updateSheetProperties sheetId rowCount]
  | mergeCells spreadsheetId range mergeType =>
      batchUpdate spreadsheetId
        [mergeCellsRequest (given_range range)
           (with_default mergeType (JString "MERGE_ALL"))]
  end.

End WithRuntime.

(** A request that deletes columns. *)
Definition deletes_columns (r : BatchRequest) : bool :=
  match r with
  | deleteDimension range =>
      match dimension range with COLUMNS => true | ROWS => false end
  | _ => false
  end.

Definition deletes_rows (r : BatchRequest) : bool :=
  match r with
  | deleteDimension range =>
      match dimension range with ROWS => true | COLUMNS => false end
  | _ => false
  end.

Definition batch_requests (r : ApiRequest) : list BatchRequest :=
  match r with
  | batchUpdate _ requests => requests
  | _ => []
  end.

(** [getGoogleSheetsService(userId)]: whether a service can be built for
    the user at time [now]. *)
Definition getGoogleSheetsService (userId : string) (now : Z) (w : World) : Outcome unit :=
  match googleTokens w !! userId with
  | None =>
      Throws (Error "User has not connected Google Sheets. Please authenticate first.")
  | Some token =>
      if (token_expiresAt token <? now)%Z
      then Throws (Error "Google authentication token has expired. Please re-authenticate.")
      else if token_decrypts token
      then Returns tt
      else Throws (Error "Failed to decrypt data")
  end.

End Sheets.

(* ===================================================================== *)
(** ** RollbackService (lib/services/rollback.service.ts) *)
(* ===================================================================== *)

Module Rollback.
Import Js Store Sheets.

Definition ROLLBACK_WINDOW_HOURS : Z := 24.

(** The names every object inherits from [Object.prototype]: a lookup of
    one of them in an object literal finds the inherited member. *)
Definition inherited_names : list string :=
  ["constructor"; "__defineGetter__"; "__defineSetter__"; "hasOwnProperty";
   "__lookupGetter__"; "__lookupSetter__"; "isPrototypeOf"; "propertyIsEnumerable";
   "toString"; "valueOf"; "__proto__"; "toLocaleString"].

Definition undoMap : list (string * string) :=
  [("update_cell", "restore_cell");
   ("update_range", "restore_range");
   ("format_cells", "restore_format");
   ("insert_row", "delete_inserted_row");
   ("insert_column", "delete_inserted_column");
   ("delete_row", "restore_deleted_row");
   ("delete_column", "restore_deleted_column");
   ("clear_range", "restore_cleared_range");
   ("merge_cells", "unmerge_cells")].

Fixpoint assoc (k : string) (l : list (string * string)) : option string :=
  match l with
  | [] => None
  | (k', v) :: rest => if String.eqb k k' then Some v else assoc k rest
  end.

(** [undoMap[action] || 'undo_' + action]; [None] when the lookup finds an
    inherited member of the map object, which is not a string. *)
Definition getUndoAction (action : string) : option string :=
  match assoc action undoMap with
  | Some undo => Some undo
  | None =>
      if existsb (String.eqb action) inherited_names
      then None
      else Some ("undo_" +:+ action)
  end.

(** [currentData?.k] for the data read before the mutation. *)
Definition current (currentData : option (gmap string JsValue)) (k : string) : JsValue :=
  match currentData with
  | None => JUndefined
  | Some data => get data k
  end.

Definition generateUndoData (action : string) (parameters : gmap string JsValue)
    (currentData : option (gmap string JsValue)) : gmap string JsValue :=
  if String.eqb action "update_cell" || String.eqb action "update_range" then
    object [("range", get parameters "range");
            ("previousValues",
             js_or (current currentData "values") (JArray [JArray [JString ""]]));
            ("sheetName", get parameters "sheetName")]
  else if String.eqb action "format_cells" then
    object [("range", get parameters "range");
            ("previousFormat", js_or (current currentData "format") (JObject ∅));
            ("sheetName", get parameters "sheetName")]
  else if String.eqb action "insert_row" then
    object [("startIndex", get parameters "startIndex");
            ("count", js_or (get parameters "count") (num 1));
            ("sheetId", get parameters "sheetId")]
  else if String.eqb action "insert_column" then
    object [("startIndex", get parameters "startIndex");
            ("count", js_or (get parameters "count") (num 1));
            ("sheetId", get parameters "sheetId")]
  else if String.eqb action "delete_row" then
    object [("startIndex", get parameters "startIndex");
            ("count", js_or (get parameters "count") (num 1));
            ("deletedData", js_or (current currentData "rowData") (JArray []));
            ("sheetId", get parameters "sheetId")]
  else if String.eqb action "delete_column" then
    object [("startIndex", get parameters "startIndex");
            ("count", js_or (get parameters "count") (num 1));
            ("deletedData", js_or (current currentData "columnData") (JArray []));
            ("sheetId", get parameters "sheetId")]
  else if String.eqb action "clear_range" then
    object [("range", get parameters "range");
            ("clearedValues", js_or (current currentData "values") (JArray []));
            ("sheetName", get parameters "sheetName")]
  else if String.eqb action "merge_cells" then
    object [("range", get parameters "range");
            ("sheetId", get parameters "sheetId")]
  else parameters.

Section WithEnvironment.
Context {RT : JsRuntime} {ENV : Environment}.

(** [createSnapshot]; the database assigns the new row an unused id, and
    the window of 24 hours is added to the clock as it stands. *)
Definition createSnapshot (userId actionId sheetId action : string)
    (parameters : gmap string JsValue) (currentData : option (gmap string JsValue))
    (now : Z) (w : World) : Outcome (string * RollbackAction) * World :=
  let undoData := generateUndoData action parameters currentData in
  match getUndoAction action with
  | None => (Throws (Error "Failed to create undo snapshot"), w)
  | Some undoAction =>
      let expiresAt := now + ROLLBACK_WINDOW_HOURS * 3600000 in
      let id := fresh (dom (rollbackActions w)) in
      let snapshot :=
        {| rb_userId := userId; rb_actionId := actionId; rb_sheetId := sheetId;
           undoAction := undoAction; undoData := undoData; executed := false;
           expiresAt := expiresAt; rb_createdAt := now |} in
      (Returns (id, snapshot), set_rollbackActions (insert id snapshot) w)
  end.

(** [x && x.length > 0] *)
Definition non_empty (v : JsValue) : bool :=
  truthy v &&
  match length_of "length" v with
  | Returns len => js_gt len 0
  | Throws _ => false
  end.

(** [await sheetsService.method(args)] with the result dropped. *)
Definition perform (c : SheetsCall) (w : World) : Outcome unit * World :=
  let '(r, w1) := call_sheets c w in
  (let* _ := r in Returns tt, w1).

(** [performUndo(sheetsService, rollback)].  After re-inserting deleted
    rows the handler only warns that their data is not restored, and for
    unmerge_cells it only warns that nothing is done. *)
Definition performUndo (rollback : RollbackAction) (w : World) : Outcome unit * World :=
  let undoAction := undoAction rollback in
  let undoData := undoData rollback in
  let sheetId := JString (rb_sheetId rollback) in
  if String.eqb undoAction "restore_cell" || String.eqb undoAction "restore_range" then
    perform (updateCells sheetId (get undoData "range") (get undoData "previousValues")
               (get undoData "sheetName")) w
  else if String.eqb undoAction "restore_format" then
    perform (formatCells sheetId (get undoData "range") (get undoData "previousFormat")
               (js_or (get undoData "sheetId") (num 0))) w
  else if String.eqb undoAction "delete_inserted_row" then
    perform (deleteRows sheetId (js_or (get undoData "sheetId") (num 0))
               (get undoData "startIndex") (get undoData "count")) w
  else if String.eqb undoAction "delete_inserted_column" then
    perform (deleteRows sheetId (js_or (get undoData "sheetId") (num 0))
               (get undoData "startIndex") (get undoData "count")) w
  else if String.eqb undoAction "restore_deleted_row" then
    perform (insertRows sheetId (js_or (get undoData "sheetId") (num 0))
               (get undoData "startIndex") (get undoData "count")) w
  else if String.eqb undoAction "restore_cleared_range" then
    if non_empty (get undoData "clearedValues")
    then perform (updateCells sheetId (get undoData "range") (get undoData "clearedValues")
                    (get undoData "sheetName")) w
    else (Returns tt, w)
  else if String.eqb undoAction "unmerge_cells" then (Returns tt, w)
  else (Throws (Error ("Unsupported undo action: " +:+ undoAction)), w).

(** [findFirst({ where: { id, userId, executed: false } })] *)
Definition find_pending (rollbackId userId : string) (w : World) : option RollbackAction :=
  match rollbackActions w !! rollbackId with
  | Some rollback =>
      if String.eqb (rb_userId rollback) userId && negb (executed rollback)
      then Some rollback
      else None
  | None => None
  end.

(** [data: { executed: true }] *)
Definition mark_executed (rollback : RollbackAction) : RollbackAction :=
  {| rb_userId := rb_userId rollback; rb_actionId := rb_actionId rollback;
     rb_sheetId := rb_sheetId rollback; undoAction := undoAction rollback;
     undoData := undoData rollback; executed := true;
     expiresAt := expiresAt rollback; rb_createdAt := rb_createdAt rollback |}.

Record UndoResult : Type := {
  undo_success : bool;
  undo_message : string
}.

(** The body of the [try] block of [executeUndo]. *)
Definition executeUndo_body (userId rollbackId : string) (now : Z) (w : World)
    : Outcome UndoResult * World :=
  match find_pending rollbackId userId w with
  | None => (Throws (Error "Rollback action not found or already executed"), w)
  | Some rollback =>
      if (expiresAt rollback <? now)%Z
      then
        (Throws (Error "Undo window expired. Actions can only be undone within 24 hours"), w)
      else
        match getGoogleSheetsService userId now w with
        | Throws e => (Throws e, w)
        | Returns _ =>
            let '(undone, w1) := performUndo rollback w in
            match undone with
            | Throws e => (Throws e, w1)
            | Returns _ =>
                (Returns {| undo_success := true;
                            undo_message :=
                              "Successfully undid action: " +:+ undoAction rollback |},
                 set_rollbackActions (insert rollbackId (mark_executed rollback)) w1)
            end
        end
  end.

(** [executeUndo(userId, rollbackId)] *)
Definition executeUndo (userId rollbackId : string) (now : Z) (w : World)
    : Outcome UndoResult * World :=
  let '(r, w1) := executeUndo_body userId rollbackId now w in
  (rethrow "Undo failed: " r, w1).

End WithEnvironment.

End Rollback.

(* ===================================================================== *)
(** ** IntentParserService.validateIntent and ConversationService *)
(* ===================================================================== *)

Module Intent.
Import Js Store.

(** [SheetActionIntent], as the request schema admits it.  The confidence
    is a rational; the literal [0.6] is six tenths. *)
Record SheetActionIntent : Type := {
  action : string;
  parameters : gmap string JsValue;
  confirmationRequired : bool;
  clarificationNeeded : option string;
  confidence : Q
}.

Record Validation : Type := {
  valid : bool;
  validation_message : option string
}.

(** A string that is present and not empty, that is, truthy. *)
Definition given (s : option string) : option string :=
  match s with
  | Some text => if String.eqb text "" then None else Some text
  | None => None
  end.

Definition validateIntent (intent : SheetActionIntent) : Validation :=
  if Qle_bool (6 # 10) (confidence intent)
  then
    match given (clarificationNeeded intent) with
    | Some text => {| valid := false; validation_message := Some text |}
    | None => {| valid := true; validation_message := None |}
    end
  else
    {| valid := false;
       validation_message :=
         Some (default "I'm not confident I understood correctly. Could you rephrase that?"
                 (given (clarificationNeeded intent))) |}.

End Intent.

Module Conversations.
Import Js Store.

Section WithEnvironment.
Context {ENV : Environment}.

(** [ConversationService.transitionState], [getConversationState] and
    [resetState] hand over to the state machine. *)
Definition transitionState := StateMachine.transitionState.
Definition getConversationState := StateMachine.getCurrentState.
Definition resetState := StateMachine.resetToIdle.

(** [ConversationService.handleError] *)
Definition handleError (conversationId : string) (errorMessage : JsError)
    (now : Z) (w : World) : Outcome unit * World :=
  match StateMachine.getCurrentState conversationId w with
  | Throws e => (Throws e, w)
  | Returns currentState =>
      (Returns tt,
       StateMachine.handleError conversationId errorMessage (Some currentState) now w)
  end.

End WithEnvironment.

(** A row of the message table, as [addMessage] fills it from its first
    three arguments. *)
Record Message : Type := {
  msg_conversationId : string;
  msg_role : string;
  msg_content : string
}.

(** [ConversationService.addMessage(conversationId, role, content)].  The
    message table is outside [World].  On the conversation row the method
    writes [updatedAt] itself, [data: { updatedAt: new Date() }], so the
    row is refreshed whatever the schema does; without the row the update
    throws. *)
Definition addMessage (conversationId role content : string) (now : Z) (w : World)
    : Outcome Message * World :=
  match conversations w !! conversationId with
  | None => (Throws (Error "Failed to add message to conversation"), w)
  | Some conversation =>
      (Returns {| msg_conversationId := conversationId;
                  msg_role := role;
                  msg_content := content |},
       set_conversations
         (insert conversationId
            {| conv_userId := conv_userId conversation;
               conv_sheetId := conv_sheetId conversation;
               state := state conversation;
               updatedAt := now;
               endedAt := endedAt conversation;
               history := history conversation |}) w)
  end.

End Conversations.

(* ===================================================================== *)
(** ** Route handlers *)
(* ===================================================================== *)

Module Routes.
Import Js Store DryRun Intent Sheets.

(** The request bodies, for a signed-in user within the rate limit. *)
Record DryRunRequest : Type := {
  dr_action : string;
  dr_parameters : gmap string JsValue;
  dr_conversationId : option string
}.

Inductive DryRunResponse : Type :=
| dry_run_bad_request
| dry_run_ok (dryRun : DryRunResult) (requiresConfirmation : bool)
| dry_run_failed (e : JsError).

Record ExecuteRequest : Type := {
  intent : SheetActionIntent;
  sheetId : option string;
  confirmed : bool;
  conversationId : option string
}.

Inductive ExecuteResponse : Type :=
| requires_confirmation
| executed_ok (result : gmap string JsValue)
| execution_failed (e : JsError)
(** the error handler itself threw: the handler's promise rejects *)
| handler_rejected (e : JsError).

Section WithEnvironment.
Context {RT : JsRuntime} {ENV : Environment}.

(** The state the dry-run route asks for:
    [let nextState = 'READY_TO_EXECUTE';
     if (result.risk_level === 'high' || result.reversible === false)
       nextState = 'CONFIRMATION_REQUIRED';] *)
Definition nextState (result : DryRunResult) : ConversationState :=
  if bool_decide (risk_level result = high) || negb (reversible result)
  then CONFIRMATION_REQUIRED
  else READY_TO_EXECUTE.

(** [requiresConfirmation: result.risk_level === 'high' || !result.reversible] *)
Definition requiresConfirmation (result : DryRunResult) : bool :=
  bool_decide (risk_level result = high) || negb (reversible result).

(** POST /api/sheets/dry-run *)
Definition dry_run_route (req : DryRunRequest) (now : Z) (w : World)
    : DryRunResponse * World :=
  if String.eqb (dr_action req) "" then (dry_run_bad_request, w)
  else
    match simulate (dr_action req) (dr_parameters req) with
    | Throws e => (dry_run_failed e, w)
    | Returns result =>
        match given (dr_conversationId req) with
        | None => (dry_run_ok result (requiresConfirmation result), w)
        | Some conversationId =>
            match Conversations.getConversationState conversationId w with
            | Throws e => (dry_run_failed e, w)
            | Returns _ =>
                let '(moved, w1) :=
                  Conversations.transitionState conversationId (nextState result) None now w in
                match moved with
                | Throws e => (dry_run_failed e, w1)
                | Returns _ => (dry_run_ok result (requiresConfirmation result), w1)
                end
            end
        end
    end.

(** [rawAmount.replace(/,/g, '')] *)
Fixpoint remove_commas (s : string) : string :=
  match s with
  | EmptyString => EmptyString
  | String c rest =>
      if Ascii.eqb c ","%char then remove_commas rest else String c (remove_commas rest)
  end.

(** Whether [buildTransactionRow] finds a finite amount.  Before that,
    [tx.type || (tx.amount && Number(tx.amount) < 0 ? 'Expense' : 'Sale')]
    converts the amount of a transaction without a type. *)
Definition transaction_amount_is_finite (parameters : gmap string JsValue) : Outcome bool :=
  let tx := js_or (get parameters "transaction") (JObject ∅) in
  let* tx_type := prop "tx.type" tx "type" in
  let* tx_amount := prop "tx.amount" tx "amount" in
  let* _ :=
    (if truthy tx_type then Returns tt
     else if truthy tx_amount then let* _ := ToNumber tx_amount in Returns tt
     else Returns tt) in
  let rawAmount := js_nullish (js_nullish tx_amount (get parameters "amount")) (num 0) in
  let* amount :=
    match rawAmount with
    | JString text => ToNumber (JString (remove_commas text))
    | _ => ToNumber rawAmount
    end in
  Returns (match amount with NaN => false | Num _ => true end).

(** One call of the service inside [executeAction]. *)
Definition invoke (c : SheetsCall) (k : JsValue -> Outcome (gmap string JsValue))
    (w : World) : Outcome (gmap string JsValue) * World :=
  let '(r, w1) := call_sheets c w in
  (let* response := r in k response, w1).

(** [if (!sheetId) throw new Error('Sheet ID is required for ...')] *)
Definition need_sheet (sheetId : option string) (what : string)
    (k : JsValue -> World -> Outcome (gmap string JsValue) * World)
    (w : World) : Outcome (gmap string JsValue) * World :=
  match given sheetId with
  | None => (Throws (Error ("Sheet ID is required for " +:+ what)), w)
  | Some id => k (JString id) w
  end.

(** [executeAction(sheetsService, intent, sheetId)].  The service has no
    [clearRange] and no [appendValues]: calling them is a TypeError.  The
    [switch] has no case for delete_column. *)
Definition executeAction (i : SheetActionIntent) (sheetId : option string) (w : World)
    : Outcome (gmap string JsValue) * World :=
  let p := parameters i in
  let a := action i in
  if String.eqb a "create_spreadsheet" then
    invoke (createSpreadsheet (get p "title") (get p "sheetNames"))
      (fun spreadsheet =>
         let* id := prop "spreadsheet.spreadsheetId" spreadsheet "spreadsheetId" in
         let* url := prop "spreadsheet.spreadsheetUrl" spreadsheet "spreadsheetUrl" in
         let* title_text := ToString (get p "title") in
         Returns (object [("sheetId", id); ("sheetName", get p "title"); ("url", url);
                          ("message", JString ("Created new spreadsheet: " +:+ title_text))]))
      w
  else if String.eqb a "update_cell" || String.eqb a "update_range" then
    need_sheet sheetId "update operations"
      (fun id =>
         invoke (updateCells id (get p "range") (get p "values") (get p "sheetName"))
           (fun updateResult =>
              let* updatedCells := prop "updateResult.updatedCells" updateResult "updatedCells" in
              let* cells_text := ToString updatedCells in
              Returns (object [("sheetId", id); ("sheetName", get p "sheetName");
                               ("updatedCells", updatedCells);
                               ("message", JString ("Updated " +:+ cells_text +:+ " cells"))])))
      w
  else if String.eqb a "format_cells" then
    need_sheet sheetId "formatting"
      (fun id =>
         invoke (formatCells id (get p "range") (get p "format") (js_or (get p "sheetId") (num 0)))
           (fun _ =>
              let* range_text := ToString (get p "range") in
              Returns (object [("sheetId", id);
                               ("message", JString ("Formatted cells in range " +:+ range_text))])))
      w
  else if String.eqb a "insert_row" then
    need_sheet sheetId "inserting rows"
      (fun id =>
         invoke (insertRows id (js_or (get p "sheetId") (num 0)) (get p "startIndex")
                   (js_or (get p "count") (num 1)))
           (fun _ =>
              let* count_text := ToString (js_or (get p "count") (num 1)) in
              Returns (object [("sheetId", id);
                               ("message",
                                JString ("Inserted " +:+ count_text +:+ " row(s)"))])))
      w
  else if String.eqb a "insert_column" then
    need_sheet sheetId "inserting columns"
      (fun id =>
         invoke (insertColumns id (js_or (get p "sheetId") (num 0)) (get p "startIndex")
                   (js_or (get p "count") (num 1)))
           (fun _ =>
              let* count_text := ToString (js_or (get p "count") (num 1)) in
              Returns (object [("sheetId", id);
                               ("message",
                                JString ("Inserted " +:+ count_text +:+ " column(s)"))])))
      w
  else if String.eqb a "delete_row" then
    need_sheet sheetId "deleting rows"
      (fun id =>
         invoke (deleteRows id (js_or (get p "sheetId") (num 0)) (get p "startIndex")
                   (js_or (get p "count") (num 1)))
           (fun _ =>
              let* count_text := ToString (js_or (get p "count") (num 1)) in
              Returns (object [("sheetId", id);
                               ("message", JString ("Deleted " +:+ count_text +:+ " row(s)"))])))
      w
  else if String.eqb a "freeze_rows" then
    need_sheet sheetId "freezing rows"
      (fun id =>
         invoke (freezeRows id (js_or (get p "sheetId") (num 0)) (get p "rowCount"))
           (fun _ =>
              let* rows_text := ToString (get p "rowCount") in
              Returns (object [("sheetId", id);
                               ("message", JString ("Froze " +:+ rows_text +:+ " row(s)"))])))
      w
  else if String.eqb a "merge_cells" then
    need_sheet sheetId "merging cells"
      (fun id =>
         invoke (mergeCells id (get p "range") (get p "mergeType"))
           (fun _ =>
              Returns (object [("sheetId", id);
                               ("message", JString "Cells merged successfully")])))
      w
  else if String.eqb a "sort_data" then
    need_sheet sheetId "sorting"
      (fun id =>
         invoke (sortData id (js_or (get p "sheetId") (num 0)) (get p "range")
                   (get p "columnIndex")
                   (JBool (negb match get p "ascending" with
                                | JBool false => true
                                | _ => false
                                end)))
           (fun _ =>
              Returns (object [("sheetId", id);
                               ("message", JString "Data sorted successfully")])))
      w
  else if String.eqb a "create_chart" then
    need_sheet sheetId "creating charts"
      (fun id =>
         invoke (createChart id (js_or (get p "sheetId") (num 0)) (get p "chartType")
                   (get p "dataRange") (get p "position"))
           (fun _ =>
              let* type_text := ToString (get p "chartType") in
              Returns (object [("sheetId", id);
                               ("message", JString ("Created " +:+ type_text +:+ " chart"))])))
      w
  else if String.eqb a "apply_formula" then
    need_sheet sheetId "formulas"
      (fun id =>
         invoke (updateCells id (get p "range") (JArray [JArray [get p "formula"]])
                   (get p "sheetName"))
           (fun _ =>
              let* range_text := ToString (get p "range") in
              Returns (object [("sheetId", id);
                               ("message", JString ("Applied formula in range " +:+ range_text))])))
      w
  else if String.eqb a "clear_range" then
    need_sheet sheetId "clearing ranges"
      (fun _ w0 => (Throws (TypeError "sheetsService.clearRange"), w0))
      w
  else if String.eqb a "append_transaction" then
    need_sheet sheetId "appending transactions"
      (fun _ w0 =>
         (let* finite := transaction_amount_is_finite p in
          if finite then Throws (TypeError "sheetsService.appendValues")
          else Throws (Error "Invalid transaction amount"), w0))
      w
  else if String.eqb a "create_tally_sheet" then
    let '(created, w1) :=
      call_sheets (createSpreadsheet (js_or (get p "title") (JString "Business Tally Sheet"))
                     (JArray [js_or (get p "sheetName") (JString "Tally")])) w in
    match created with
    | Throws e => (Throws e, w1)
    | Returns tallySheet =>
        match prop "tallySheet.spreadsheetId" tallySheet "spreadsheetId" with
        | Throws e => (Throws e, w1)
        | Returns id =>
            invoke (updateCells id (JString "A1:E1")
                      (JArray [JArray [JString "Date"; JString "Type"; JString "Category";
                                       JString "Description"; JString "Amount"]])
                      (js_or (get p "sheetName") (JString "Tally")))
              (fun _ =>
                 let* url := prop "tallySheet.spreadsheetUrl" tallySheet "spreadsheetUrl" in
                 Returns (object [("sheetId", id);
                                  ("sheetName",
                                   js_or (get p "title") (JString "Business Tally Sheet"));
                                  ("url", url);
                                  ("message",
                                   JString "Created business tally sheet with transaction headers")]))
              w1
        end
    end
  else (Throws (Error ("Unsupported action: " +:+ a)), w).

(** [auditService.logAction]: the database assigns the id. *)
Definition logAction (entry : AuditLog) (w : World) : string * World :=
  let id := fresh (dom (auditLogs w)) in
  (id, set_auditLogs (insert id entry) w).

(** The [catch] block of the execute route. *)
Definition execute_failed (userId : string) (req : ExecuteRequest) (e : JsError)
    (now : Z) (w : World) : ExecuteResponse * World :=
  let '(_, w1) :=
    logAction {| audit_userId := userId;
                 audit_action := default "unknown" (given (Some (action (intent req))));
                 audit_sheetId := match sheetId req with
                                  | Some id => JString id
                                  | None => JUndefined
                                  end;
                 audit_success := false;
                 audit_errorMessage := Some e |} w in
  match given (conversationId req) with
  | None => (execution_failed e, w1)
  | Some id =>
      let '(handled, w2) := Conversations.handleError id e now w1 in
      match handled with
      | Throws e' => (handler_rejected e', w2)
      | Returns _ => (execution_failed e, w2)
      end
  end.

(** [if (body.conversationId) await conversationService.transitionState(...)]:
    what the transition returns is not looked at. *)
Definition move_if_given (conversationId : option string) (s : ConversationState)
    (reason : string) (now : Z) (w : World) : Outcome unit * World :=
  match given conversationId with
  | Some id =>
      let '(r, w1) := Conversations.transitionState id s (Some reason) now w in
      (let* _ := r in Returns tt, w1)
  | None => (Returns tt, w)
  end.

(** The rollback snapshot of the execute route: a failure to create it is
    caught and does not fail the request. *)
Definition snapshot_if_sheet (userId auditId : string) (req : ExecuteRequest)
    (now : Z) (w : World) : World :=
  match given (sheetId req) with
  | Some sheet =>
      (Rollback.createSnapshot userId auditId sheet (action (intent req))
         (parameters (intent req)) None now w).2
  | None => w
  end.

(** POST /api/sheets/execute *)
Definition execute_route (userId : string) (req : ExecuteRequest) (now : Z) (w : World)
    : ExecuteResponse * World :=
  if confirmationRequired (intent req) && negb (confirmed req)
  then (requires_confirmation, w)
  else
    match getGoogleSheetsService userId now w with
    | Throws e => execute_failed userId req e now w
    | Returns _ =>
        let '(started, w1) :=
          move_if_given (conversationId req) EXECUTING
            "Starting sheet operation execution" now w in
        match started with
        | Throws e => execute_failed userId req e now w1
        | Returns _ =>
            let '(done, w2) := executeAction (intent req) (sheetId req) w1 in
            match done with
            | Throws e => execute_failed userId req e now w2
            | Returns result =>
                let '(auditId, w3) :=
                  logAction {| audit_userId := userId;
                               audit_action := action (intent req);
                               audit_sheetId := get result "sheetId";
                               audit_success := true;
                               audit_errorMessage := None |} w2 in
                let w4 := snapshot_if_sheet userId auditId req now w3 in
                let '(finished, w5) :=
                  move_if_given (conversationId req) COMPLETED
                    "Sheet operation completed successfully" now w4 in
                match finished with
                | Throws e => execute_failed userId req e now w5
                | Returns _ => (executed_ok result, w5)
                end
            end
        end
    end.

(** PUT /api/conversation/state *)
Definition put_state_route (conversationId : string) (newState : ConversationState)
    (reason : option string) (now : Z) (w : World) : Outcome ConversationState * World :=
  let '(r, w1) := Conversations.transitionState conversationId newState reason now w in
  match r with
  | Throws e => (Throws e, w1)
  | Returns result =>
      if StateMachine.success result
      then (Returns (StateMachine.currentState result), w1)
      else (Throws (Error (default "Invalid state transition"
                             (given (StateMachine.result_message result)))), w1)
  end.

(** POST /api/conversation/state (reset) *)
Definition reset_route (conversationId : string) (now : Z) (w : World)
    : Outcome ConversationState * World :=
  let '(r, w1) := Conversations.resetState conversationId now w in
  (let* _ := r in Returns IDLE, w1).

(** POST /api/sheets/undo *)
Definition undo_route (userId rollbackId : string) (now : Z) (w : World)
    : Outcome Rollback.UndoResult * World :=
  if String.eqb rollbackId "" then (Throws (Error "Missing required field: rollbackId"), w)
  else
    let '(r, w1) := Rollback.executeUndo userId rollbackId now w in
    (r,
     (logAction {| audit_userId := userId;
                   audit_action := "undo_action";
                   audit_sheetId := JUndefined;
                   audit_success := returned r;
                   audit_errorMessage := match r with
                                         | Throws e => Some e
                                         | Returns _ => None
                                         end |} w1).2).

(** A request on the path of a conversation turn. *)
Inductive Request : Type :=
| PutState (conversationId : string) (newState : ConversationState) (reason : option string)
| Reset (conversationId : string)
| DryRunOf (req : DryRunRequest)
| Execute (userId : string) (req : ExecuteRequest)
| Undo (userId rollbackId : string).

(** The world after the server has answered one request at time [now]. *)
Definition serve (r : Request) (now : Z) (w : World) : World :=
  match r with
  | PutState id newState reason => (put_state_route id newState reason now w).2
  | Reset id => (reset_route id now w).2
  | DryRunOf req => (dry_run_route req now w).2
  | Execute userId req => (execute_route userId req now w).2
  | Undo userId rollbackId => (undo_route userId rollbackId now w).2
  end.

(** Requests answered one after the other, each at its own time. *)
Fixpoint serve_all (rs : list (Request * Z)) (w : World) : World :=
  match rs with
  | [] => w
  | (r, now) :: rest => serve_all rest (serve r now w)
  end.

End WithEnvironment.

End Routes.

(* ===================================================================== *)
(** ** A runtime, a backend and inputs for closed examples *)
(* ===================================================================== *)

Module Sample.
Import Js Store DryRun Intent Routes.

Definition lower_ascii (c : ascii) : ascii :=
  let n := nat_of_ascii c in
  if (65 <=? n)%nat && (n <=? 90)%nat then ascii_of_nat (n + 32) else c.

Fixpoint lower (s : string) : string :=
  match s with
  | EmptyString => EmptyString
  | String c rest => String (lower_ascii c) (lower rest)
  end.

(** A runtime that agrees with the engine on decimal integers written
    without sign, blank or exponent and on ASCII letters; the closed
    examples below convert nothing else. *)
Definition decimal_runtime : JsRuntime := {|
  StringToNumber :=
    fun s => match NilZero.int_of_string s with
             | Some i => Num (Z.of_int i)
             | None => NaN
             end;
  IntegerToString := fun z => NilZero.string_of_int (Z.to_int z);
  toLowerCase := lower
|}.

(** A schema with [@updatedAt] and a backend that accepts every call and
    answers with an empty object. *)
Definition accepting : Environment := {|
  updatedAt_managed := true;
  respond := fun _ _ => Returns (JObject ∅)
|}.

Definition conversation_in (s : ConversationState) (hist : list ConversationState)
    (at_time : Z) : Conversation :=
  {| conv_userId := "user-1"; conv_sheetId := Some "sheet-1"; state := s;
     updatedAt := at_time; endedAt := None; history := hist |}.

(** A world with one user, whose token is good until time 1000000, and the
    given conversations. *)
Definition world_with (convs : gmap string Conversation) : World :=
  {| conversations := convs;
     rollbackActions := ∅;
     auditLogs := ∅;
     googleTokens := {[ "user-1" := {| token_expiresAt := 1000000; token_decrypts := true |} ]};
     sheetsCalls := [] |}.

Definition idle_world : World :=
  world_with {[ "conv-1" := conversation_in IDLE [IDLE] 0 ]}.


(** At minute 9 one conversation entered EXECUTING and another COMPLETED. *)
Definition stale_world : World :=
  world_with
    {[ "conv-1" := conversation_in EXECUTING [IDLE; EXECUTING] (9 * 60000);
       "conv-2" := conversation_in COMPLETED [IDLE; COMPLETED] (9 * 60000) ]}.

(** At minute 9 a conversation ended in ERROR. *)
Definition failed_world : World :=
  world_with
    {[ "conv-1" := conversation_in ERROR [IDLE; LISTENING; ERROR] (9 * 60000) ]}.

(** At minute 8 a conversation became ready to execute. *)
Definition ready_world : World :=
  world_with
    {[ "conv-1" := conversation_in READY_TO_EXECUTE
                     [IDLE; LISTENING; TRANSCRIBING; INTENT_CLASSIFIED; READY_TO_EXECUTE]
                     (8 * 60000) ]}.

Definition inserted_rows_record : RollbackAction :=
  {| rb_userId := "user-1"; rb_actionId := "audit-1"; rb_sheetId := "sheet-1";
     undoAction := "delete_inserted_row";
     undoData := {[ "startIndex" := num 3; "count" := num 2 ]};
     executed := false; expiresAt := 5000; rb_createdAt := 0 |}.

(** user-1 holds one rollback record, made for two inserted rows, that
    expires at time 5000. *)
Definition world_with_rollback : World :=
  set_rollbackActions (insert "rb-1" inserted_rows_record) (world_with ∅).

(** A turn that walks the table up to EXECUTING and is then reset. *)
Definition turn_then_reset : list (Request * Z) :=
  [(PutState "conv-1" LISTENING None, 1000);
   (PutState "conv-1" TRANSCRIBING None, 2000);
   (PutState "conv-1" INTENT_CLASSIFIED None, 3000);
   (PutState "conv-1" READY_TO_EXECUTE None, 4000);
   (PutState "conv-1" EXECUTING None, 5000);
   (Reset "conv-1", 6000)].

(** An execute request for an action kind the executor has no case for,
    sent for a conversation that is still IDLE. *)
Definition execute_delete_column : ExecuteRequest :=
  {| intent := {| action := "delete_column";
                  parameters := {[ "startIndex" := num 2 ]};
                  confirmationRequired := true;
                  clarificationNeeded := None;
                  confidence := 95 # 100 |};
     sheetId := Some "sheet-1";
     confirmed := true;
     conversationId := Some "conv-1" |}.



Definition delete_row_intent (hint : bool) : SheetActionIntent :=
  {| action := "delete_row";
     parameters := {[ "startIndex" := num 4 ]};
     confirmationRequired := hint;
     clarificationNeeded := None;
     confidence := 95 # 100 |}.

(** A delete_row sent to the executor without the confirmation flag, the
    classifier's hint being [hint]. *)
Definition unconfirmed_delete (hint : bool) : ExecuteRequest :=
  {| intent := delete_row_intent hint;
     sheetId := Some "sheet-1";
     confirmed := false;
     conversationId := None |}.


End Sample.

(* ===================================================================== *)
(** ** The vocabulary of the properties *)
(* ===================================================================== *)

Import Js Store DryRun StateMachine Sheets Rollback Intent Routes.

Definition is_nullish (v : JsValue) : bool :=
  match v with JUndefined | JNull => true | _ => false end.

Definition is_array (v : JsValue) : bool :=
  match v with JArray _ => true | _ => false end.

(** A row whose [length] [countCellsInRange] can add up: the row is not
    null or undefined, and where it is an object its own [length] is
    convertible. *)
Definition row_usable (row : JsValue) : bool :=
  match row with
  | JUndefined | JNull => false
  | JObject fields => convertible (get fields "length")
  | _ => true
  end.

(** [values] as [countCellsInRange] can fold it: an array of usable rows. *)
Definition rows_usable (values : JsValue) : bool :=
  match values with
  | JArray rows => forallb row_usable rows
  | _ => false
  end.

(** [format] as [describeFormat] can read it: not null or undefined, and
    where it is an object its [fontSize] is convertible. *)
Definition format_usable (format : JsValue) : bool :=
  match format with
  | JUndefined | JNull => false
  | JObject fields => convertible (get fields "fontSize")
  | _ => true
  end.

(** The count, read as the length of an array, is at most 2^32 - 1. *)
Definition array_length_allowed {RT : JsRuntime} (count : JsValue) : bool :=
  match number_of count with
  | Num z => z <? 2 ^ 32
  | NaN => true
  end.

(** [v.k] for a value that is not null or undefined and a key no
    prototype defines. *)
Definition own (v : JsValue) (k : string) : JsValue :=
  match v with
  | JObject fields => get fields k
  | _ => JUndefined
  end.

(** The parameters a handler reads, in the shape it needs them: what it
    dereferences is there, what it converts to a string or a number is
    convertible, and the array it makes is not too long. *)
Definition parameters_usable {RT : JsRuntime} (action : string)
    (params : gmap string JsValue) : bool :=
  let count := with_default (get params "count") (num 1) in
  let tx := js_or (get params "transaction") (JObject ∅) in
  if String.eqb action "create_spreadsheet"
  then convertible (get params "title")
       && (negb (truthy (get params "sheetNames"))
           || is_array (get params "sheetNames") && convertible (get params "sheetNames"))
  else if String.eqb action "update_cell" || String.eqb action "update_range"
  then rows_usable (get params "values")
       && convertible (get params "sheetName") && convertible (get params "range")
  else if String.eqb action "format_cells"
  then format_usable (get params "format")
       && convertible (get params "sheetName") && convertible (get params "range")
  else if String.eqb action "insert_row" || String.eqb action "insert_column"
          || String.eqb action "delete_row"
  then convertible count && array_length_allowed count
       && convertible (get params "startIndex")
  else if String.eqb action "delete_column"
  then convertible count && convertible (get params "startIndex")
  else if String.eqb action "clear_range"
  then convertible (get params "sheetName") && convertible (get params "range")
  else if String.eqb action "sort_data" then convertible (get params "columnIndex")
  else if String.eqb action "merge_cells" then convertible (get params "range")
  else if String.eqb action "freeze_rows" || String.eqb action "freeze_columns"
  then convertible (get params "rowCount") && convertible (get params "columnCount")
  else if String.eqb action "create_chart" then is_string (get params "chartType")
  else if String.eqb action "apply_formula" then convertible (get params "formula")
  else if String.eqb action "append_transaction"
  then convertible (own tx "type")
       && convertible (js_nullish (js_nullish (own tx "amount") (get params "amount")) (num 0))
       && convertible (get params "sheetName")
  else if String.eqb action "create_tally_sheet" then convertible (get params "title")
  else true.

Definition supported (action : string) : bool :=
  existsb (String.eqb action) supported_actions.


(** [a] then [b] is a move of the transition table. *)
Definition table_step (a b : ConversationState) : Prop := b ∈ VALID_TRANSITIONS a.

(** [a] then [b] is a move the request path can make: one of the table, a
    reset to IDLE, or an error handler's write of ERROR. *)
Definition request_step (a b : ConversationState) : Prop :=
  b ∈ VALID_TRANSITIONS a \/ b = IDLE \/ b = ERROR.

(** Every two successive states of [l] are related by [step]. *)
Fixpoint walk (step : ConversationState -> ConversationState -> Prop)
    (l : list ConversationState) : Prop :=
  match l with
  | a :: rest =>
      match rest with
      | b :: _ => step a b /\ walk step rest
      | [] => True
      end
  | [] => True
  end.

(** The history of a conversation starts at IDLE, ends at its current
    state and moves by [step]. *)
Definition visits (step : ConversationState -> ConversationState -> Prop)
    (c : Conversation) : Prop :=
  head (history c) = Some IDLE /\
  walk step (history c) /\
  last (history c) = Some (state c).

Definition all_visit (step : ConversationState -> ConversationState -> Prop)
    (w : World) : Prop :=
  forall id c, conversations w !! id = Some c -> visits step c.

(** A record that [userId] may still undo: it has the id, belongs to the
    user and is not executed. *)
Definition pending (w : World) (rollbackId userId : string) (rollback : RollbackAction)
    : Prop :=
  rollbackActions w !! rollbackId = Some rollback /\
  rb_userId rollback = userId /\
  executed rollback = false.

Definition not_found : JsError :=
  Wrapped "Undo failed: " (Error "Rollback action not found or already executed").

Definition window_expired : JsError :=
  Wrapped "Undo failed: "
    (Error "Undo window expired. Actions can only be undone within 24 hours").

(** The call that undoes an inserted column. *)
Definition undo_call_of_column_insert (sheet : string) (params : gmap string JsValue)
    : SheetsCall :=
  deleteRows (JString sheet)
    (js_or (get params "sheetId") (num 0))
    (get params "startIndex")
    (js_or (get params "count") (num 1)).


(** The dry-run request the client sends for an intent. *)
Definition dry_run_of (i : SheetActionIntent) (conversationId : string) : DryRunRequest :=
  {| dr_action := action i;
     dr_parameters := parameters i;
     dr_conversationId := Some conversationId |}.

(** Case analysis on an action kind tested by a chain of [String.eqb]:
    either it is one of the literals, or every test fails. *)
Ltac case_action a :=
  repeat match goal with
         | |- context [String.eqb a ?lit] =>
             let E := fresh "E" in
             destruct (String.eqb a lit) eqn:E;
             [apply String.eqb_eq in E; subst a | ]
         end.

(** Destructs the innermost scrutinee of the goal. *)
Ltac split_scrutinee :=
  match goal with
  | |- context [match ?x with _ => _ end] =>
      lazymatch x with
      | context [match _ with _ => _ end] => fail
      | _ => destruct x eqn:?
      end
  end.

Ltac by_cases := repeat (simpl; split_scrutinee); simpl; try reflexivity.

(* ===================================================================== *)
(** ** GoogleSheetsService: A1 notation *)
(* ===================================================================== *)

Module A1Notation.
Import Js.

(** [column.charCodeAt(i)] for the characters a column name is made of. *)
Definition charCode (c : ascii) : Z := Z.of_nat (nat_of_ascii c).

(** [columnToIndex]:
    [for (...) index = index * 26 + (column.charCodeAt(i) - 65 + 1);
     return index - 1;] *)
Definition columnToIndex (column : string) : Z :=
  fold_left (fun index c => index * 26 + (charCode c - 65 + 1))
    (list_ascii_of_string column) 0 - 1.

(** The character classes [[A-Z]] and [\d] of the range pattern. *)
Definition is_capital (c : ascii) : bool :=
  (65 <=? charCode c) && (charCode c <=? 90).

Definition is_digit (c : ascii) : bool :=
  (48 <=? charCode c) && (charCode c <=? 57).

(** The longest prefix made of characters of a class, and what follows it:
    a greedy [[...]+]. *)
Fixpoint span (p : ascii -> bool) (s : string) : string * string :=
  match s with
  | String c rest =>
      if p c
      then let '(taken, others) := span p rest in (String c taken, others)
      else ("", s)
  | EmptyString => ("", "")
  end.

(** A capture group [(...+)?]: [undefined] when it took nothing. *)
Definition group (taken : string) : option string :=
  if String.eqb taken "" then None else Some taken.

(** The capture groups of a match of
    [/^([A-Z]+)?(\d+)?(?::([A-Z]+)?(\d+)?)?$/]. *)
Record RangeMatch : Type := {
  startCol : option string;
  startRow : option string;
  endCol : option string;
  endRow : option string
}.

(** [range.match(/^([A-Z]+)?(\d+)?(?::([A-Z]+)?(\d+)?)?$/)]; the classes
    are disjoint and exclude the colon, so the greedy match is the only
    one. *)
Definition match_range (range : string) : option RangeMatch :=
  let '(g1, after1) := span is_capital range in
  let '(g2, after2) := span is_digit after1 in
  match after2 with
  | EmptyString =>
      Some {| startCol := group g1; startRow := group g2; endCol := None; endRow := None |}
  | String c after_colon =>
      if Ascii.eqb c ":"%char
      then
        let '(g3, after3) := span is_capital after_colon in
        let '(g4, after4) := span is_digit after3 in
        match after4 with
        | EmptyString =>
            Some {| startCol := group g1; startRow := group g2;
                    endCol := group g3; endRow := group g4 |}
        | String _ _ => None
        end
      else None
  end.

(** [parseInt] on a string of decimal digits. *)
Definition parseInt (digits : string) : Z :=
  fold_left (fun n c => n * 10 + (charCode c - 48)) (list_ascii_of_string digits) 0.

(** [sheets_v4.Schema$GridRange] as [parseRangeToGridRange] fills it; an
    index that is [undefined] leaves the range open on that side. *)
Record GridRangeIndexes : Type := {
  grid_sheetId : JsValue;
  startRowIndex : option Z;
  endRowIndex : option Z;
  startColumnIndex : option Z;
  endColumnIndex : option Z
}.

(** [parseRangeToGridRange(range, sheetId)] *)
Definition parseRangeToGridRange (range : string) (sheetId : JsValue)
    : Outcome GridRangeIndexes :=
  match match_range range with
  | None => Throws (Error ("Invalid range format: " +:+ range))
  | Some m =>
      Returns {| grid_sheetId := sheetId;
                 startRowIndex := (fun row => parseInt row - 1) <$> startRow m;
                 endRowIndex := parseInt <$> endRow m;
                 startColumnIndex := columnToIndex <$> startCol m;
                 endColumnIndex := (fun col => columnToIndex col + 1) <$> endCol m |}
  end.

End A1Notation.

(* ===================================================================== *)
(** ** RollbackService: the undo history and its upkeep *)
(* ===================================================================== *)

Module RollbackQueries.
Import Js Store.

(** Prisma's [take: n] on an ordered result: the first [n] rows, or the
    last [-n] rows when [n] is negative. *)
Definition take_rows {A : Type} (n : Z) (rows : list A) : list A :=
  if (0 <=? n)%Z
  then take (Z.to_nat n) rows
  else drop (List.length rows - Z.to_nat (- n)) rows.

(** [orderBy: { createdAt: 'desc' }].  Rows created at the same time come
    in an order the database is free to choose; the sort fixes one. *)
Definition newer (a b : string * RollbackAction) : Prop :=
  rb_createdAt b.2 <= rb_createdAt a.2.

#[global] Instance newer_dec (a b : string * RollbackAction) : Decision (newer a b).
Proof. unfold newer. apply _. Defined.

(** [where: { userId, executed: false, expiresAt: { gt: now } }] *)
Definition available (userId : string) (now : Z) (row : string * RollbackAction) : Prop :=
  rb_userId row.2 = userId /\ executed row.2 = false /\ now < expiresAt row.2.

#[global] Instance available_dec (userId : string) (now : Z) (row : string * RollbackAction) :
  Decision (available userId now row).
Proof. unfold available. apply _. Defined.

(** [getUndoHistory(userId, limit = 10)]: the rows with their ids. *)
Definition getUndoHistory (userId : string) (limit : option Z) (now : Z) (w : World)
    : list (string * RollbackAction) :=
  take_rows (default 10 limit)
    (merge_sort newer (map_to_list (filter (available userId now) (rollbackActions w)))).

(** [where: { expiresAt: { lt: now } }] *)
Definition expired (now : Z) (row : string * RollbackAction) : Prop :=
  expiresAt row.2 < now.

#[global] Instance expired_dec (now : Z) (row : string * RollbackAction) :
  Decision (expired now row).
Proof. unfold expired. apply _. Defined.

(** [cleanupExpired()]: the number of rows deleted and the world without
    them. *)
Definition cleanupExpired (now : Z) (w : World) : nat * World :=
  (size (filter (expired now) (rollbackActions w)),
   set_rollbackActions (filter (fun row => ~ expired now row)) w).

Record UndoStats : Type := {
  availableUndos : nat;
  executedUndos : nat;
  expiredUndos : nat
}.

(** [getUndoStats(userId)] *)
Definition getUndoStats (userId : string) (now : Z) (w : World) : UndoStats :=
  {| availableUndos := size (filter (available userId now) (rollbackActions w));
     executedUndos :=
       size (filter (fun row : string * RollbackAction =>
                       rb_userId row.2 = userId /\ executed row.2 = true)
               (rollbackActions w));
     expiredUndos :=
       size (filter (fun row : string * RollbackAction =>
                       rb_userId row.2 = userId /\ expiresAt row.2 < now)
               (rollbackActions w)) |}.

End RollbackQueries.

(* ===================================================================== *)
(** ** Rate limiting (lib/middleware/rate-limiter.ts, with-rate-limit.ts) *)
(* ===================================================================== *)

Module RateLimiter.

Record RateLimitConfig : Type := {
  windowMs : Z;
  maxRequests : Z
}.

(** [keyof typeof RATE_LIMIT_CONFIGS]: every caller of [withRateLimit]
    passes one of the four keys of the table as a literal. *)
Inductive RateLimitAction : Type :=
| api_call
| voice_transcribe
| sheet_operation
| auth_attempt.

#[global] Instance RateLimitAction_eq_dec : EqDecision RateLimitAction.
Proof. solve_decision. Defined.

Definition action_name (a : RateLimitAction) : string :=
  match a with
  | api_call => "api_call"
  | voice_transcribe => "voice_transcribe"
  | sheet_operation => "sheet_operation"
  | auth_attempt => "auth_attempt"
  end.

Definition RATE_LIMIT_CONFIGS (a : RateLimitAction) : RateLimitConfig :=
  match a with
  | api_call => {| windowMs := 60 * 1000; maxRequests := 60 |}
  | voice_transcribe => {| windowMs := 60 * 1000; maxRequests := 20 |}
  | sheet_operation => {| windowMs := 60 * 1000; maxRequests := 30 |}
  | auth_attempt => {| windowMs := 15 * 60 * 1000; maxRequests := 5 |}
  end.

(** The table [rateLimit]: the count stored under the unique key
    [identifier_action_windowStart]. *)
Definition RateLimits : Type := gmap (string * string * Z) Z.

Record RateLimitResult : Type := {
  allowed : bool;
  remaining : Z;
  resetAt : Z
}.

(** [checkRateLimit(identifier, action, config)] at time [now];
    [withRateLimit], its only caller, gives all three arguments. *)
Definition checkRateLimit (identifier action : string) (config : RateLimitConfig)
    (now : Z) (table : RateLimits) : RateLimitResult * RateLimits :=
  let windowStart := now - windowMs config in
  match table !! (identifier, action, windowStart) with
  | None =>
      ({| allowed := true;
          remaining := maxRequests config - 1;
          resetAt := windowStart + windowMs config |},
       <[(identifier, action, windowStart) := 1]> table)
  | Some count =>
      if maxRequests config <=? count
      then
        ({| allowed := false; remaining := 0; resetAt := windowStart + windowMs config |},
         table)
      else
        ({| allowed := true;
            remaining := maxRequests config - (count + 1);
            resetAt := windowStart + windowMs config |},
         <[(identifier, action, windowStart) := count + 1]> table)
  end.

(** The 429 answer: its [resetAt] and its [Retry-After] header,
    [Math.ceil((resetAt - Date.now()) / 1000)]. *)
Record TooManyRequests : Type := {
  reset_time : Z;
  retry_after : Z
}.

(** [withRateLimit(identifier, action)]: [None] is the [null] that lets
    the request through.  [now] is the clock as [checkRateLimit] reads it
    and [later] the clock as the header reads it afterwards. *)
Definition withRateLimit (identifier : string) (action : RateLimitAction) (now later : Z)
    (table : RateLimits) : option TooManyRequests * RateLimits :=
  let '(result, table') :=
    checkRateLimit identifier (action_name action) (RATE_LIMIT_CONFIGS action) now table in
  (if allowed result
   then None
   else Some {| reset_time := resetAt result;
                retry_after := - ((later - resetAt result) / 1000) |},
   table').

(** The table after a run of requests, each by an identifier for an
    action at a time, starting from [table]; the table does not depend on
    the second reading of the clock. *)
Fixpoint limit_all (requests : list (string * RateLimitAction * Z)) (table : RateLimits)
    : RateLimits :=
  match requests with
  | [] => table
  | (identifier, action, now) :: rest =>
      limit_all rest (withRateLimit identifier action now now table).2
  end.

End RateLimiter.

(* ===================================================================== *)
(** ** ConversationService: rows that only their owner may change *)
(* ===================================================================== *)

Module ConversationRows.
Import Js Store.

Section WithEnvironment.
Context {ENV : Environment}.

(** A Prisma write to a conversation row that leaves its state alone. *)
Definition touch (now : Z) (ended : option Z) (sheet : option string) (c : Conversation)
    : Conversation :=
  {| conv_userId := conv_userId c;
     conv_sheetId := sheet;
     state := state c;
     updatedAt := if updatedAt_managed then now else updatedAt c;
     endedAt := ended;
     history := history c |}.

(** [updateMany({ where: { id, userId }, data })] on the one row the id
    names. *)
Definition update_owned (conversationId userId : string)
    (change : Conversation -> Conversation) (w : World) : World :=
  match conversations w !! conversationId with
  | Some c =>
      if String.eqb (conv_userId c) userId
      then set_conversations (insert conversationId (change c)) w
      else w
  | None => w
  end.

(** [endConversation(conversationId, userId)] *)
Definition endConversation (conversationId userId : string) (now : Z) (w : World) : World :=
  update_owned conversationId userId
    (fun c => touch now (Some now) (conv_sheetId c) c) w.

(** [updateConversationSheet(conversationId, sheetId, userId)] *)
Definition updateConversationSheet (conversationId sheetId userId : string) (now : Z)
    (w : World) : World :=
  update_owned conversationId userId
    (fun c => touch now (endedAt c) (Some sheetId) c) w.

(** [deleteConversation(conversationId, userId)] *)
Definition deleteConversation (conversationId userId : string) (w : World) : World :=
  match conversations w !! conversationId with
  | Some c =>
      if String.eqb (conv_userId c) userId
      then set_conversations (delete conversationId) w
      else w
  | None => w
  end.

End WithEnvironment.

End ConversationRows.

(* ===================================================================== *)
(** ** The request schema (lib/utils/validation.ts) *)
(* ===================================================================== *)

Module Validation.

(** The action kinds [sheetActionIntentSchema] admits. *)
Definition schema_actions : list string :=
  ["create_spreadsheet"; "open_spreadsheet"; "update_cell"; "update_range";
   "insert_row"; "insert_column"; "delete_row"; "delete_column"; "format_cells";
   "apply_formula"; "sort_data"; "filter_data"; "create_chart"; "rename_sheet";
   "merge_cells"; "freeze_rows"; "freeze_columns"; "add_data_validation";
   "clear_range"; "append_transaction"; "create_tally_sheet"].

End Validation.

(* ===================================================================== *)
(** ** Further vocabulary *)
(* ===================================================================== *)

Import A1Notation RollbackQueries RateLimiter ConversationRows Validation.

(** A string made of the letters A to Z only. *)
Definition all_capitals (s : string) : bool :=
  forallb is_capital (list_ascii_of_string s).

(** A string made of the digits 0 to 9 only. *)
Definition all_digits (s : string) : bool :=
  forallb is_digit (list_ascii_of_string s).

(** What follows a greedy run: the end of the string or a character
    outside the class. *)
Definition stops (p : ascii -> bool) (others : string) : Prop :=
  match others with
  | EmptyString => True
  | String c _ => p c = false
  end.

(** The strings the range pattern matches: capital letters, then digits,
    then possibly a colon with capital letters and digits again; every run
    may be empty. *)
Definition a1_shape (range : string) : Prop :=
  exists c1 r1 tail,
    range = c1 +:+ r1 +:+ tail /\
    all_capitals c1 = true /\
    all_digits r1 = true /\
    (tail = "" \/
     exists c2 r2, tail = ":" +:+ c2 +:+ r2 /\
                   all_capitals c2 = true /\ all_digits r2 = true).

(** Membership of an action kind in a list of kinds. *)
Definition one_of (kinds : list string) (action : string) : bool :=
  existsb (String.eqb action) kinds.

(** The kinds whose report is high risk, and those whose report says that
    the action cannot be reversed. *)
Definition destructive_kinds : list string :=
  ["delete_row"; "delete_column"; "clear_range"].

Definition irreversible_kinds : list string :=
  ["create_spreadsheet"; "sort_data"; "create_tally_sheet"].

(** The action kinds whose undo kind has a case in [performUndo]. *)
Definition undoable_kinds : list string :=
  ["update_cell"; "update_range"; "format_cells"; "insert_row"; "insert_column";
   "delete_row"; "clear_range"; "merge_cells"].

(** The length of the undo window in milliseconds. *)
Definition undo_window : Z := 24 * 3600000.

(** Sample inputs for the closed examples of the further properties. *)
Module MoreSamples.
Import Js Store Intent Routes.

(** Two rows to be inserted at index 3. *)
Definition insert_two_rows : SheetActionIntent :=
  {| action := "insert_row";
     parameters := {[ "startIndex" := num 3; "count" := num 2 ]};
     confirmationRequired := false;
     clarificationNeeded := None;
     confidence := 9 # 10 |}.

(** A column to be deleted; the classifier asks for confirmation. *)
Definition delete_one_column : SheetActionIntent :=
  {| action := "delete_column";
     parameters := {[ "startIndex" := num 2 ]};
     confirmationRequired := true;
     clarificationNeeded := None;
     confidence := 9 # 10 |}.

(** The request to execute an intent on sheet-1, confirmed, for the
    conversation conv-1. *)
Definition confirmed_request (i : SheetActionIntent) : ExecuteRequest :=
  {| intent := i;
     sheetId := Some "sheet-1";
     confirmed := true;
     conversationId := Some "conv-1" |}.

(** One cell to be overwritten. *)
Definition overwrite_cell : SheetActionIntent :=
  {| action := "update_cell";
     parameters := {[ "range" := JString "B2";
                      "values" := JArray [JArray [num 45000]] ]};
     confirmationRequired := false;
     clarificationNeeded := None;
     confidence := 98 # 100 |}.

(** A world whose one conversation, conv-1, is in the given state. *)
Definition world_in (s : ConversationState) : World :=
  Sample.world_with {[ "conv-1" := Sample.conversation_in s [IDLE; s] 900 ]}.

End MoreSamples.

(** The action kinds for which [executeAction] has a case that calls a
    method the Sheets service has. *)
Definition served_kinds : list string :=
  ["create_spreadsheet"; "update_cell"; "update_range"; "format_cells"; "insert_row";
   "insert_column"; "delete_row"; "freeze_rows"; "merge_cells"; "sort_data";
   "create_chart"; "apply_formula"; "create_tally_sheet"].

(** The two kinds that create a spreadsheet and so need no sheet id. *)
Definition creating_kinds : list string := ["create_spreadsheet"; "create_tally_sheet"].

(** [w'] is [w] with one more audit record, [entry]. *)
Definition audited (w w' : World) (entry : AuditLog) : Prop :=
  exists id, auditLogs w !! id = None /\ auditLogs w' = <[id := entry]> (auditLogs w).

(** The audit record of an execute request that failed with [e]. *)
Definition failure_entry (userId : string) (req : ExecuteRequest) (e : JsError) : AuditLog :=
  {| audit_userId := userId;
     audit_action := default "unknown" (given (Some (action (intent req))));
     audit_sheetId := match sheetId req with
                      | Some id => JString id
                      | None => JUndefined
                      end;
     audit_success := false;
     audit_errorMessage := Some e |}.

(** The audit record of an execute request that went through. *)
Definition success_entry (userId : string) (req : ExecuteRequest)
    (result : gmap string JsValue) : AuditLog :=
  {| audit_userId := userId;
     audit_action := action (intent req);
     audit_sheetId := get result "sheetId";
     audit_success := true;
     audit_errorMessage := None |}.

(** The kinds the simulator reports on although the executor cannot run
    them. *)
Definition simulated_only_kinds : list string :=
  ["delete_column"; "freeze_columns"; "clear_range"; "append_transaction"].

(** How many of the requests are the request [r] itself: the same
    identifier, action and time. *)
Definition same_instant (r : string * RateLimitAction * Z)
    (requests : list (string * RateLimitAction * Z)) : nat :=
  List.length (List.filter (fun x => bool_decide (x = r)) requests).

(** The kinds of the schema that neither the simulator nor the executor
    knows. *)
Definition unknown_kinds : list string :=
  ["open_spreadsheet"; "filter_data"; "rename_sheet"; "add_data_validation"].

(** The world after the state requests [path] for one conversation, in
    turn, all at time [now]. *)
Fixpoint request_states {ENV : Environment} (path : list ConversationState)
    (conversationId : string) (now : Z) (w : World) : World :=
  match path with
  | [] => w
  | s :: rest =>
      request_states rest conversationId now
        (put_state_route conversationId s None now w).2
  end.

(** Takes a chain of calls that returned apart: every call of the chain
    returned, and the result is the last one's. *)
Ltac returned_chain H :=
  repeat match type of H with
         | bind ?m _ = Returns _ =>
             let x := fresh "x" in
             let E := fresh "E" in
             destruct m as [x|] eqn:E; cbn [bind] in H; [|discriminate H]
         end.

(** Brings a successful run of [simulate] down to the report of the
    handler that produced it. *)
Ltac report_of H :=
  unfold simulate, handler in H;
  repeat match type of H with
         | context [String.eqb ?a ?lit] =>
             first
               [ is_var a;
                 let E := fresh "E" in
                 destruct (String.eqb a lit) eqn:E;
                 [apply String.eqb_eq in E; subst a | ]
               | let v := eval vm_compute in (String.eqb a lit) in
                 change (String.eqb a lit) with v in H ]
         end;
  cbv beta iota in H;
  cbn [rethrow] in H;
  try discriminate H;
  match type of H with
  | rethrow _ ?run = _ =>
      let Hrun := fresh "Hrun" in
      destruct run eqn:Hrun; cbn [rethrow] in H; [|discriminate H];
      injection H as <-;
      unfold simulateCreateSpreadsheet, simulateUpdateCells, simulateFormatCells,
        simulateInsertRows, simulateInsertColumns, simulateDeleteRows,
        simulateDeleteColumns, simulateClearRange, simulateSortData, simulateMergeCells,
        simulateFreezeRows, simulateCreateChart, simulateApplyFormula,
        simulateAppendTransaction, simulateCreateTallySheet in Hrun;
      cbv zeta in Hrun;
      returned_chain Hrun;
      injection Hrun as <-
  end.

(** Decides the comparisons of literal keys in the goal. *)
Ltac compare_keys :=
  repeat match goal with
         | |- context [String.eqb ?a ?b] =>
             let v := eval vm_compute in (String.eqb a b) in
             change (String.eqb a b) with v
         end.

(* ===================================================================== *)
(** * Properties of the risk simulator *)
(* ===================================================================== *)

Section SimulatorProperties.
Context {RT : JsRuntime}.

Lemma returned_bind {A B : Type} (m : Outcome A) (k : A -> Outcome B) :
  returned (bind m k) =
  match m with Returns a => returned (k a) | Throws _ => false end.
Proof. destruct m; reflexivity. Qed.

Lemma returned_rethrow {A : Type} (prefix : string) (m : Outcome A) :
  returned (rethrow prefix m) = returned m.
Proof. destruct m; reflexivity. Qed.

Lemma returned_true {A : Type} (m : Outcome A) :
  returned m = true <-> exists a, m = Returns a.
Proof.
  destruct m as [a|e]; simpl; split; eauto; try discriminate.
  intros [a H]. discriminate.
Qed.

(** ** Conversions *)

Lemma falsy_convertible (v : JsValue) : truthy v = false -> convertible v = true.
Proof. destruct v; simpl; try reflexivity; discriminate. Qed.

Lemma convertible_or (v d : JsValue) :
  convertible d = true -> convertible (js_or v d) = convertible v.
Proof.
  intros Hd. unfold js_or. destruct (truthy v) eqn:E; [reflexivity|].
  rewrite Hd. symmetry. by apply falsy_convertible.
Qed.

Lemma js_add_convertible (a b : JsValue) : convertible (js_add a b) = true.
Proof. unfold js_add. destruct (_ || _); reflexivity. Qed.

Lemma ToString_convertible (v : JsValue) :
  convertible v = true -> ToString v = Returns (string_of v).
Proof. intros H. unfold ToString. by rewrite H. Qed.

Lemma ToString_throws (v : JsValue) :
  convertible v = false -> ToString v = Throws cannot_convert.
Proof. intros H. unfold ToString. by rewrite H. Qed.

Lemma plus_convertible (a b : JsValue) :
  convertible a = true -> convertible b = true -> plus a b = Returns (js_add a b).
Proof. intros Ha Hb. unfold plus, ToPrimitive. by rewrite Ha, Hb. Qed.

Lemma plus_returned (a b c : JsValue) : plus a b = Returns c -> convertible c = true.
Proof.
  unfold plus, ToPrimitive. destruct (convertible a); [|discriminate].
  destruct (convertible b); [|discriminate]. intros [= <-]. apply js_add_convertible.
Qed.

Lemma greater_than_convertible (a : JsValue) (n : Z) :
  convertible a = true -> greater_than a n = Returns (js_gt a n).
Proof. intros H. unfold greater_than, ToPrimitive. by rewrite H. Qed.

Lemma indexToColumn_convertible (index : JsValue) :
  convertible index = true -> indexToColumn index = Returns (indexToColumn_loop index "").
Proof. intros H. unfold indexToColumn, ToPrimitive. by rewrite H. Qed.

Lemma indexToColumn_throws (index : JsValue) :
  convertible index = false -> indexToColumn index = Throws cannot_convert.
Proof. intros H. unfold indexToColumn, ToPrimitive. by rewrite H. Qed.

Lemma sheet_prefix_returned (sheetName : JsValue) :
  returned (sheet_prefix sheetName) = convertible sheetName.
Proof.
  unfold sheet_prefix. destruct (truthy sheetName) eqn:Ht.
  - unfold plus, ToPrimitive. destruct (convertible sheetName); [|reflexivity].
    simpl. unfold ToString. by rewrite js_add_convertible.
  - symmetry. by apply falsy_convertible.
Qed.

(** ** Arrays made from a length *)

Lemma collect_map_returns {A B : Type} (f : A -> Outcome B) (g : A -> B) (l : list A) :
  (forall a, f a = Returns (g a)) -> collect (map f l) = Returns (map g l).
Proof.
  intros Hf. induction l as [|a l IH]; [reflexivity|].
  simpl. by rewrite Hf, IH.
Qed.

Lemma collect_map_throws {A B : Type} (f : A -> Outcome B) (e : JsError) (l : list A) :
  (forall a, f a = Throws e) -> l <> [] -> collect (map f l) = Throws e.
Proof. intros Hf Hl. destruct l as [|a l]; [done|]. simpl. by rewrite Hf. Qed.

Lemma ToLength_convertible (count : JsValue) :
  convertible count = true ->
  ToLength count
  = Returns match number_of count with
            | Num z => Z.max 0 (Z.min z (2 ^ 53 - 1))
            | NaN => 0
            end.
Proof. intros H. unfold ToLength, ToNumber. by rewrite H. Qed.

Lemma array_length_allowed_spec (count : JsValue) :
  (2 ^ 32 - 1 <? match number_of count with
                 | Num z => Z.max 0 (Z.min z (2 ^ 53 - 1))
                 | NaN => 0
                 end)
  = negb (array_length_allowed count).
Proof.
  unfold array_length_allowed. destruct (number_of count) as [|z]; [reflexivity|].
  destruct (z <? 2 ^ 32) eqn:E; [apply Z.ltb_lt in E | apply Z.ltb_ge in E]; simpl.
  - apply Z.ltb_ge. lia.
  - apply Z.ltb_lt. lia.
Qed.

(** With a count and a callback that convert, [Array.from] returns
    exactly when the length is allowed. *)
Lemma array_from_length_returns {A : Type} (count : JsValue) (f : Z -> Outcome A)
    (g : Z -> A) :
  convertible count = true ->
  (forall i, f i = Returns (g i)) ->
  array_from_length count f
  = if array_length_allowed count
    then Returns (map (fun i => g (Z.of_nat i))
                    (seq 0 (Z.to_nat match number_of count with
                                     | Num z => Z.max 0 (Z.min z (2 ^ 53 - 1))
                                     | NaN => 0
                                     end)))
    else Throws (RangeError "Invalid array length").
Proof.
  intros Hc Hf. unfold array_from_length. rewrite (ToLength_convertible _ Hc).
  cbn [bind]. rewrite array_length_allowed_spec.
  destruct (array_length_allowed count); simpl; [|reflexivity].
  apply (collect_map_returns (fun i => f (Z.of_nat i)) (fun i => g (Z.of_nat i))).
  intros i. apply Hf.
Qed.

Lemma array_from_length_returned {A : Type} (count : JsValue) (f : Z -> Outcome A)
    (l : list A) :
  array_from_length count f = Returns l ->
  convertible count = true /\ array_length_allowed count = true.
Proof.
  unfold array_from_length, ToLength, ToNumber.
  destruct (convertible count); [|discriminate]. cbn [bind].
  rewrite array_length_allowed_spec.
  destruct (array_length_allowed count); [auto | discriminate].
Qed.

Lemma row_number_convertible (startIndex : JsValue) (i : Z) :
  convertible startIndex = true ->
  row_number startIndex i = Returns (js_add (js_add startIndex (num i)) (num 1)).
Proof.
  intros H. unfold row_number. rewrite plus_convertible by done. cbn [bind].
  apply plus_convertible; [apply js_add_convertible | reflexivity].
Qed.

Lemma column_name_convertible (startIndex : JsValue) (i : Z) :
  convertible startIndex = true ->
  column_name startIndex i = Returns (indexToColumn_loop (js_add startIndex (num i)) "").
Proof.
  intros H. unfold column_name. rewrite plus_convertible by done. cbn [bind].
  apply indexToColumn_convertible, js_add_convertible.
Qed.

(** ** The cells of a block of values *)

Lemma count_fold_throws (rows : list JsValue) (e : JsError) :
  fold_left
    (fun acc row =>
       let* sum := acc in
       let* len := length_of "row.length" row in
       plus sum len)
    rows (Throws e) = Throws e.
Proof. induction rows as [|row rows IH]; simpl; auto. Qed.

Lemma count_fold_returned (rows : list JsValue) (acc : JsValue) :
  convertible acc = true ->
  returned
    (fold_left
       (fun acc row =>
          let* sum := acc in
          let* len := length_of "row.length" row in
          plus sum len)
       rows (Returns acc))
  = forallb row_usable rows.
Proof.
  revert acc. induction rows as [|row rows IH]; intros acc Hacc; simpl; [reflexivity|].
  destruct row as [| |b|n|text|items|fields]; simpl;
    try (rewrite count_fold_throws; reflexivity);
    try (rewrite plus_convertible by done; apply IH, js_add_convertible).
  unfold plus, ToPrimitive. rewrite Hacc. simpl.
  destruct (convertible (get fields "length")); simpl.
  - apply IH, js_add_convertible.
  - rewrite count_fold_throws. reflexivity.
Qed.

Lemma count_fold_convertible (rows : list JsValue) (acc : Outcome JsValue) (c : JsValue) :
  (forall a, acc = Returns a -> convertible a = true) ->
  fold_left
    (fun acc row =>
       let* sum := acc in
       let* len := length_of "row.length" row in
       plus sum len)
    rows acc = Returns c ->
  convertible c = true.
Proof.
  revert acc. induction rows as [|row rows IH]; intros acc Hacc; simpl.
  - apply Hacc.
  - apply IH. intros a Ha. destruct acc as [sum|e]; [|discriminate]. simpl in Ha.
    destruct (length_of "row.length" row) as [len|e]; [|discriminate]. simpl in Ha.
    by apply plus_returned in Ha.
Qed.

Lemma countCellsInRange_returned (values : JsValue) :
  returned (countCellsInRange values) = rows_usable values.
Proof.
  destruct values; simpl; try reflexivity. by apply count_fold_returned.
Qed.

Lemma countCellsInRange_convertible (values c : JsValue) :
  countCellsInRange values = Returns c -> convertible c = true.
Proof.
  destruct values; simpl; try discriminate.
  apply count_fold_convertible. by intros a [= <-].
Qed.



Lemma prop_of_truthy (site : string) (v : JsValue) (k : string) :
  truthy v = true -> prop site v k = Returns (own v k).
Proof. destruct v; simpl; intros H; try discriminate; eauto. Qed.

Lemma describeFormat_returned (format : JsValue) :
  returned (describeFormat format) = format_usable format.
Proof.
  destruct format as [| |b|n|text|items|fields]; try reflexivity.
  unfold describeFormat. simpl.
  destruct (truthy (get fields "fontSize")) eqn:Ht.
  - unfold ToString. by destruct (convertible (get fields "fontSize")).
  - simpl. symmetry. by apply falsy_convertible.
Qed.

(** ** When a handler returns *)

Lemma simulateCreateSpreadsheet_returned (params : gmap string JsValue) :
  returned (simulateCreateSpreadsheet params)
  = parameters_usable "create_spreadsheet" params.
Proof.
  unfold simulateCreateSpreadsheet, parameters_usable, ToString. simpl.
  destruct (convertible (get params "title")); [|reflexivity]. simpl.
  destruct (get params "sheetNames") as [| |[]|[|z]|text|items|fields] eqn:Hn;
    simpl; try reflexivity.
  - destruct (z =? 0)%Z; reflexivity.
  - destruct (String.eqb text ""); reflexivity.
  - by destruct (forallb convertible items).
Qed.

Lemma simulateUpdateCells_returned (params : gmap string JsValue) :
  returned (simulateUpdateCells params)
  = rows_usable (get params "values")
    && convertible (get params "sheetName") && convertible (get params "range").
Proof.
  unfold simulateUpdateCells. rewrite returned_bind.
  pose proof (countCellsInRange_returned (get params "values")) as Hr.
  destruct (countCellsInRange (get params "values")) as [cellCount|e] eqn:Hc;
    simpl in Hr; rewrite <- Hr; [|reflexivity].
  apply countCellsInRange_convertible in Hc.
  rewrite greater_than_convertible, ToString_convertible by done. cbn [bind].
  pose proof (sheet_prefix_returned (get params "sheetName")) as Hp.
  destruct (sheet_prefix (get params "sheetName")) as [prefix|e];
    simpl in Hp; rewrite <- Hp; [|reflexivity].
  cbn [bind]. unfold ToString. by destruct (convertible (get params "range")).
Qed.

Lemma simulateFormatCells_returned (params : gmap string JsValue) :
  returned (simulateFormatCells params)
  = format_usable (get params "format")
    && convertible (get params "sheetName") && convertible (get params "range").
Proof.
  unfold simulateFormatCells. cbv zeta. rewrite returned_bind.
  pose proof (describeFormat_returned (get params "format")) as Hr.
  destruct (describeFormat (get params "format")) as [formatDesc|e];
    simpl in Hr; rewrite <- Hr; [|reflexivity].
  pose proof (sheet_prefix_returned (get params "sheetName")) as Hp.
  destruct (sheet_prefix (get params "sheetName")) as [prefix|e];
    simpl in Hp; rewrite <- Hp; [|reflexivity].
  cbn [bind]. unfold ToString. by destruct (convertible (get params "range")).
Qed.

Lemma simulateInsertRows_returned (params : gmap string JsValue) :
  returned (simulateInsertRows params) = parameters_usable "insert_row" params.
Proof.
  unfold simulateInsertRows, parameters_usable. simpl.
  set (count := with_default (get params "count") (num 1)).
  set (startIndex := get params "startIndex").
  destruct (convertible startIndex) eqn:Hs.
  - destruct (convertible count) eqn:Hc.
    + rewrite (array_from_length_returns count _ _ Hc
                 (fun i => row_number_convertible startIndex i Hs)).
      destruct (array_length_allowed count); [|reflexivity]. cbn [bind].
      rewrite greater_than_convertible, ToString_convertible, plus_convertible by done.
      cbn [bind]. by rewrite ToString_convertible by apply js_add_convertible.
    + unfold array_from_length, ToLength, ToNumber. by rewrite Hc.
  - rewrite andb_false_r.
    destruct (array_from_length count (row_number startIndex)) as [rows|e]; [|reflexivity].
    cbn [bind].
    destruct (greater_than count 10) as [many|e]; [|reflexivity]. cbn [bind].
    destruct (ToString count) as [text|e]; [|reflexivity]. cbn [bind].
    unfold plus, ToPrimitive. by rewrite Hs.
Qed.

Lemma simulateDeleteRows_returned (params : gmap string JsValue) :
  returned (simulateDeleteRows params) = parameters_usable "delete_row" params.
Proof.
  unfold simulateDeleteRows, parameters_usable. simpl.
  set (count := with_default (get params "count") (num 1)).
  set (startIndex := get params "startIndex").
  destruct (convertible startIndex) eqn:Hs.
  - destruct (convertible count) eqn:Hc.
    + rewrite (array_from_length_returns count _ _ Hc
                 (fun i => row_number_convertible startIndex i Hs)).
      destruct (array_length_allowed count); [|reflexivity]. cbn [bind].
      rewrite ToString_convertible, plus_convertible by done.
      cbn [bind]. by rewrite ToString_convertible by apply js_add_convertible.
    + unfold array_from_length, ToLength, ToNumber. by rewrite Hc.
  - rewrite andb_false_r.
    destruct (array_from_length count (row_number startIndex)) as [rows|e]; [|reflexivity].
    cbn [bind].
    destruct (ToString count) as [text|e]; [|reflexivity]. cbn [bind].
    unfold plus, ToPrimitive. by rewrite Hs.
Qed.

Lemma simulateInsertColumns_returned (params : gmap string JsValue) :
  returned (simulateInsertColumns params) = parameters_usable "insert_column" params.
Proof.
  unfold simulateInsertColumns, parameters_usable. simpl.
  set (count := with_default (get params "count") (num 1)).
  set (startIndex := get params "startIndex").
  destruct (convertible startIndex) eqn:Hs.
  - destruct (convertible count) eqn:Hc.
    + rewrite (array_from_length_returns count _ _ Hc
                 (fun i => column_name_convertible startIndex i Hs)).
      destruct (array_length_allowed count); [|reflexivity]. cbn [bind].
      by rewrite greater_than_convertible, ToString_convertible,
        indexToColumn_convertible by done.
    + unfold array_from_length, ToLength, ToNumber. by rewrite Hc.
  - rewrite andb_false_r.
    destruct (array_from_length count (column_name startIndex)) as [columns|e];
      [|reflexivity].
    cbn [bind].
    destruct (greater_than count 5) as [many|e]; [|reflexivity]. cbn [bind].
    destruct (ToString count) as [text|e]; [|reflexivity]. cbn [bind].
    by rewrite indexToColumn_throws.
Qed.

Lemma simulateAppendTransaction_returned (params : gmap string JsValue) :
  returned (simulateAppendTransaction params)
  = parameters_usable "append_transaction" params.
Proof.
  unfold simulateAppendTransaction, parameters_usable. simpl.
  set (tx := js_or (get params "transaction") (JObject ∅)).
  assert (Ht : truthy tx = true).
  { unfold tx, js_or. destruct (truthy (get params "transaction")) eqn:E; auto. }
  rewrite !(prop_of_truthy _ _ _ Ht). cbn [bind]. unfold ToString.
  rewrite !convertible_or by reflexivity.
  destruct (convertible (own tx "type")); [|reflexivity]. cbn [bind].
  destruct (convertible (js_nullish _ _)); [|reflexivity]. cbn [bind].
  by destruct (convertible (get params "sheetName")).
Qed.

(** [simulate] returns exactly for the supported kinds with usable
    parameters. *)
Lemma simulate_returned (action : string) (params : gmap string JsValue) :
  returned (simulate action params)
  = supported action && parameters_usable action params.
Proof.
  unfold simulate, handler, supported, supported_actions.
  rewrite returned_rethrow. simpl existsb.
  case_action action; cbn [orb andb];
    try apply simulateCreateSpreadsheet_returned;
    try apply simulateUpdateCells_returned;
    try apply simulateFormatCells_returned;
    try apply simulateInsertRows_returned;
    try apply simulateInsertColumns_returned;
    try apply simulateDeleteRows_returned;
    try apply simulateAppendTransaction_returned;
    try reflexivity.
  - unfold simulateDeleteColumns, parameters_usable. simpl. unfold ToString.
    destruct (convertible (with_default _ _)); [|reflexivity]. cbn [bind].
    unfold indexToColumn, ToPrimitive. by destruct (convertible (get params "startIndex")).
  - unfold simulateClearRange, parameters_usable. simpl.
    pose proof (sheet_prefix_returned (get params "sheetName")) as Hp.
    destruct (sheet_prefix (get params "sheetName")) as [prefix|e];
      simpl in Hp; rewrite <- Hp; [|reflexivity].
    cbn [bind]. unfold ToString. by destruct (convertible (get params "range")).
  - unfold simulateSortData, parameters_usable. simpl.
    unfold indexToColumn, ToPrimitive. by destruct (convertible (get params "columnIndex")).
  - unfold simulateMergeCells, parameters_usable. simpl. unfold ToString.
    by destruct (convertible (get params "range")).
  - unfold simulateFreezeRows, parameters_usable. simpl. unfold ToString.
    rewrite !convertible_or by reflexivity.
    destruct (convertible (get params "rowCount")); [|reflexivity]. cbn [bind].
    by destruct (convertible (get params "columnCount")).
  - unfold simulateFreezeRows, parameters_usable. simpl. unfold ToString.
    rewrite !convertible_or by reflexivity.
    destruct (convertible (get params "rowCount")); [|reflexivity]. cbn [bind].
    by destruct (convertible (get params "columnCount")).
  - unfold simulateCreateChart, parameters_usable. simpl.
    by destruct (get params "chartType").
  - unfold simulateApplyFormula, parameters_usable. simpl. unfold ToString.
    by destruct (convertible (get params "formula")).
  - unfold simulateCreateTallySheet, parameters_usable. simpl. unfold ToString.
    rewrite convertible_or by reflexivity.
    by destruct (convertible (get params "title")).
Qed.

Lemma simulate_usable (action : string) (params : gmap string JsValue) :
  supported action = true ->
  parameters_usable action params = true ->
  exists report, simulate action params = Returns report.
Proof.
  intros Hs Hp. apply returned_true. by rewrite simulate_returned, Hs, Hp.
Qed.




End SimulatorProperties.





(* ===================================================================== *)
(** * Properties of the conversation state machine *)
(* ===================================================================== *)

Lemma includes_elem_of (l : list ConversationState) (s : ConversationState) :
  includes l s = true <-> s ∈ l.
Proof.
  unfold includes. rewrite existsb_exists. split.
  - intros [x [Hin Hx]]. apply bool_decide_eq_true in Hx. subst x.
    by apply list_elem_of_In.
  - intros Hin. exists s. split; [by apply list_elem_of_In | by apply bool_decide_eq_true].
Qed.

Lemma isValidTransition_spec (a b : ConversationState) :
  isValidTransition a b = true <-> b ∈ VALID_TRANSITIONS a.
Proof. apply includes_elem_of. Qed.

Lemma isValidTransition_false (a b : ConversationState) :
  isValidTransition a b = false <-> b ∉ VALID_TRANSITIONS a.
Proof.
  rewrite <- isValidTransition_spec.
  destruct (isValidTransition a b); intuition congruence.
Qed.

Section StateMachineProperties.
Context {ENV : Environment}.

(** C4.  A transition to a state outside the allowed set of the current
    state writes nothing, the world is as it was, and the caller gets
    [success = false] together with the current state and a message that
    names both states. *)
Theorem transition_rejected (conversationId : string) (newState : ConversationState)
    (reason : option string) (now : Z) (w : World) (c : Conversation) :
  conversations w !! conversationId = Some c ->
  newState ∉ VALID_TRANSITIONS (state c) ->
  transitionState conversationId newState reason now w
  = (Returns {| success := false;
                currentState := state c;
                result_message :=
                  Some ("Invalid state transition from " +:+ state_name (state c)
                        +:+ " to " +:+ state_name newState) |},
     w).
Proof.
  intros Hc Hbad. apply isValidTransition_false in Hbad.
  unfold transitionState. rewrite Hc, Hbad. reflexivity.
Qed.

(** C10, as the code has it.  The sweep writes ERROR to exactly the rows
    whose state is neither IDLE nor COMPLETED and whose [updatedAt] is
    before the cutoff, which is the age threshold (30 minutes unless
    another is given) before [now], and it returns their number; every
    other row stays as it is.  A row already in ERROR is among those
    written and counted.  The age is that of the last write to the row:
    after [addMessage] at or after the cutoff the sweep leaves the row
    alone, whatever its state and however long it has been in it.  A
    conversation in EXECUTING whose row was last written 31 minutes ago is
    moved to ERROR under the default threshold. *)
Theorem sweep_marks_stuck (maxAgeMinutes : option Z) (now : Z) (w : World)
    (id : string) (c : Conversation) :
  conversations w !! id = Some c ->
  (state c ∉ [IDLE; COMPLETED] ->
   updatedAt c < now - default 30 maxAgeMinutes * 60000 ->
   conversations (cleanupStuckConversations maxAgeMinutes now w).2 !! id
   = Some (write_state now ERROR c)) /\
  ((state c ∈ [IDLE; COMPLETED]) \/ now - default 30 maxAgeMinutes * 60000 <= updatedAt c ->
   conversations (cleanupStuckConversations maxAgeMinutes now w).2 !! id = Some c) /\
  (cleanupStuckConversations maxAgeMinutes now w).1
  = size (filter (fun row : string * Conversation =>
                    (state row.2 ∉ [IDLE; COMPLETED]) /\
                    updatedAt row.2 < now - default 30 maxAgeMinutes * 60000)
            (conversations w)) /\
  (forall (role content : string) (t : Z),
      now - default 30 maxAgeMinutes * 60000 <= t ->
      conversations
        (cleanupStuckConversations maxAgeMinutes now
           (Conversations.addMessage id role content t w).2).2 !! id
      = conversations (Conversations.addMessage id role content t w).2 !! id) /\
  (maxAgeMinutes = None -> state c = EXECUTING -> updatedAt c <= now - 31 * 60000 ->
   exists c',
     conversations (cleanupStuckConversations maxAgeMinutes now w).2 !! id = Some c' /\
     state c' = ERROR).
Proof.
  intros Hc.
  set (cutoff := now - default 30 maxAgeMinutes * 60000).
  assert (Hstuck : forall c0 : Conversation,
             stuck cutoff c0 = true
             <-> (state c0 ∉ [IDLE; COMPLETED]) /\ updatedAt c0 < cutoff).
  { intros c0. unfold stuck. rewrite andb_true_iff, negb_true_iff, Z.ltb_lt.
    rewrite <- includes_elem_of.
    destruct (includes [IDLE; COMPLETED] (state c0)); intuition congruence. }
  assert (Hrow : forall (w0 : World) (c0 : Conversation),
             conversations w0 !! id = Some c0 ->
             conversations (cleanupStuckConversations maxAgeMinutes now w0).2 !! id
             = Some (if stuck cutoff c0 then write_state now ERROR c0 else c0)).
  { intros w0 c0 H0. simpl. by rewrite lookup_fmap, H0. }
  split; [|split; [|split; [|split]]].
  - intros Hstate Hold. rewrite (Hrow w c Hc).
    by rewrite (proj2 (Hstuck c) (conj Hstate Hold)).
  - intros Hkeep. rewrite (Hrow w c Hc).
    destruct (stuck cutoff c) eqn:Hs; [|reflexivity].
    apply Hstuck in Hs as [Hstate Hold]. destruct Hkeep; [done | lia].
  - simpl. f_equal. apply map_filter_ext. intros i c0 _. simpl. apply Hstuck.
  - intros role content t Ht. unfold Conversations.addMessage. rewrite Hc.
    match goal with
    | |- context [set_conversations (insert id ?row) w] => set (touched := row)
    end.
    assert (Hw : conversations (set_conversations (insert id touched) w) !! id
                 = Some touched) by (simpl; apply lookup_insert_eq).
    cbn [snd]. rewrite (Hrow _ _ Hw), Hw.
    destruct (stuck cutoff touched) eqn:Hs; [|reflexivity].
    apply Hstuck in Hs as [_ Hold]. simpl in Hold. lia.
  - intros -> Hstate Hold. eexists. split; [apply (Hrow w c Hc)|].
    assert (Hs : stuck cutoff c = true).
    { apply Hstuck. split.
      - rewrite Hstate. rewrite <- includes_elem_of. simpl. discriminate.
      - unfold cutoff. simpl. lia. }
    by rewrite Hs.
Qed.

End StateMachineProperties.

(** From TRANSCRIBING the table does not allow EXECUTING: the request is
    refused and the world stays as it was. *)
Lemma transition_rejected_witness :
  @transitionState Sample.accepting "conv-1" EXECUTING None 5000
    (Sample.world_with
       {[ "conv-1" := Sample.conversation_in TRANSCRIBING [IDLE; LISTENING; TRANSCRIBING] 4000 ]})
  = (Returns {| success := false;
                currentState := TRANSCRIBING;
                result_message :=
                  Some "Invalid state transition from TRANSCRIBING to EXECUTING" |},
     Sample.world_with
       {[ "conv-1" := Sample.conversation_in TRANSCRIBING [IDLE; LISTENING; TRANSCRIBING] 4000 ]}).
Proof.
  refine (@transition_rejected Sample.accepting "conv-1" EXECUTING None 5000
            (Sample.world_with
               {[ "conv-1" := Sample.conversation_in TRANSCRIBING
                                [IDLE; LISTENING; TRANSCRIBING] 4000 ]})
            (Sample.conversation_in TRANSCRIBING [IDLE; LISTENING; TRANSCRIBING] 4000)
            _ _).
  - reflexivity.
  - apply isValidTransition_false. reflexivity.
Defined.

(** At minute 40, with the default threshold: the conversation that has
    been in EXECUTING since minute 9 ends in ERROR, the one in COMPLETED
    since minute 9 keeps its row. *)
Lemma sweep_marks_stuck_witness :
  (exists c',
      conversations
        (@cleanupStuckConversations Sample.accepting None (40 * 60000) Sample.stale_world).2
        !! "conv-1" = Some c' /\ state c' = ERROR) /\
  conversations
    (@cleanupStuckConversations Sample.accepting None (40 * 60000) Sample.stale_world).2
    !! "conv-2"
  = Some (Sample.conversation_in COMPLETED [IDLE; COMPLETED] (9 * 60000)).
Proof.
  assert (H1 : conversations Sample.stale_world !! "conv-1"
               = Some (Sample.conversation_in EXECUTING [IDLE; EXECUTING] (9 * 60000)))
    by (vm_compute; reflexivity).
  assert (H2 : conversations Sample.stale_world !! "conv-2"
               = Some (Sample.conversation_in COMPLETED [IDLE; COMPLETED] (9 * 60000)))
    by (vm_compute; reflexivity).
  split.
  - destruct (@sweep_marks_stuck Sample.accepting None (40 * 60000)
                Sample.stale_world "conv-1" _ H1)
      as (_ & _ & _ & _ & Hexec).
    apply Hexec; [reflexivity | reflexivity | simpl; lia].
  - destruct (@sweep_marks_stuck Sample.accepting None (40 * 60000)
                Sample.stale_world "conv-2" _ H2)
      as (_ & Hsame & _).
    apply Hsame. left. apply includes_elem_of. reflexivity.
Defined.

(** C10 fails as stated.  The sweep does not touch the non-terminal rows
    only: a conversation that ended in ERROR at minute 9 is written again
    and counted at minute 40.  And it does not go by the time spent in a
    state: a conversation that entered EXECUTING at minute 9 and got a
    message at minute 39 has been in EXECUTING for 31 minutes at minute 40,
    and the sweep leaves it there and counts nothing. *)
Lemma sweep_goes_by_the_last_write :
  (@cleanupStuckConversations Sample.accepting None (40 * 60000) Sample.failed_world).1
  = 1%nat /\
  conversations
    (@cleanupStuckConversations Sample.accepting None (40 * 60000) Sample.failed_world).2
    !! "conv-1"
  = Some (Sample.conversation_in ERROR [IDLE; LISTENING; ERROR; ERROR] (40 * 60000)) /\
  (let entered :=
     (@transitionState Sample.accepting "conv-1" EXECUTING None (9 * 60000)
        Sample.ready_world).2 in
   let touched :=
     (Conversations.addMessage "conv-1" "user" "still there?" (39 * 60000) entered).2 in
   (state <$> conversations entered !! "conv-1") = Some EXECUTING /\
   (state <$> conversations touched !! "conv-1") = Some EXECUTING /\
   (@cleanupStuckConversations Sample.accepting None (40 * 60000) touched).1 = 0%nat /\
   (state <$> conversations
                (@cleanupStuckConversations Sample.accepting None (40 * 60000) touched).2
                !! "conv-1") = Some EXECUTING).
Proof. repeat split; vm_compute; reflexivity. Qed.

(* ===================================================================== *)
(** * The states a conversation visits on the request path *)
(* ===================================================================== *)

Lemma walk_snoc (step : ConversationState -> ConversationState -> Prop)
    (l : list ConversationState) (a s : ConversationState) :
  walk step l -> last l = Some a -> step a s -> walk step (l ++ [s]).
Proof.
  induction l as [|x l IH]; intros Hw Hl Hs; [discriminate|].
  destruct l as [|y l].
  - simpl in *. injection Hl as ->. auto.
  - destruct Hw as [Hxy Hw]. split; [exact Hxy|].
    apply IH; [exact Hw | exact Hl | exact Hs].
Qed.

Section RequestPath.
Context {RT : JsRuntime} {ENV : Environment}.

Lemma visits_write (step : ConversationState -> ConversationState -> Prop)
    (now : Z) (s : ConversationState) (c : Conversation) :
  visits step c -> step (state c) s -> visits step (write_state now s c).
Proof.
  intros [Hhead [Hwalk Hlast]] Hstep. unfold visits, write_state; simpl.
  split; [|split].
  - destruct (history c); [discriminate | exact Hhead].
  - eapply walk_snoc; eauto.
  - apply last_snoc.
Qed.

Lemma all_visit_write (step : ConversationState -> ConversationState -> Prop)
    (id : string) (c : Conversation) (s : ConversationState) (now : Z) (w : World) :
  all_visit step w ->
  conversations w !! id = Some c ->
  step (state c) s ->
  all_visit step (set_conversations (insert id (write_state now s c)) w).
Proof.
  intros Hall Hc Hstep id' c'. simpl. rewrite lookup_insert.
  case_decide.
  - intros [= <-]. apply visits_write; [exact (Hall id c Hc) | exact Hstep].
  - apply Hall.
Qed.

Lemma all_visit_same (step : ConversationState -> ConversationState -> Prop)
    (w w' : World) :
  conversations w' = conversations w -> all_visit step w -> all_visit step w'.
Proof. intros Heq Hall id c. rewrite Heq. apply Hall. Qed.

Lemma transitionState_visits (id : string) (s : ConversationState)
    (reason : option string) (now : Z) (w : World) :
  all_visit request_step w ->
  all_visit request_step (transitionState id s reason now w).2.
Proof.
  intros Hall. unfold transitionState.
  destruct (conversations w !! id) as [c|] eqn:Hc; [|exact Hall].
  destruct (isValidTransition (state c) s) eqn:Hv; [|exact Hall].
  apply all_visit_write; [exact Hall | exact Hc |].
  left. by apply isValidTransition_spec.
Qed.

Lemma resetToIdle_visits (id : string) (now : Z) (w : World) :
  all_visit request_step w ->
  all_visit request_step (resetToIdle id now w).2.
Proof.
  intros Hall. unfold resetToIdle.
  destruct (conversations w !! id) as [c|] eqn:Hc; [|exact Hall].
  apply all_visit_write; [exact Hall | exact Hc |]. right; left; reflexivity.
Qed.

Lemma handleError_visits (id : string) (e : JsError) (now : Z) (w : World) :
  all_visit request_step w ->
  all_visit request_step (Conversations.handleError id e now w).2.
Proof.
  intros Hall. unfold Conversations.handleError, getCurrentState.
  destruct (conversations w !! id) as [c|] eqn:Hc; [|exact Hall].
  simpl. unfold handleError. rewrite Hc.
  apply all_visit_write; [exact Hall | exact Hc |]. right; right; reflexivity.
Qed.

Lemma move_if_given_visits (conversationId : option string) (s : ConversationState)
    (reason : string) (now : Z) (w : World) :
  all_visit request_step w ->
  all_visit request_step (move_if_given conversationId s reason now w).2.
Proof.
  intros Hall. unfold move_if_given, Conversations.transitionState.
  destruct (given conversationId) as [id|]; [|exact Hall].
  pose proof (transitionState_visits id s (Some reason) now w Hall) as Ht.
  destruct (transitionState id s (Some reason) now w) as [r w1]. exact Ht.
Qed.

Lemma executeAction_conversations (i : SheetActionIntent)
    (sheet : option string) (w : World) :
  conversations (executeAction i sheet w).2 = conversations w.
Proof.
  unfold executeAction, need_sheet, invoke, call_sheets. by_cases.
Qed.

Lemma createSnapshot_conversations (userId actionId sheet action : string)
    (params : gmap string JsValue) (data : option (gmap string JsValue))
    (now : Z) (w : World) :
  conversations (createSnapshot userId actionId sheet action params data now w).2
  = conversations w.
Proof. unfold createSnapshot. by_cases. Qed.

Lemma snapshot_if_sheet_conversations (userId auditId : string) (req : ExecuteRequest)
    (now : Z) (w : World) :
  conversations (snapshot_if_sheet userId auditId req now w) = conversations w.
Proof.
  unfold snapshot_if_sheet. destruct (given (sheetId req)); [|reflexivity].
  apply createSnapshot_conversations.
Qed.

Lemma performUndo_conversations (rollback : RollbackAction) (w : World) :
  conversations (performUndo rollback w).2 = conversations w.
Proof. unfold performUndo, perform, call_sheets. by_cases. Qed.

Lemma executeUndo_conversations (userId rollbackId : string) (now : Z) (w : World) :
  conversations (executeUndo userId rollbackId now w).2 = conversations w.
Proof.
  unfold executeUndo, executeUndo_body.
  destruct (find_pending rollbackId userId w) as [rollback|]; [|reflexivity].
  destruct (expiresAt rollback <? now)%Z; [reflexivity|].
  destruct (getGoogleSheetsService userId now w) as [|e]; [|reflexivity].
  pose proof (performUndo_conversations rollback w) as Hp.
  destruct (performUndo rollback w) as [[|e] w1]; simpl in *; exact Hp.
Qed.

Lemma put_state_route_visits (id : string) (s : ConversationState)
    (reason : option string) (now : Z) (w : World) :
  all_visit request_step w ->
  all_visit request_step (put_state_route id s reason now w).2.
Proof.
  intros Hall. unfold put_state_route, Conversations.transitionState.
  pose proof (transitionState_visits id s reason now w Hall) as Ht.
  destruct (transitionState id s reason now w) as [[result|e] w1]; simpl in *; [|exact Ht].
  destruct (success result); exact Ht.
Qed.

Lemma reset_route_visits (id : string) (now : Z) (w : World) :
  all_visit request_step w ->
  all_visit request_step (reset_route id now w).2.
Proof.
  intros Hall. unfold reset_route, Conversations.resetState.
  pose proof (resetToIdle_visits id now w Hall) as Hr.
  destruct (resetToIdle id now w) as [r w1]. exact Hr.
Qed.

Lemma dry_run_route_visits (req : DryRunRequest) (now : Z) (w : World) :
  all_visit request_step w ->
  all_visit request_step (dry_run_route req now w).2.
Proof.
  intros Hall. unfold dry_run_route.
  destruct (String.eqb (dr_action req) ""); [exact Hall|].
  destruct (simulate (dr_action req) (dr_parameters req)) as [result|e]; [|exact Hall].
  destruct (given (dr_conversationId req)) as [id|]; [|exact Hall].
  destruct (Conversations.getConversationState id w) as [current|e]; [|exact Hall].
  pose proof (transitionState_visits id (nextState result) None now w Hall) as Ht.
  unfold Conversations.transitionState.
  destruct (transitionState id (nextState result) None now w) as [[moved|e] w1];
    exact Ht.
Qed.

Lemma execute_failed_visits (userId : string) (req : ExecuteRequest) (e : JsError)
    (now : Z) (w : World) :
  all_visit request_step w ->
  all_visit request_step (execute_failed userId req e now w).2.
Proof.
  intros Hall. unfold execute_failed, logAction.
  destruct (given (conversationId req)) as [id|]; [|exact Hall].
  match goal with
  | |- context [Conversations.handleError id e now ?w1] =>
      pose proof (handleError_visits id e now w1 Hall) as Hh;
      destruct (Conversations.handleError id e now w1) as [[|e'] w2]; exact Hh
  end.
Qed.

Lemma execute_route_visits (userId : string) (req : ExecuteRequest) (now : Z) (w : World) :
  all_visit request_step w ->
  all_visit request_step (execute_route userId req now w).2.
Proof.
  intros Hall. unfold execute_route.
  destruct (confirmationRequired (intent req) && negb (confirmed req)); [exact Hall|].
  destruct (getGoogleSheetsService userId now w) as [|e];
    [|by apply execute_failed_visits].
  pose proof (move_if_given_visits (conversationId req) EXECUTING
                "Starting sheet operation execution" now w Hall) as H1.
  destruct (move_if_given (conversationId req) EXECUTING _ now w) as [[|e] w1];
    simpl in H1; [|by apply execute_failed_visits].
  pose proof (executeAction_conversations (intent req) (sheetId req) w1) as Ha.
  destruct (executeAction (intent req) (sheetId req) w1) as [[result|e] w2]; simpl in Ha;
    [|apply execute_failed_visits; eapply all_visit_same; eauto].
  assert (H2 : all_visit request_step w2) by (eapply all_visit_same; eauto).
  unfold logAction.
  match goal with
  | |- context [snapshot_if_sheet userId ?a req now ?w3] =>
      assert (H4 : all_visit request_step (snapshot_if_sheet userId a req now w3))
        by (eapply all_visit_same; [apply snapshot_if_sheet_conversations | exact H2]);
      set (w4 := snapshot_if_sheet userId a req now w3) in *
  end.
  pose proof (move_if_given_visits (conversationId req) COMPLETED
                "Sheet operation completed successfully" now w4 H4) as H5.
  destruct (move_if_given (conversationId req) COMPLETED _ now w4) as [[|e] w5];
    simpl in H5; [exact H5 | by apply execute_failed_visits].
Qed.

Lemma undo_route_visits (userId rollbackId : string) (now : Z) (w : World) :
  all_visit request_step w ->
  all_visit request_step (undo_route userId rollbackId now w).2.
Proof.
  intros Hall. unfold undo_route.
  destruct (String.eqb rollbackId ""); [exact Hall|].
  pose proof (executeUndo_conversations userId rollbackId now w) as Hu.
  destruct (executeUndo userId rollbackId now w) as [r w1]; simpl in Hu.
  eapply all_visit_same; [|exact Hall]. exact Hu.
Qed.

Lemma serve_visits (r : Request) (now : Z) (w : World) :
  all_visit request_step w -> all_visit request_step (serve r now w).
Proof.
  destruct r; simpl.
  - apply put_state_route_visits.
  - apply reset_route_visits.
  - apply dry_run_route_visits.
  - apply execute_route_visits.
  - apply undo_route_visits.
Qed.

(** C5, as the code has it.  Every conversation holds one of the ten
    states, and what the request path (state changes, reset, dry run,
    execute with its error handling, undo) preserves is this: the states a
    conversation has held start at IDLE and each move is a move of the
    transition table, a reset to IDLE, or an error handler's write of
    ERROR; the last two are made from any state. *)
Theorem request_path_walk (requests : list (Request * Z)) (w : World) :
  all_visit request_step w ->
  all_visit request_step (serve_all requests w).
Proof.
  revert w. induction requests as [|[r now] rest IH]; intros w Hall; simpl.
  - exact Hall.
  - apply IH. by apply serve_visits.
Qed.

End RequestPath.

Lemma idle_world_visits : all_visit request_step Sample.idle_world.
Proof.
  intros id c. simpl. rewrite lookup_singleton. case_decide; [|discriminate].
  intros [= <-]. repeat split.
Qed.

Lemma request_path_walk_witness :
  all_visit request_step
    (@serve_all Sample.decimal_runtime Sample.accepting Sample.turn_then_reset
       Sample.idle_world).
Proof.
  apply (@request_path_walk Sample.decimal_runtime Sample.accepting).
  exact idle_world_visits.
Defined.

(** C5 fails as stated.  A reset request moves a conversation from
    EXECUTING to IDLE, and the error handling of the execute route moves
    one from IDLE to ERROR; neither move is in the transition table, so the
    states visited are not a walk over it. *)
Lemma request_path_leaves_the_table :
  (exists c,
      conversations
        (@serve_all Sample.decimal_runtime Sample.accepting Sample.turn_then_reset
           Sample.idle_world)
        !! "conv-1" = Some c /\
      history c = [IDLE; LISTENING; TRANSCRIBING; INTENT_CLASSIFIED;
                   READY_TO_EXECUTE; EXECUTING; IDLE] /\
      (IDLE ∉ VALID_TRANSITIONS EXECUTING) /\
      ~ walk table_step (history c)) /\
  (exists c,
      conversations
        (@serve Sample.decimal_runtime Sample.accepting
           (Execute "user-1" Sample.execute_delete_column) 1000 Sample.idle_world)
        !! "conv-1" = Some c /\
      history c = [IDLE; ERROR] /\
      (ERROR ∉ VALID_TRANSITIONS IDLE) /\
      ~ walk table_step (history c)).
Proof.
  split.
  - eexists. split; [vm_compute; reflexivity|]. split; [reflexivity|].
    split; [apply isValidTransition_false; reflexivity|].
    simpl. intros (_ & _ & _ & _ & _ & H & _).
    apply isValidTransition_spec in H. discriminate.
  - eexists. split; [vm_compute; reflexivity|]. split; [reflexivity|].
    split; [apply isValidTransition_false; reflexivity|].
    simpl. intros [H _]. apply isValidTransition_spec in H. discriminate.
Qed.

(* ===================================================================== *)
(** * Properties of the rollback store *)
(* ===================================================================== *)

Lemma get_object_nil (k : string) : get (object []) k = JUndefined.
Proof. reflexivity. Qed.

Lemma get_object_cons (k k' : string) (v : JsValue) (rest : list (string * JsValue)) :
  get (object ((k', v) :: rest)) k
  = if String.eqb k k'
    then (if is_defined v then v else get (object rest) k)
    else get (object rest) k.
Proof.
  unfold object, get. simpl.
  destruct (String.eqb k k') eqn:E.
  - apply String.eqb_eq in E. subst k'.
    destruct (is_defined v); simpl; [by rewrite lookup_insert_eq | reflexivity].
  - apply String.eqb_neq in E.
    destruct (is_defined v); simpl; [by rewrite lookup_insert_ne | reflexivity].
Qed.

Lemma defined_or_undefined (v : JsValue) :
  (if is_defined v then v else JUndefined) = v.
Proof. destruct v; reflexivity. Qed.

Lemma find_pending_Some (w : World) (rollbackId userId : string) (rollback : RollbackAction) :
  find_pending rollbackId userId w = Some rollback <-> pending w rollbackId userId rollback.
Proof.
  unfold find_pending, pending.
  destruct (rollbackActions w !! rollbackId) as [r|]; [|intuition congruence].
  destruct (String.eqb (rb_userId r) userId) eqn:Eu; simpl.
  - apply String.eqb_eq in Eu. destruct (executed r) eqn:Ee; simpl.
    + split; [discriminate | intros [[= ->] [_ H]]; congruence].
    + split; [intros [= <-]; auto | intros [[= ->] _]; reflexivity].
  - apply String.eqb_neq in Eu.
    split; [discriminate | intros [[= ->] [H _]]; congruence].
Qed.

Lemma find_pending_None (w : World) (rollbackId userId : string) :
  find_pending rollbackId userId w = None
  <-> forall rollback, ~ pending w rollbackId userId rollback.
Proof.
  split.
  - intros Hnone rollback Hp. apply find_pending_Some in Hp. congruence.
  - intros Hno. destruct (find_pending rollbackId userId w) as [r|] eqn:E; [|reflexivity].
    apply find_pending_Some in E. destruct (Hno r E).
Qed.

Section RollbackProperties.
Context {RT : JsRuntime} {ENV : Environment}.

(** C3.  The rollback record created for a forward insert_column has the
    undo kind delete_inserted_column, and performing it calls [deleteRows]
    of the Sheets service with the stored start index and count: the
    request sent is a deleteDimension over ROWS from the start index to
    start index + count.  No method of the service sends a request that
    deletes columns. *)
Theorem column_insert_is_undone_by_deleting_rows (userId actionId sheet : string)
    (params : gmap string JsValue) (data : option (gmap string JsValue))
    (now : Z) (w : World) :
  (exists id rollback,
      createSnapshot userId actionId sheet "insert_column" params data now w
      = (Returns (id, rollback), set_rollbackActions (insert id rollback) w) /\
      undoAction rollback = "delete_inserted_column" /\
      get (undoData rollback) "startIndex" = get params "startIndex" /\
      get (undoData rollback) "count" = js_or (get params "count") (num 1) /\
      (forall w1 : World,
          performUndo rollback w1
          = (let* _ := respond (sheetsCalls w1) (undo_call_of_column_insert sheet params) in
             Returns tt,
             record_call (undo_call_of_column_insert sheet params) w1))) /\
  request_of (undo_call_of_column_insert sheet params)
  = batchUpdate (JString sheet)
      [deleteDimension
         {| range_sheetId := js_or (get params "sheetId") (num 0);
            dimension := ROWS;
            startIndex := get params "startIndex";
            endIndex := js_add (get params "startIndex")
                          (js_or (get params "count") (num 1)) |}] /\
  (forall c : SheetsCall,
      Forall (fun r => deletes_columns r = false) (batch_requests (request_of c))).
Proof.
  split; [|split].
  - eexists _, _. split; [reflexivity|]. simpl.
    assert (Hdata : generateUndoData "insert_column" params data
                    = object [("startIndex", get params "startIndex");
                              ("count", js_or (get params "count") (num 1));
                              ("sheetId", get params "sheetId")]) by reflexivity.
    assert (Hstart : get (generateUndoData "insert_column" params data) "startIndex"
                     = get params "startIndex").
    { rewrite Hdata, !get_object_cons, get_object_nil.
      vm_compute (String.eqb _ _). apply defined_or_undefined. }
    assert (Hcount : get (generateUndoData "insert_column" params data) "count"
                     = js_or (get params "count") (num 1)).
    { rewrite Hdata, !get_object_cons, get_object_nil.
      vm_compute (String.eqb _ _). apply defined_or_undefined. }
    assert (Hsheet : get (generateUndoData "insert_column" params data) "sheetId"
                     = get params "sheetId").
    { rewrite Hdata, !get_object_cons, get_object_nil.
      vm_compute (String.eqb _ _). apply defined_or_undefined. }
    repeat split; try assumption.
    intros w1. unfold performUndo, perform, call_sheets, undo_call_of_column_insert. simpl.
    rewrite Hstart, Hcount, Hsheet. reflexivity.
  - reflexivity.
  - intros c. destruct c; simpl; repeat constructor.
Qed.

Lemma executeUndo_not_found (userId rollbackId : string) (now : Z) (w : World) :
  find_pending rollbackId userId w = None ->
  executeUndo userId rollbackId now w = (Throws not_found, w).
Proof. intros H. unfold executeUndo, executeUndo_body. rewrite H. reflexivity. Qed.

Lemma executeUndo_returns (userId rollbackId : string) (now : Z) (w w' : World)
    (result : UndoResult) :
  executeUndo userId rollbackId now w = (Returns result, w') ->
  exists rollback w2,
    find_pending rollbackId userId w = Some rollback /\
    now <= expiresAt rollback /\
    performUndo rollback w = (Returns tt, w2) /\
    w' = set_rollbackActions (insert rollbackId (mark_executed rollback)) w2.
Proof.
  unfold executeUndo, executeUndo_body.
  destruct (find_pending rollbackId userId w) as [rollback|]; [|discriminate].
  destruct (expiresAt rollback <? now)%Z eqn:Hexp; [discriminate|].
  apply Z.ltb_ge in Hexp.
  destruct (getGoogleSheetsService userId now w) as [[]|e]; [|discriminate].
  destruct (performUndo rollback w) as [[[]|e] w2] eqn:Hp; [|discriminate].
  intros [= <- <-]. exists rollback, w2. auto.
Qed.

(** C8.  [executeUndo] throws the not-found error when the user has no
    un-executed record with the id, and the expired error when there is
    one but the clock is past its [expiresAt]; in both cases no call
    reaches the Sheets service and no table is written.  Otherwise, for a
    user whose service can be built, the undo is dispatched, and when it
    goes through the record is stored with [executed = true].  The call
    returns only in that case, so that every later call for the same id, at
    any time, throws not-found. *)
Theorem executeUndo_guards (userId rollbackId : string) (now : Z) (w : World) :
  ((forall rollback, ~ pending w rollbackId userId rollback) ->
   executeUndo userId rollbackId now w = (Throws not_found, w)) /\
  (forall rollback,
      pending w rollbackId userId rollback ->
      expiresAt rollback < now ->
      executeUndo userId rollbackId now w = (Throws window_expired, w)) /\
  (forall rollback w1,
      pending w rollbackId userId rollback ->
      now <= expiresAt rollback ->
      getGoogleSheetsService userId now w = Returns tt ->
      performUndo rollback w = (Returns tt, w1) ->
      executeUndo userId rollbackId now w
      = (Returns {| undo_success := true;
                    undo_message := "Successfully undid action: " +:+ undoAction rollback |},
         set_rollbackActions (insert rollbackId (mark_executed rollback)) w1)) /\
  (forall result w',
      executeUndo userId rollbackId now w = (Returns result, w') ->
      exists rollback,
        pending w rollbackId userId rollback /\
        now <= expiresAt rollback /\
        (exists w1, performUndo rollback w = (Returns tt, w1)) /\
        rollbackActions w' !! rollbackId = Some (mark_executed rollback) /\
        executed (mark_executed rollback) = true /\
        (forall later : Z,
            executeUndo userId rollbackId later w' = (Throws not_found, w'))) /\
  (sheetsCalls (executeUndo userId rollbackId now w).2 <> sheetsCalls w \/
   rollbackActions (executeUndo userId rollbackId now w).2 <> rollbackActions w ->
   exists rollback, pending w rollbackId userId rollback /\ now <= expiresAt rollback).
Proof.
  split; [|split; [|split; [|split]]].
  - intros Hnone. apply executeUndo_not_found. by apply find_pending_None.
  - intros rollback Hp Hexp. apply find_pending_Some in Hp.
    unfold executeUndo, executeUndo_body. rewrite Hp.
    apply Z.ltb_lt in Hexp. rewrite Hexp. reflexivity.
  - intros rollback w1 Hp Hfresh Htoken Hundo. apply find_pending_Some in Hp.
    unfold executeUndo, executeUndo_body. rewrite Hp.
    apply Z.ltb_ge in Hfresh. rewrite Hfresh, Htoken, Hundo. reflexivity.
  - intros result w' Hret.
    destruct (executeUndo_returns _ _ _ _ _ _ Hret) as (rollback & w2 & Hf & Hfresh & Hp & ->).
    exists rollback. split; [by apply find_pending_Some|]. split; [exact Hfresh|].
    split; [by exists w2|]. simpl. rewrite lookup_insert_eq.
    split; [reflexivity|]. split; [reflexivity|].
    intros later. apply executeUndo_not_found.
    unfold find_pending. simpl. rewrite lookup_insert_eq. simpl.
    by rewrite andb_false_r.
  - intros Hchanged.
    destruct (find_pending rollbackId userId w) as [rollback|] eqn:Hf.
    + destruct (expiresAt rollback <? now)%Z eqn:Hexp.
      * unfold executeUndo, executeUndo_body in Hchanged.
        rewrite Hf, Hexp in Hchanged. simpl in Hchanged. by destruct Hchanged.
      * exists rollback. split; [by apply find_pending_Some | by apply Z.ltb_ge].
    + rewrite (executeUndo_not_found _ _ _ _ Hf) in Hchanged. simpl in Hchanged.
      by destruct Hchanged.
Qed.

End RollbackProperties.

(** Another user finds nothing to undo; the owner is refused after time
    5000; before it the owner's undo goes through once, and a second call
    finds nothing. *)
Lemma executeUndo_guards_witness :
  @executeUndo Sample.decimal_runtime Sample.accepting "user-2" "rb-1" 100
    Sample.world_with_rollback
  = (Throws not_found, Sample.world_with_rollback) /\
  @executeUndo Sample.decimal_runtime Sample.accepting "user-1" "rb-1" 6000
    Sample.world_with_rollback
  = (Throws window_expired, Sample.world_with_rollback) /\
  (exists result w',
      @executeUndo Sample.decimal_runtime Sample.accepting "user-1" "rb-1" 100
        Sample.world_with_rollback
      = (Returns result, w') /\
      sheetsCalls w' = [deleteRows (JString "sheet-1") (num 0) (num 3) (num 2)] /\
      @executeUndo Sample.decimal_runtime Sample.accepting "user-1" "rb-1" 200 w'
      = (Throws not_found, w')).
Proof.
  pose proof (@executeUndo_guards Sample.decimal_runtime Sample.accepting "user-2" "rb-1" 100
                Sample.world_with_rollback) as [Hother _].
  pose proof (@executeUndo_guards Sample.decimal_runtime Sample.accepting "user-1" "rb-1" 6000
                Sample.world_with_rollback) as [_ [Hlate _]].
  pose proof (@executeUndo_guards Sample.decimal_runtime Sample.accepting "user-1" "rb-1" 100
                Sample.world_with_rollback) as [_ [_ [_ [Honce _]]]].
  split; [|split].
  - apply Hother.
    intros rollback [Hr [Hu _]]. vm_compute in Hr. injection Hr as <-. discriminate.
  - apply (Hlate Sample.inserted_rows_record).
    + repeat split.
    + simpl. lia.
  - destruct (@executeUndo Sample.decimal_runtime Sample.accepting "user-1" "rb-1" 100
                Sample.world_with_rollback)
      as [[result|e] w'] eqn:Hrun; [|vm_compute in Hrun; discriminate].
    exists result, w'. split; [reflexivity|].
    destruct (Honce result w' eq_refl) as (rollback & _ & _ & _ & _ & _ & Hagain).
    split; [|apply Hagain].
    vm_compute in Hrun. injection Hrun as _ <-. reflexivity.
Defined.

(* ===================================================================== *)
(** * Properties of the confirmation gate *)
(* ===================================================================== *)

Section GateProperties.
Context {RT : JsRuntime} {ENV : Environment}.

Lemma execute_failed_is_no_refusal (userId : string) (req : ExecuteRequest)
    (e : JsError) (now : Z) (w : World) :
  (execute_failed userId req e now w).1 <> requires_confirmation.
Proof.
  unfold execute_failed.
  destruct (logAction _ _) as [auditId w2].
  destruct (given (conversationId req)) as [id|]; [|discriminate].
  destruct (Conversations.handleError id e now w2) as [[|e'] w3]; discriminate.
Qed.

Lemma execute_failed_sheetsCalls (userId : string) (req : ExecuteRequest)
    (e : JsError) (now : Z) (w : World) :
  sheetsCalls (execute_failed userId req e now w).2 = sheetsCalls w.
Proof.
  unfold execute_failed, logAction, Conversations.handleError, getCurrentState, handleError.
  by_cases.
Qed.

Lemma snapshot_if_sheet_sheetsCalls (userId auditId : string) (req : ExecuteRequest)
    (now : Z) (w : World) :
  sheetsCalls (snapshot_if_sheet userId auditId req now w) = sheetsCalls w.
Proof. unfold snapshot_if_sheet, createSnapshot. by_cases. Qed.

Lemma execute_route_open (userId : string) (req : ExecuteRequest) (now : Z) (w : World) :
  confirmationRequired (intent req) && negb (confirmed req) = false ->
  (execute_route userId req now w).1 <> requires_confirmation.
Proof.
  intros Hgate. unfold execute_route. rewrite Hgate.
  destruct (getGoogleSheetsService userId now w) as [|e];
    [|apply execute_failed_is_no_refusal].
  destruct (move_if_given (conversationId req) EXECUTING _ now w) as [[|e] w1];
    [|apply execute_failed_is_no_refusal].
  destruct (executeAction (intent req) (sheetId req) w1) as [[result|e] w2];
    [|apply execute_failed_is_no_refusal].
  destruct (logAction _ w2) as [auditId w3].
  destruct (move_if_given (conversationId req) COMPLETED _ now _) as [[|e] w5];
    [discriminate | apply execute_failed_is_no_refusal].
Qed.

(** C1, as the code has it.  The executor answers "requires confirmation"
    exactly when the intent's own [confirmationRequired] hint is true and
    the caller sent no confirmation flag; it then writes no table and calls
    no method of the Sheets service.  The simulator is not consulted: with
    the hint false and the flag absent, a delete_row for a signed-in user
    with a good token and a sheet id goes on to [deleteRows], although
    every dry-run report of it is high risk and asks for confirmation. *)
Theorem execute_gate (userId : string) (req : ExecuteRequest) (now : Z) (w : World) :
  (confirmationRequired (intent req) = true /\ confirmed req = false ->
   execute_route userId req now w = (requires_confirmation, w)) /\
  ((execute_route userId req now w).1 = requires_confirmation <->
   confirmationRequired (intent req) = true /\ confirmed req = false) /\
  (forall sheet : string,
      confirmationRequired (intent req) = false ->
      confirmed req = false ->
      action (intent req) = "delete_row" ->
      given (sheetId req) = Some sheet ->
      given (conversationId req) = None ->
      getGoogleSheetsService userId now w = Returns tt ->
      (forall report,
          simulate "delete_row" (parameters (intent req)) = Returns report ->
          risk_level report = high /\ requiresConfirmation report = true) /\
      In (deleteRows (JString sheet)
            (js_or (get (parameters (intent req)) "sheetId") (num 0))
            (get (parameters (intent req)) "startIndex")
            (js_or (get (parameters (intent req)) "count") (num 1)))
         (sheetsCalls (execute_route userId req now w).2)).
Proof.
  split; [|split].
  - intros [Hhint Hflag]. unfold execute_route. rewrite Hhint, Hflag. reflexivity.
  - split.
    + intros Hanswer.
      destruct (confirmationRequired (intent req) && negb (confirmed req)) eqn:Hgate.
      * apply andb_true_iff in Hgate as [Hhint Hflag].
        apply negb_true_iff in Hflag. auto.
      * destruct (execute_route_open userId req now w Hgate Hanswer).
    + intros [Hhint Hflag]. unfold execute_route. rewrite Hhint, Hflag. reflexivity.
  - intros sheet Hhint Hflag Haction Hsheet Hconv Htoken.
    split; [intros report Hreport; report_of Hreport; split; reflexivity|].
    unfold execute_route, move_if_given. rewrite Hhint, Htoken, Hconv. simpl.
    unfold executeAction. rewrite Haction. simpl.
    unfold need_sheet. rewrite Hsheet. unfold invoke, call_sheets.
    set (c := deleteRows _ _ _ _).
    destruct (respond (sheetsCalls w) c) as [response|e]; simpl;
      [destruct (ToString _) as [text|e]; simpl|];
      rewrite ?execute_failed_sheetsCalls, ?snapshot_if_sheet_sheetsCalls; simpl;
      apply in_or_app; right; left; reflexivity.
Qed.


End GateProperties.

(** A delete_row the classifier marked for confirmation, sent without the
    flag: it is refused and nothing happens. *)
Lemma execute_gate_witness :
  @execute_route Sample.decimal_runtime Sample.accepting "user-1"
    (Sample.unconfirmed_delete true) 1000 (Sample.world_with ∅)
  = (requires_confirmation, Sample.world_with ∅).
Proof.
  apply (proj1 (@execute_gate Sample.decimal_runtime Sample.accepting "user-1"
                  (Sample.unconfirmed_delete true) 1000 (Sample.world_with ∅))).
  split; reflexivity.
Defined.

(** C1 fails as stated: the dry-run report of this delete_row is high risk
    and calls for confirmation, the classifier's hint is false, the request
    carries no confirmation flag, and the executor still deletes the row. *)
Lemma executor_ignores_the_simulator :
  (exists report,
      @simulate Sample.decimal_runtime "delete_row"
        (parameters (intent (Sample.unconfirmed_delete false))) = Returns report /\
      risk_level report = high /\
      requiresConfirmation report = true) /\
  confirmationRequired (intent (Sample.unconfirmed_delete false)) = false /\
  confirmed (Sample.unconfirmed_delete false) = false /\
  (exists result,
      (@execute_route Sample.decimal_runtime Sample.accepting "user-1"
         (Sample.unconfirmed_delete false) 1000 (Sample.world_with ∅)).1
      = executed_ok result) /\
  sheetsCalls
    (@execute_route Sample.decimal_runtime Sample.accepting "user-1"
       (Sample.unconfirmed_delete false) 1000 (Sample.world_with ∅)).2
  = [deleteRows (JString "sheet-1") (num 0) (num 4) (num 1)].
Proof.
  split; [|split; [|split; [|split]]].
  - eexists. split; [reflexivity|]. split; reflexivity.
  - reflexivity.
  - reflexivity.
  - eexists. vm_compute. reflexivity.
  - vm_compute. reflexivity.
Qed.



(* ===================================================================== *)
(** * Column names and A1 ranges *)
(* ===================================================================== *)

Section ColumnNames.
Context {RT : JsRuntime}.

Lemma indexToColumn_loop_step (temp : JsValue) (column : string) :
  js_ge temp 0 = true ->
  indexToColumn_loop temp column
  = indexToColumn_loop (js_sub (floor_div temp 26) 1)
      (fromCharCode (js_add (js_rem temp 26) (num 65)) +:+ column).
Proof.
  intros Hge. rewrite indexToColumn_loop_equation_1.
  generalize (inspect (js_ge temp 0)). intros [b Hb].
  destruct b; [reflexivity | congruence].
Qed.

Lemma indexToColumn_loop_stop (temp : JsValue) (column : string) :
  js_ge temp 0 = false -> indexToColumn_loop temp column = column.
Proof.
  intros Hlt. rewrite indexToColumn_loop_equation_1.
  generalize (inspect (js_ge temp 0)). intros [b Hb].
  destruct b; [congruence | reflexivity].
Qed.

Lemma append_cons (x : ascii) (a b : string) : String x a +:+ b = String x (a +:+ b).
Proof. reflexivity. Qed.

Lemma append_nil_r (a : string) : a +:+ "" = a.
Proof. induction a as [|x a IH]; [reflexivity | by rewrite append_cons, IH]. Qed.

Lemma append_assoc (a b c : string) : (a +:+ b) +:+ c = a +:+ (b +:+ c).
Proof. induction a as [|x a IH]; [reflexivity | by rewrite !append_cons, IH]. Qed.

Lemma list_ascii_of_append (a b : string) :
  list_ascii_of_string (a +:+ b)
  = (list_ascii_of_string a ++ list_ascii_of_string b)%list.
Proof.
  induction a as [|x a IH]; [reflexivity|].
  rewrite append_cons. simpl. by rewrite IH.
Qed.

Lemma string_of_list_snoc (l : list ascii) (c : ascii) :
  string_of_list_ascii (l ++ [c]) = string_of_list_ascii l +:+ String c "".
Proof.
  induction l as [|x l IH]; [reflexivity|].
  simpl. by rewrite IH, append_cons.
Qed.

Lemma charCode_of_code (z : Z) :
  0 <= z < 256 -> charCode (ascii_of_nat (Z.to_nat z)) = z.
Proof.
  intros Hz. unfold charCode. rewrite nat_ascii_embedding; lia.
Qed.

Lemma code_of_charCode (c : ascii) : ascii_of_nat (Z.to_nat (charCode c)) = c.
Proof. unfold charCode. rewrite Nat2Z.id. apply ascii_nat_embedding. Qed.

Lemma is_capital_bounds (c : ascii) :
  is_capital c = true <-> 65 <= charCode c <= 90.
Proof. unfold is_capital. rewrite andb_true_iff, !Z.leb_le. tauto. Qed.

(** The number a column name denotes, counted from 1. *)
Lemma column_number_snoc (l : list ascii) (c : ascii) (acc : Z) :
  fold_left (fun index x => index * 26 + (charCode x - 65 + 1)) (l ++ [c]) acc
  = fold_left (fun index x => index * 26 + (charCode x - 65 + 1)) l acc * 26
    + (charCode c - 64).
Proof. rewrite fold_left_app. simpl. lia. Qed.

Lemma column_number_nonneg (l : list ascii) :
  forallb is_capital l = true ->
  0 <= fold_left (fun index x => index * 26 + (charCode x - 65 + 1)) l 0.
Proof.
  induction l as [|c l IH] using rev_ind; intros Hl; simpl; [lia|].
  rewrite forallb_app in Hl. apply andb_true_iff in Hl as [Hl Hc].
  simpl in Hc. rewrite andb_true_r in Hc. apply is_capital_bounds in Hc.
  rewrite column_number_snoc. specialize (IH Hl). lia.
Qed.

(** One turn of the loop on a number that is not negative. *)
Lemma indexToColumn_loop_turn (t : Z) (column : string) :
  0 <= t ->
  indexToColumn_loop (num t) column
  = indexToColumn_loop (num (t / 26 - 1))
      (String (ascii_of_nat (Z.to_nat (t mod 26 + 65))) column).
Proof.
  intros Ht. rewrite indexToColumn_loop_step by (by apply Z.leb_le).
  unfold js_sub, floor_div, js_rem, js_add, fromCharCode, num. simpl.
  rewrite Z.rem_mod_nonneg by lia.
  assert (0 <= t mod 26 < 26) by (apply Z.mod_pos_bound; lia).
  rewrite (Z.mod_small (t mod 26 + 65)) by lia. reflexivity.
Qed.

Lemma indexToColumn_loop_names (t : Z) :
  -1 <= t ->
  forall column,
  exists s,
    indexToColumn_loop (num t) column = s +:+ column /\
    all_capitals s = true /\
    columnToIndex s = t /\
    (s = "" <-> t = -1).
Proof.
  revert t. apply (Zlt_lower_bound_ind
    (fun t => forall column, exists s,
         indexToColumn_loop (num t) column = s +:+ column /\
         all_capitals s = true /\ columnToIndex s = t /\ (s = "" <-> t = -1))).
  intros t IH Ht column.
  destruct (Z.eq_dec t (-1)) as [->|Hne].
  - exists "". rewrite indexToColumn_loop_stop by reflexivity.
    repeat split; reflexivity.
  - assert (Hpos : 0 <= t) by lia.
    assert (Hmod : 0 <= t mod 26 < 26) by (apply Z.mod_pos_bound; lia).
    assert (Hdiv : 0 <= t / 26 <= t).
    { split; [apply Z.div_pos; lia | apply Z.div_le_upper_bound; lia]. }
    rewrite indexToColumn_loop_turn by exact Hpos.
    set (c := ascii_of_nat (Z.to_nat (t mod 26 + 65))).
    destruct (IH (t / 26 - 1) ltac:(lia) (String c column)) as (s & Hs & Hcap & Hidx & _).
    assert (Hc : charCode c = t mod 26 + 65) by (apply charCode_of_code; lia).
    exists (s +:+ String c ""). split; [|split; [|split]].
    + rewrite Hs, append_assoc. reflexivity.
    + unfold all_capitals in *. rewrite list_ascii_of_append, forallb_app, Hcap. simpl.
      rewrite andb_true_r. apply is_capital_bounds. lia.
    + unfold columnToIndex in *. rewrite list_ascii_of_append. simpl.
      rewrite column_number_snoc, Hc.
      pose proof (Z.div_mod t 26 ltac:(lia)). lia.
    + split; [|lia]. destruct s; discriminate.
Qed.

Lemma indexToColumn_loop_of_name (l : list ascii) (column : string) :
  forallb is_capital l = true ->
  indexToColumn_loop
    (num (fold_left (fun index x => index * 26 + (charCode x - 65 + 1)) l 0 - 1)) column
  = string_of_list_ascii l +:+ column.
Proof.
  revert column. induction l as [|c l IH] using rev_ind; intros column Hl.
  - simpl. apply indexToColumn_loop_stop. reflexivity.
  - rewrite forallb_app in Hl. apply andb_true_iff in Hl as [Hl Hc].
    simpl in Hc. rewrite andb_true_r in Hc. apply is_capital_bounds in Hc.
    pose proof (column_number_nonneg l Hl) as Hnum.
    rewrite column_number_snoc.
    set (v := fold_left (fun index x => index * 26 + (charCode x - 65 + 1)) l 0) in *.
    rewrite indexToColumn_loop_turn by lia.
    replace (v * 26 + (charCode c - 64) - 1) with (charCode c - 65 + v * 26) by lia.
    rewrite Z_div_plus, Z_mod_plus by lia.
    rewrite Z.div_small, Z.mod_small by lia.
    replace (charCode c - 65 + 65) with (charCode c) by lia.
    rewrite code_of_charCode. replace (0 + v - 1) with (v - 1) by lia.
    rewrite IH by exact Hl. rewrite string_of_list_snoc, append_assoc. reflexivity.
Qed.

(** X1.  [indexToColumn] names every index from 0 up to the largest safe
    integer by a non-empty string of capital letters, and [columnToIndex]
    of the Sheets service reads the index back from the name. *)
Theorem column_name_read_back (index : Z) :
  0 <= index < 2 ^ 53 ->
  exists name,
    indexToColumn (num index) = Returns name /\
    name <> "" /\
    all_capitals name = true /\
    columnToIndex name = index.
Proof.
  intros [Hpos _]. unfold indexToColumn. simpl.
  destruct (indexToColumn_loop_names index ltac:(lia) "") as (s & Hs & Hcap & Hidx & Hempty).
  exists s. rewrite Hs, append_nil_r. split; [reflexivity|]. split; [|split; assumption].
  intros Hs0. apply Hempty in Hs0. lia.
Qed.

(** X2.  Conversely [indexToColumn] prints back every column name of up to
    eleven capital letters from the index [columnToIndex] gives it; the two
    functions are inverse to each other, so distinct names have distinct
    indexes. *)
Theorem column_index_printed_back (column : string) :
  all_capitals column = true ->
  (String.length column <= 11)%nat ->
  indexToColumn (num (columnToIndex column)) = Returns column.
Proof.
  intros Hcap _. unfold indexToColumn, columnToIndex. simpl.
  rewrite (indexToColumn_loop_of_name _ "" Hcap).
  rewrite string_of_list_ascii_of_string. by rewrite append_nil_r.
Qed.


End ColumnNames.

Section RangeParsing.

Lemma span_sound (p : ascii -> bool) (s taken others : string) :
  span p s = (taken, others) ->
  s = taken +:+ others /\ forallb p (list_ascii_of_string taken) = true.
Proof.
  revert taken others. induction s as [|c s IH]; intros taken others Hspan; simpl in Hspan.
  - injection Hspan as <- <-. split; reflexivity.
  - destruct (p c) eqn:Hc.
    + destruct (span p s) as [t o] eqn:Hrest. injection Hspan as <- <-.
      destruct (IH t o eq_refl) as [-> Ht]. split; [reflexivity|].
      simpl. by rewrite Hc, Ht.
    + injection Hspan as <- <-. split; reflexivity.
Qed.

Lemma span_complete (p : ascii -> bool) (taken others : string) :
  forallb p (list_ascii_of_string taken) = true ->
  stops p others ->
  span p (taken +:+ others) = (taken, others).
Proof.
  intros Htaken Hstop. induction taken as [|c taken IH].
  - destruct others as [|c others]; [reflexivity|].
    simpl in *. by rewrite Hstop.
  - simpl in Htaken. apply andb_true_iff in Htaken as [Hc Htaken].
    rewrite append_cons. simpl. rewrite Hc, (IH Htaken). reflexivity.
Qed.

Lemma digit_is_no_capital (c : ascii) : is_digit c = true -> is_capital c = false.
Proof.
  unfold is_digit, is_capital. rewrite andb_true_iff, !Z.leb_le. intros [_ H].
  apply andb_false_iff. left. apply Z.leb_gt. lia.
Qed.

Lemma stops_capitals_at_digits (digits others : string) :
  all_digits digits = true ->
  stops is_capital others ->
  stops is_capital (digits +:+ others).
Proof.
  intros Hd Ho. destruct digits as [|c digits]; [exact Ho|].
  unfold all_digits in Hd. simpl in Hd. apply andb_true_iff in Hd as [Hc _].
  rewrite append_cons. simpl. by apply digit_is_no_capital.
Qed.

Lemma match_range_open (c1 r1 : string) :
  all_capitals c1 = true ->
  all_digits r1 = true ->
  match_range (c1 +:+ r1)
  = Some {| startCol := group c1; startRow := group r1; endCol := None; endRow := None |}.
Proof.
  intros Hc1 Hr1. unfold match_range.
  rewrite (span_complete is_capital c1 r1 Hc1)
    by (rewrite <- (append_nil_r r1); by apply stops_capitals_at_digits).
  rewrite <- (append_nil_r r1) at 1.
  rewrite (span_complete is_digit r1 "" Hr1) by exact I. reflexivity.
Qed.

Lemma match_range_closed (c1 r1 c2 r2 : string) :
  all_capitals c1 = true ->
  all_digits r1 = true ->
  all_capitals c2 = true ->
  all_digits r2 = true ->
  match_range (c1 +:+ r1 +:+ ":" +:+ c2 +:+ r2)
  = Some {| startCol := group c1; startRow := group r1;
            endCol := group c2; endRow := group r2 |}.
Proof.
  intros Hc1 Hr1 Hc2 Hr2. unfold match_range.
  rewrite (span_complete is_capital c1 _ Hc1)
    by (by apply stops_capitals_at_digits).
  rewrite (span_complete is_digit r1 _ Hr1) by reflexivity.
  rewrite append_cons. change (Ascii.eqb ":" ":") with true. cbv iota.
  change ("" +:+ c2 +:+ r2) with (c2 +:+ r2).
  rewrite (span_complete is_capital c2 r2 Hc2)
    by (rewrite <- (append_nil_r r2); by apply stops_capitals_at_digits).
  rewrite <- (append_nil_r r2) at 1.
  rewrite (span_complete is_digit r2 "" Hr2) by exact I. reflexivity.
Qed.

Lemma match_range_shape (range : string) (m : RangeMatch) :
  match_range range = Some m -> a1_shape range.
Proof.
  unfold match_range, a1_shape.
  destruct (span is_capital range) as [g1 after1] eqn:H1.
  destruct (span is_digit after1) as [g2 after2] eqn:H2.
  apply span_sound in H1 as [-> Hg1]. apply span_sound in H2 as [-> Hg2].
  destruct after2 as [|c after_colon].
  - intros _. exists g1, g2, "". split; [reflexivity|]. split; [exact Hg1|].
    split; [exact Hg2|]. left. reflexivity.
  - destruct (Ascii.eqb c ":") eqn:Hcolon; [|discriminate].
    apply Ascii.eqb_eq in Hcolon. subst c.
    destruct (span is_capital after_colon) as [g3 after3] eqn:H3.
    destruct (span is_digit after3) as [g4 after4] eqn:H4.
    apply span_sound in H3 as [-> Hg3]. apply span_sound in H4 as [-> Hg4].
    destruct after4; [|discriminate]. intros _.
    exists g1, g2, (":" +:+ g3 +:+ g4). rewrite append_nil_r.
    split; [reflexivity|]. split; [exact Hg1|]. split; [exact Hg2|].
    right. exists g3, g4. split; [reflexivity|]. split; assumption.
Qed.

(** X4.  [parseRangeToGridRange] returns a range exactly for the strings
    made of an optional run of capital letters, an optional run of digits
    and, optionally, a colon followed by two more such runs; every part may
    be missing, so the empty string and a lone colon are ranges too.  On
    every other string (lower-case letters, a sheet name with [!], [$]
    signs, blanks) it throws "Invalid range format". *)
Theorem parseRangeToGridRange_accepts (range : string) (sheetId : JsValue) :
  (a1_shape range <-> returned (parseRangeToGridRange range sheetId) = true) /\
  (~ a1_shape range ->
   parseRangeToGridRange range sheetId
   = Throws (Error ("Invalid range format: " +:+ range))).
Proof.
  assert (Hiff : a1_shape range <-> match_range range <> None).
  { split.
    - intros (c1 & r1 & tail & -> & Hc1 & Hr1 & [-> | (c2 & r2 & -> & Hc2 & Hr2)]).
      + rewrite append_nil_r, match_range_open by assumption. discriminate.
      + rewrite match_range_closed by assumption. discriminate.
    - destruct (match_range range) as [m|] eqn:Hm; [|congruence].
      intros _. by eapply match_range_shape. }
  unfold parseRangeToGridRange. split.
  - rewrite Hiff. destruct (match_range range); simpl; split; congruence.
  - intros Hno. destruct (match_range range) eqn:Hm; [|reflexivity].
    destruct Hno. apply Hiff. congruence.
Qed.

(** X5.  A range with both corners, such as A1:B10, becomes a half-open
    zero-based index range: the start row is the first row number minus
    one, the end row is the last row number, the start column is the index
    of the first column and the end column the index of the last column
    plus one.  A single cell, such as B2, gets start indexes only: the
    range is left open towards the end of the sheet. *)
Theorem parseRangeToGridRange_indexes (c1 r1 c2 r2 : string) (sheetId : JsValue) :
  c1 <> "" -> r1 <> "" -> c2 <> "" -> r2 <> "" ->
  all_capitals c1 = true -> all_digits r1 = true ->
  all_capitals c2 = true -> all_digits r2 = true ->
  (String.length c1 <= 11)%nat -> (String.length r1 <= 15)%nat ->
  (String.length c2 <= 11)%nat -> (String.length r2 <= 15)%nat ->
  parseRangeToGridRange (c1 +:+ r1 +:+ ":" +:+ c2 +:+ r2) sheetId
  = Returns {| grid_sheetId := sheetId;
               startRowIndex := Some (parseInt r1 - 1);
               endRowIndex := Some (parseInt r2);
               startColumnIndex := Some (columnToIndex c1);
               endColumnIndex := Some (columnToIndex c2 + 1) |} /\
  parseRangeToGridRange (c1 +:+ r1) sheetId
  = Returns {| grid_sheetId := sheetId;
               startRowIndex := Some (parseInt r1 - 1);
               endRowIndex := None;
               startColumnIndex := Some (columnToIndex c1);
               endColumnIndex := None |}.
Proof.
  intros N1 N2 N3 N4 Hc1 Hr1 Hc2 Hr2 _ _ _ _.
  assert (Hgroup : forall s, s <> "" -> group s = Some s).
  { intros s Hs. unfold group. destruct (String.eqb s "") eqn:E; [|reflexivity].
    apply String.eqb_eq in E. contradiction. }
  unfold parseRangeToGridRange.
  rewrite match_range_closed, match_range_open by assumption.
  simpl. rewrite !Hgroup by assumption. split; reflexivity.
Qed.

End RangeParsing.

(** The index 701 is column ZZ. *)
Lemma column_name_read_back_witness :
  exists name,
    @indexToColumn Sample.decimal_runtime (num 701) = Returns name /\
    name <> "" /\
    all_capitals name = true /\
    columnToIndex name = 701.
Proof.
  apply (@column_name_read_back Sample.decimal_runtime 701). split; [lia | reflexivity].
Defined.

(** Column AB has index 27. *)
Lemma column_index_printed_back_witness :
  @indexToColumn Sample.decimal_runtime (num (columnToIndex "AB")) = Returns "AB".
Proof.
  apply (@column_index_printed_back Sample.decimal_runtime "AB"); [reflexivity | simpl; lia].
Defined.

(** A1:B10 covers rows 0 to 10 and columns 0 to 2 (ends excluded); B2 starts
    at row 1, column 1 and has no end. *)
Lemma parseRangeToGridRange_indexes_witness :
  parseRangeToGridRange "A1:B10" (num 0)
  = Returns {| grid_sheetId := num 0;
               startRowIndex := Some 0; endRowIndex := Some 10;
               startColumnIndex := Some 0; endColumnIndex := Some 2 |} /\
  parseRangeToGridRange "A1" (num 0)
  = Returns {| grid_sheetId := num 0;
               startRowIndex := Some 0; endRowIndex := None;
               startColumnIndex := Some 0; endColumnIndex := None |}.
Proof.
  apply (parseRangeToGridRange_indexes "A" "1" "B" "10" (num 0));
    try discriminate; try reflexivity; simpl; lia.
Defined.

(* ===================================================================== *)
(** * What the reports of the simulator say *)
(* ===================================================================== *)

Section ReportProperties.
Context {RT : JsRuntime}.

(** X6.  Whether a report asks for confirmation depends on the action kind
    alone, never on the parameters: the report is high risk exactly for
    delete_row, delete_column and clear_range, it says "not reversible"
    exactly for create_spreadsheet, sort_data and create_tally_sheet, and
    the dry-run route asks for confirmation, and moves the conversation to
    CONFIRMATION_REQUIRED, exactly for these six kinds. *)
Theorem confirmation_by_kind (action : string) (params : gmap string JsValue)
    (report : DryRunResult) :
  simulate action params = Returns report ->
  bool_decide (risk_level report = high) = one_of destructive_kinds action /\
  reversible report = negb (one_of irreversible_kinds action) /\
  requiresConfirmation report
  = one_of (destructive_kinds ++ irreversible_kinds) action /\
  nextState report
  = if one_of (destructive_kinds ++ irreversible_kinds) action
    then CONFIRMATION_REQUIRED else READY_TO_EXECUTE.
Proof.
  intros H. report_of H; repeat split; try reflexivity;
    unfold requiresConfirmation, nextState; simpl;
    repeat match goal with b : bool |- _ => destruct b end; reflexivity.
Qed.

(** X7.  A report carries warnings exactly when its risk is not low. *)
Theorem warnings_iff_risk (action : string) (params : gmap string JsValue)
    (report : DryRunResult) :
  simulate action params = Returns report ->
  (warnings report = None <-> risk_level report = low).
Proof.
  intros H. report_of H; simpl;
    repeat match goal with b : bool |- _ => destruct b end;
    split; intros; congruence.
Qed.

(** X8.  With a start index [s] and a count [n] below 2^32, both numbers
    and so that [s + n] stays between -2^53 and 2^53, the report of
    insert_row and of delete_row lists the [n] rows [s + 1], ..., [s + n]
    (row numbers count from 1) and the report of insert_column lists the
    names of the [n] columns with the indexes [s], ..., [s + n - 1]; for a
    count of zero or less the lists are empty. *)
Theorem affected_rows_and_columns (params : gmap string JsValue) (s n : Z) :
  get params "startIndex" = num s ->
  with_default (get params "count") (num 1) = num n ->
  n < 2 ^ 32 ->
  - 2 ^ 53 < s ->
  s + n < 2 ^ 53 ->
  (forall action, action = "insert_row" \/ action = "delete_row" ->
     exists report,
       simulate action params = Returns report /\
       rows_affected report
       = Some (map (fun i => num (s + Z.of_nat i + 1)) (seq 0 (Z.to_nat n)))) /\
  (exists report names,
      simulate "insert_column" params = Returns report /\
      columns_affected report = Some names /\
      Forall2 (fun i name => indexToColumn (num (s + Z.of_nat i)) = Returns name)
        (seq 0 (Z.to_nat n)) names).
Proof.
  intros Hs Hn Hsmall _ _.
  assert (Hlen : Z.to_nat (Z.max 0 (Z.min n (2 ^ 53 - 1))) = Z.to_nat n).
  { assert (2 ^ 32 < 2 ^ 53 - 1) by reflexivity. lia. }
  assert (Hallowed : array_length_allowed (num n) = true)
    by (unfold array_length_allowed; simpl; by apply Z.ltb_lt).
  assert (Harray : forall (A : Type) (f : Z -> Outcome A) (g : Z -> A),
             (forall i, f i = Returns (g i)) ->
             array_from_length (num n) f
             = Returns (map (fun i => g (Z.of_nat i)) (seq 0 (Z.to_nat n)))).
  { intros A f g Hf. rewrite (array_from_length_returns (num n) f g eq_refl Hf).
    rewrite Hallowed. simpl. by rewrite Hlen. }
  assert (Hthere : forall action,
             action = "insert_row" \/ action = "delete_row" \/ action = "insert_column" ->
             exists report, simulate action params = Returns report).
  { intros action Ha. apply simulate_usable; [by destruct Ha as [-> | [-> | ->]]|].
    destruct Ha as [-> | [-> | ->]]; unfold parameters_usable; simpl;
      by rewrite Hn, Hs, Hallowed. }
  split.
  - intros action Ha.
    destruct (Hthere action ltac:(tauto)) as [report Hr].
    exists report. split; [exact Hr|].
    destruct Ha as [-> | ->]; report_of Hr; simpl;
      match goal with
      | H : array_from_length _ _ = Returns _ |- _ =>
          rewrite Hs, Hn in H;
          rewrite (Harray _ _ _ (fun i => row_number_convertible (num s) i eq_refl)) in H;
          injection H as <-
      end; reflexivity.
  - destruct (Hthere "insert_column" ltac:(tauto)) as [report Hr].
    exists report. pose proof Hr as Hsim. report_of Hr. simpl.
    match goal with
    | H : array_from_length _ _ = Returns _ |- _ =>
        rewrite Hs, Hn in H;
        rewrite (Harray _ _ _ (fun i => column_name_convertible (num s) i eq_refl)) in H;
        injection H as <-
    end.
    eexists. split; [exact Hsim|]. split; [reflexivity|].
    apply Forall2_fmap_r, Forall_Forall2_diag, Forall_forall.
    intros i _. reflexivity.
Qed.

End ReportProperties.

(** The report of a delete_row asks for confirmation. *)
Lemma confirmation_by_kind_witness :
  exists report,
    @simulate Sample.decimal_runtime "delete_row" {[ "startIndex" := num 4 ]}
    = Returns report /\
    requiresConfirmation report = true /\
    nextState report = CONFIRMATION_REQUIRED.
Proof.
  destruct (@simulate Sample.decimal_runtime "delete_row" {[ "startIndex" := num 4 ]})
    as [report|e] eqn:Hsim; [|vm_compute in Hsim; discriminate].
  exists report. split; [reflexivity|].
  destruct (@confirmation_by_kind Sample.decimal_runtime "delete_row"
              {[ "startIndex" := num 4 ]} report Hsim) as (_ & _ & Hask & Hnext).
  split; [exact Hask | exact Hnext].
Defined.

(** Eleven inserted rows are a medium risk and come with a warning. *)
Lemma warnings_iff_risk_witness :
  exists report,
    @simulate Sample.decimal_runtime "insert_row"
      {[ "startIndex" := num 2; "count" := num 11 ]} = Returns report /\
    (warnings report = None <-> risk_level report = low).
Proof.
  destruct (@simulate Sample.decimal_runtime "insert_row"
              {[ "startIndex" := num 2; "count" := num 11 ]})
    as [report|e] eqn:Hsim; [|vm_compute in Hsim; discriminate].
  exists report. split; [reflexivity|].
  exact (@warnings_iff_risk Sample.decimal_runtime "insert_row"
           {[ "startIndex" := num 2; "count" := num 11 ]} report Hsim).
Defined.

(** Three rows inserted at index 4 are the rows 5, 6 and 7. *)
Lemma affected_rows_and_columns_witness :
  exists report,
    @simulate Sample.decimal_runtime "insert_row"
      {[ "startIndex" := num 4; "count" := num 3 ]} = Returns report /\
    rows_affected report = Some [num 5; num 6; num 7].
Proof.
  assert (Hs : get ({[ "startIndex" := num 4; "count" := num 3 ]} : gmap string JsValue)
                 "startIndex" = num 4) by (vm_compute; reflexivity).
  assert (Hn : with_default
                 (get ({[ "startIndex" := num 4; "count" := num 3 ]} : gmap string JsValue)
                    "count") (num 1) = num 3) by (vm_compute; reflexivity).
  destruct (@affected_rows_and_columns Sample.decimal_runtime
              {[ "startIndex" := num 4; "count" := num 3 ]} 4 3
              Hs Hn eq_refl eq_refl eq_refl) as [Hrows _].
  exact (Hrows "insert_row" (or_introl eq_refl)).
Defined.

(* ===================================================================== *)
(** * The undo history and its upkeep *)
(* ===================================================================== *)

Lemma take_rows_sublist {A : Type} (n : Z) (rows : list A) :
  take_rows n rows `sublist_of` rows.
Proof.
  unfold take_rows. destruct (0 <=? n)%Z; [apply sublist_take | apply sublist_drop].
Qed.

Lemma take_rows_length {A : Type} (n : Z) (rows : list A) :
  (List.length (take_rows n rows) <= Z.to_nat (Z.abs n))%nat.
Proof.
  unfold take_rows. destruct (0 <=? n)%Z eqn:Hn.
  - apply Z.leb_le in Hn. rewrite length_take. lia.
  - apply Z.leb_gt in Hn. rewrite length_drop. lia.
Qed.

Lemma take_rows_all {A : Type} (n : Z) (rows : list A) :
  Z.of_nat (List.length rows) <= n -> take_rows n rows = rows.
Proof.
  intros Hn. unfold take_rows.
  destruct (0 <=? n)%Z eqn:Hpos; [apply take_ge; lia | apply Z.leb_gt in Hpos; lia].
Qed.

Lemma take_rows_sorted {A : Type} (R : relation A) (n : Z) (rows : list A) :
  StronglySorted R rows -> StronglySorted R (take_rows n rows).
Proof.
  intros Hs. unfold take_rows. destruct (0 <=? n)%Z.
  - rewrite <- (take_drop (Z.to_nat n) rows) in Hs.
    by apply StronglySorted_app_1_l in Hs.
  - rewrite <- (take_drop (List.length rows - Z.to_nat (- n)) rows) in Hs.
    by apply StronglySorted_app_1_r in Hs.
Qed.

Lemma newer_total : Total newer.
Proof. intros a b. unfold newer. lia. Qed.

Lemma newer_transitive : Transitive newer.
Proof. intros a b c. unfold newer. lia. Qed.

Lemma elem_of_available_rows (userId : string) (now : Z) (w : World)
    (id : string) (rb : RollbackAction) :
  (id, rb) ∈ merge_sort newer
               (map_to_list (filter (available userId now) (rollbackActions w)))
  <-> pending w id userId rb /\ now < expiresAt rb.
Proof.
  rewrite merge_sort_Permutation, elem_of_map_to_list, map_lookup_filter_Some.
  unfold available, pending. simpl. tauto.
Qed.

Section UndoHistory.
Context {RT : JsRuntime} {ENV : Environment}.

(** X9.  Every record [getUndoHistory] lists is one the guards of
    [executeUndo] accept at the same time: it is found as an un-executed
    record of the user and it has not expired.  The list has at most
    [limit] entries (10 when no limit is given), newest first, and holds
    every such record when there are no more than [limit] of them.  A
    record that expires exactly at [now] is not listed, although the
    guards of [executeUndo] still accept it. *)
Theorem undo_history_is_acceptable (userId : string) (limit : option Z) (now : Z)
    (w : World) :
  (forall id rb,
      (id, rb) ∈ getUndoHistory userId limit now w ->
      find_pending id userId w = Some rb /\ (expiresAt rb <? now) = false) /\
  (List.length (getUndoHistory userId limit now w)
   <= Z.to_nat (Z.abs (default 10%Z limit)))%nat /\
  StronglySorted newer (getUndoHistory userId limit now w) /\
  (Z.of_nat (availableUndos (getUndoStats userId now w)) <= default 10 limit ->
   forall id rb,
     pending w id userId rb -> now < expiresAt rb ->
     (id, rb) ∈ getUndoHistory userId limit now w) /\
  (forall id rb,
      pending w id userId rb -> expiresAt rb = now ->
      ((id, rb) ∉ getUndoHistory userId limit now w) /\
      find_pending id userId w = Some rb /\ (expiresAt rb <? now) = false).
Proof.
  unfold getUndoHistory. split; [|split; [|split; [|split]]].
  - intros id rb Hin.
    apply (fun H => elem_of_sublist _ _ _ H (take_rows_sublist _ _)) in Hin.
    apply elem_of_available_rows in Hin as [Hp Hnow].
    split; [by apply find_pending_Some | apply Z.ltb_ge; lia].
  - apply take_rows_length.
  - apply take_rows_sorted.
    apply (@StronglySorted_merge_sort _ newer _ newer_transitive newer_total).
  - intros Hfew id rb Hp Hnow. rewrite take_rows_all.
    + by apply elem_of_available_rows.
    + rewrite merge_sort_Permutation, length_map_to_list. exact Hfew.
  - intros id rb Hp Hnow. split; [|split].
    + intros Hin.
      apply (fun H => elem_of_sublist _ _ _ H (take_rows_sublist _ _)) in Hin.
      apply elem_of_available_rows in Hin as [_ Hlt]. lia.
    + by apply find_pending_Some.
    + apply Z.ltb_ge. lia.
Qed.

(** X10.  [cleanupExpired] deletes exactly the records whose [expiresAt]
    is before [now], of every user and executed or not, and returns their
    number; the other tables are left alone.  A record the guards of
    [executeUndo] still accept is never deleted, and an undo of a deleted
    record, refused as expired before the cleanup, is refused as not found
    after it. *)
Theorem cleanupExpired_deletes_expired (now : Z) (w : World) :
  (forall id,
      rollbackActions (cleanupExpired now w).2 !! id
      = match rollbackActions w !! id with
        | Some rb => if expiresAt rb <? now then None else Some rb
        | None => None
        end) /\
  size (rollbackActions w)
  = ((cleanupExpired now w).1 + size (rollbackActions (cleanupExpired now w).2))%nat /\
  conversations (cleanupExpired now w).2 = conversations w /\
  auditLogs (cleanupExpired now w).2 = auditLogs w /\
  sheetsCalls (cleanupExpired now w).2 = sheetsCalls w /\
  (forall id userId rb,
      pending w id userId rb ->
      if expiresAt rb <? now
      then executeUndo userId id now w = (Throws window_expired, w) /\
           executeUndo userId id now (cleanupExpired now w).2
           = (Throws not_found, (cleanupExpired now w).2)
      else pending (cleanupExpired now w).2 id userId rb).
Proof.
  assert (Hlookup : forall id,
      rollbackActions (cleanupExpired now w).2 !! id
      = match rollbackActions w !! id with
        | Some rb => if expiresAt rb <? now then None else Some rb
        | None => None
        end).
  { intros id. simpl. rewrite map_lookup_filter.
    destruct (rollbackActions w !! id) as [rb|]; [|reflexivity]. simpl.
    unfold expired. simpl. destruct (expiresAt rb <? now) eqn:Hexp.
    - apply Z.ltb_lt in Hexp. rewrite option_guard_False by tauto. reflexivity.
    - apply Z.ltb_ge in Hexp. rewrite option_guard_True by lia. reflexivity. }
  split; [exact Hlookup|]. split; [|repeat split].
  - simpl. rewrite <- map_size_disj_union by apply map_disjoint_filter_complement.
    by rewrite map_filter_union_complement.
  - intros id userId rb Hp. destruct (expiresAt rb <? now) eqn:Hexp.
    + split.
      * unfold executeUndo, executeUndo_body.
        rewrite (proj2 (find_pending_Some _ _ _ _) Hp), Hexp. reflexivity.
      * apply executeUndo_not_found. unfold find_pending.
        rewrite Hlookup. destruct Hp as [-> _]. by rewrite Hexp.
    + destruct Hp as (Hrow & Huser & Hexec). split; [|split; assumption].
      by rewrite Hlookup, Hrow, Hexp.
Qed.

End UndoHistory.

(* ===================================================================== *)
(** * From a snapshot to its undo *)
(* ===================================================================== *)

Lemma createSnapshot_stores {RT : JsRuntime} {ENV : Environment}
    (userId actionId sheet action : string) (params : gmap string JsValue)
    (data : option (gmap string JsValue)) (t : Z) (w w1 : World)
    (id : string) (rb : RollbackAction) :
  createSnapshot userId actionId sheet action params data t w = (Returns (id, rb), w1) ->
  exists undo,
    getUndoAction action = Some undo /\
    id = fresh (dom (rollbackActions w)) /\
    rb = {| rb_userId := userId; rb_actionId := actionId; rb_sheetId := sheet;
            undoAction := undo; undoData := generateUndoData action params data;
            executed := false; expiresAt := t + undo_window; rb_createdAt := t |} /\
    w1 = set_rollbackActions (insert id rb) w /\
    rollbackActions w !! id = None.
Proof.
  unfold createSnapshot. destruct (getUndoAction action) as [undo|]; [|discriminate].
  intros [= <- <- <-]. exists undo. repeat split.
  apply not_elem_of_dom, is_fresh.
Qed.

Section SnapshotToUndo.
Context {RT : JsRuntime} {ENV : Environment}.

(** X11.  A snapshot made at time [t] gets an id no record had, belongs to
    the user who made it and expires 24 hours later; no other record is
    touched.  Until then the guards of [executeUndo] let its owner through
    (the undo runs once the Sheets service can be built), after that the
    owner is refused with the expired error, and any other user is refused
    with the not-found error at every time. *)
Theorem snapshot_window (userId actionId sheet action : string)
    (params : gmap string JsValue) (data : option (gmap string JsValue))
    (t : Z) (w w1 : World) (id : string) (rb : RollbackAction) :
  createSnapshot userId actionId sheet action params data t w = (Returns (id, rb), w1) ->
  rollbackActions w !! id = None /\
  pending w1 id userId rb /\
  expiresAt rb = t + undo_window /\
  (forall id', id' <> id -> rollbackActions w1 !! id' = rollbackActions w !! id') /\
  (forall now, t + undo_window < now ->
     executeUndo userId id now w1 = (Throws window_expired, w1)) /\
  (forall other now, other <> userId ->
     executeUndo other id now w1 = (Throws not_found, w1)) /\
  (forall now w2, now <= t + undo_window ->
     getGoogleSheetsService userId now w1 = Returns tt ->
     performUndo rb w1 = (Returns tt, w2) ->
     executeUndo userId id now w1
     = (Returns {| undo_success := true;
                   undo_message := "Successfully undid action: " +:+ undoAction rb |},
        set_rollbackActions (insert id (mark_executed rb)) w2)).
Proof.
  intros Hsnap.
  destruct (createSnapshot_stores _ _ _ _ _ _ _ _ _ _ _ Hsnap)
    as (undo & Hundo & Hid & Hrb & Hw1 & Hfresh).
  assert (Hrow : rollbackActions w1 !! id = Some rb)
    by (rewrite Hw1; simpl; apply lookup_insert_eq).
  assert (Hp : pending w1 id userId rb).
  { split; [exact Hrow|]. rewrite Hrb. split; reflexivity. }
  assert (Hexp : expiresAt rb = t + undo_window) by (rewrite Hrb; reflexivity).
  split; [exact Hfresh|]. split; [exact Hp|]. split; [exact Hexp|].
  split; [|split; [|split]].
  - intros id' Hne. rewrite Hw1. simpl. by apply lookup_insert_ne.
  - intros now Hlate. unfold executeUndo, executeUndo_body.
    rewrite (proj2 (find_pending_Some _ _ _ _) Hp), Hexp.
    apply Z.ltb_lt in Hlate. rewrite Hlate. reflexivity.
  - intros other now Hother. apply executeUndo_not_found.
    unfold find_pending. rewrite Hrow.
    assert (Huser : rb_userId rb = userId) by (rewrite Hrb; reflexivity).
    rewrite Huser. apply String.eqb_neq in Hother.
    rewrite String.eqb_sym, Hother. reflexivity.
  - intros now w2 Hintime Htoken Hdone. unfold executeUndo, executeUndo_body.
    rewrite (proj2 (find_pending_Some _ _ _ _) Hp), Hexp.
    apply Z.ltb_ge in Hintime. rewrite Hintime, Htoken, Hdone. reflexivity.
Qed.

Lemma undo_name_is_no_case (action : string) (w : World) (rb : RollbackAction) :
  undoAction rb = "undo_" +:+ action ->
  performUndo rb w
  = (Throws (Error ("Unsupported undo action: " +:+ undoAction rb)), w).
Proof.
  intros Hundo. unfold performUndo. rewrite Hundo.
  change ("undo_" +:+ action)
    with (String "u" (String "n" (String "d" (String "o" (String "_" action))))).
  reflexivity.
Qed.

(** X12.  A record made for an action kind other than update_cell,
    update_range, format_cells, insert_row, insert_column, delete_row,
    clear_range and merge_cells can never be undone: [performUndo] has no
    case for its undo kind (restore_deleted_column for delete_column,
    undo_ followed by the kind for every other one), so every
    [executeUndo] of it throws, calls nothing on the Sheets service and
    leaves the record un-executed. *)
Theorem undo_without_case (userId actionId sheet action : string)
    (params : gmap string JsValue) (data : option (gmap string JsValue))
    (t : Z) (w w1 : World) (id : string) (rb : RollbackAction) :
  createSnapshot userId actionId sheet action params data t w = (Returns (id, rb), w1) ->
  one_of undoable_kinds action = false ->
  (forall w', performUndo rb w'
              = (Throws (Error ("Unsupported undo action: " +:+ undoAction rb)), w')) /\
  (forall now, exists e, executeUndo userId id now w1 = (Throws e, w1)).
Proof.
  intros Hsnap Hkind.
  destruct (createSnapshot_stores _ _ _ _ _ _ _ _ _ _ _ Hsnap)
    as (undo & Hundo & Hid & Hrb & Hw1 & Hfresh).
  assert (Hno : forall w', performUndo rb w'
              = (Throws (Error ("Unsupported undo action: " +:+ undoAction rb)), w')).
  { intros w'. unfold getUndoAction, undoMap, assoc in Hundo.
    unfold one_of, undoable_kinds in Hkind. simpl in Hkind.
    repeat match type of Hundo with
           | context [String.eqb action ?lit] =>
               let E := fresh "E" in
               destruct (String.eqb action lit) eqn:E;
               [apply String.eqb_eq in E; subst action; try discriminate Hkind | ]
           end.
    - injection Hundo as <-. rewrite Hrb. reflexivity.
    - destruct (existsb _ inherited_names); [discriminate|].
      injection Hundo as <-. apply (undo_name_is_no_case action). rewrite Hrb. reflexivity. }
  split; [exact Hno|].
  intros now. unfold executeUndo, executeUndo_body.
  destruct (find_pending id userId w1) as [found|] eqn:Hfound; [|eexists; reflexivity].
  assert (found = rb) as ->.
  { apply find_pending_Some in Hfound as [Hrow _].
    rewrite Hw1 in Hrow. simpl in Hrow. rewrite lookup_insert_eq in Hrow. congruence. }
  destruct (expiresAt rb <? now); [eexists; reflexivity|].
  destruct (getGoogleSheetsService userId now w1); [|eexists; reflexivity].
  rewrite Hno. eexists; reflexivity.
Qed.

Lemma snapshot_if_sheet_new_record (userId auditId : string) (req : ExecuteRequest)
    (now : Z) (w : World) (sheet id : string) (rb : RollbackAction) :
  given (sheetId req) = Some sheet ->
  rollbackActions w !! id = None ->
  rollbackActions (snapshot_if_sheet userId auditId req now w) !! id = Some rb ->
  exists undo,
    getUndoAction (action (intent req)) = Some undo /\
    id = fresh (dom (rollbackActions w)) /\
    rb = {| rb_userId := userId; rb_actionId := auditId; rb_sheetId := sheet;
            undoAction := undo;
            undoData := generateUndoData (action (intent req)) (parameters (intent req)) None;
            executed := false; expiresAt := now + undo_window; rb_createdAt := now |}.
Proof.
  intros Hsheet Hnone. unfold snapshot_if_sheet, createSnapshot. rewrite Hsheet.
  destruct (getUndoAction (action (intent req))) as [undo|]; simpl; [|congruence].
  rewrite lookup_insert. case_decide as Hid; [|congruence].
  intros [= <-]. exists undo. repeat split. by symmetry.
Qed.

(** X13.  The execute route hands no previous data to the snapshot, so the
    undo of what it ran restores nothing of what was there: the undo of an
    update writes one empty cell to the range, the undo of a formatting
    writes the empty format to the range on the first sheet, the undo of a
    row deletion inserts blank rows at the place of the deleted ones, and
    the undo of a merge calls nothing at all and still counts as done. *)
Theorem undo_without_previous_data (userId auditId : string) (req : ExecuteRequest)
    (now : Z) (w : World) (sheet id : string) (rb : RollbackAction) :
  given (sheetId req) = Some sheet ->
  rollbackActions w !! id = None ->
  rollbackActions (snapshot_if_sheet userId auditId req now w) !! id = Some rb ->
  forall w',
    (action (intent req) = "update_cell" \/ action (intent req) = "update_range" ->
     performUndo rb w'
     = perform (updateCells (JString sheet) (get (parameters (intent req)) "range")
                  (JArray [JArray [JString ""]])
                  (get (parameters (intent req)) "sheetName")) w') /\
    (action (intent req) = "format_cells" ->
     performUndo rb w'
     = perform (formatCells (JString sheet) (get (parameters (intent req)) "range")
                  (JObject ∅) (num 0)) w') /\
    (action (intent req) = "delete_row" ->
     performUndo rb w'
     = perform (insertRows (JString sheet)
                  (js_or (get (parameters (intent req)) "sheetId") (num 0))
                  (get (parameters (intent req)) "startIndex")
                  (js_or (get (parameters (intent req)) "count") (num 1))) w') /\
    (action (intent req) = "merge_cells" ->
     performUndo rb w' = (Returns tt, w')).
Proof.
  intros Hsheet Hnone Hrow w'.
  destruct (snapshot_if_sheet_new_record _ _ _ _ _ _ _ _ Hsheet Hnone Hrow)
    as (undo & Hundo & _ & ->).
  set (p := parameters (intent req)) in *.
  repeat split.
  - intros Ha.
    assert (Hu : undo = "restore_cell" \/ undo = "restore_range")
      by (destruct Ha as [Ha | Ha]; rewrite Ha in Hundo; injection Hundo as <-; auto).
    assert (Hdata : generateUndoData (action (intent req)) p None
                    = object [("range", get p "range");
                              ("previousValues", JArray [JArray [JString ""]]);
                              ("sheetName", get p "sheetName")])
      by (destruct Ha as [Ha | Ha]; rewrite Ha; reflexivity).
    unfold performUndo. simpl. rewrite Hdata.
    assert (Hcase : String.eqb undo "restore_cell" || String.eqb undo "restore_range" = true)
      by (destruct Hu as [-> | ->]; reflexivity).
    rewrite Hcase. rewrite ?get_object_cons, ?get_object_nil; compare_keys; cbv iota;
      rewrite ?defined_or_undefined. reflexivity.
  - intros Ha. rewrite Ha in Hundo. injection Hundo as <-.
    rewrite Ha. unfold performUndo. simpl.
    change (generateUndoData "format_cells" p None)
      with (object [("range", get p "range"); ("previousFormat", JObject ∅);
                    ("sheetName", get p "sheetName")]).
    rewrite ?get_object_cons, ?get_object_nil; compare_keys; cbv iota;
      rewrite ?defined_or_undefined. reflexivity.
  - intros Ha. rewrite Ha in Hundo. injection Hundo as <-.
    rewrite Ha. unfold performUndo. simpl.
    change (generateUndoData "delete_row" p None)
      with (object [("startIndex", get p "startIndex");
                    ("count", js_or (get p "count") (num 1));
                    ("deletedData", JArray []);
                    ("sheetId", get p "sheetId")]).
    rewrite ?get_object_cons, ?get_object_nil; compare_keys; cbv iota;
      rewrite ?defined_or_undefined. reflexivity.
  - intros Ha. rewrite Ha in Hundo. injection Hundo as <-.
    rewrite Ha. reflexivity.
Qed.


End SnapshotToUndo.

(** A snapshot made at time 1000 for user-1: found for user-1, expiring a
    day later. *)
Lemma snapshot_window_witness :
  exists id rb w1,
    createSnapshot "user-1" "audit-1" "sheet-1" "insert_row"
      {[ "startIndex" := num 3 ]} None 1000 (Sample.world_with ∅)
    = (Returns (id, rb), w1) /\
    pending w1 id "user-1" rb /\
    expiresAt rb = 1000 + undo_window.
Proof.
  eexists _, _, _. split; [reflexivity|].
  destruct (@snapshot_window Sample.decimal_runtime Sample.accepting
              "user-1" "audit-1" "sheet-1" "insert_row"
              {[ "startIndex" := num 3 ]} None 1000 (Sample.world_with ∅)
              _ _ _ eq_refl) as (_ & Hp & Hexp & _).
  split; [exact Hp | exact Hexp].
Defined.

(** The record made for a deleted column has the undo kind
    restore_deleted_column, which [performUndo] does not know. *)
Lemma undo_without_case_witness :
  exists id rb w1,
    createSnapshot "user-1" "audit-1" "sheet-1" "delete_column"
      {[ "startIndex" := num 2 ]} None 1000 (Sample.world_with ∅)
    = (Returns (id, rb), w1) /\
    @performUndo Sample.decimal_runtime Sample.accepting rb w1
    = (Throws (Error "Unsupported undo action: restore_deleted_column"), w1).
Proof.
  eexists _, _, _. split; [reflexivity|].
  destruct (@undo_without_case Sample.decimal_runtime Sample.accepting
              "user-1" "audit-1" "sheet-1" "delete_column"
              {[ "startIndex" := num 2 ]} None 1000 (Sample.world_with ∅)
              _ _ _ eq_refl eq_refl) as [Hno _].
  apply Hno.
Defined.

(** After 45000 has been written to B2, the undo writes one empty cell to
    B2. *)
Lemma undo_without_previous_data_witness :
  exists id rb,
    rollbackActions
      (snapshot_if_sheet "user-1" "audit-1"
         (MoreSamples.confirmed_request MoreSamples.overwrite_cell) 1000
         (Sample.world_with ∅)) !! id = Some rb /\
    forall w',
      @performUndo Sample.decimal_runtime Sample.accepting rb w'
      = @perform Sample.accepting
          (updateCells (JString "sheet-1") (JString "B2")
             (JArray [JArray [JString ""]]) JUndefined) w'.
Proof.
  pose (id := fresh (dom (rollbackActions (Sample.world_with ∅)))).
  destruct (rollbackActions
              (snapshot_if_sheet "user-1" "audit-1"
                 (MoreSamples.confirmed_request MoreSamples.overwrite_cell) 1000
                 (Sample.world_with ∅)) !! id) as [rb|] eqn:Hrow;
    [|vm_compute in Hrow; discriminate].
  exists id, rb. split; [exact Hrow|]. intros w'.
  assert (Hnone : rollbackActions (Sample.world_with ∅) !! id = None) by reflexivity.
  destruct (@undo_without_previous_data Sample.decimal_runtime Sample.accepting
              "user-1" "audit-1"
              (MoreSamples.confirmed_request MoreSamples.overwrite_cell) 1000
              (Sample.world_with ∅) "sheet-1" id rb eq_refl Hnone Hrow w')
    as [Hupdate _].
  rewrite (Hupdate (or_introl eq_refl)).
  assert (Hrange : get (parameters (intent (MoreSamples.confirmed_request
                                            MoreSamples.overwrite_cell))) "range"
                   = JString "B2") by (vm_compute; reflexivity).
  assert (Hname : get (parameters (intent (MoreSamples.confirmed_request
                                           MoreSamples.overwrite_cell))) "sheetName"
                  = JUndefined) by (vm_compute; reflexivity).
  rewrite Hrange, Hname. reflexivity.
Defined.


(* ===================================================================== *)
(** * What the execute route leaves behind *)
(* ===================================================================== *)

Section ExecuteRoute.
Context {RT : JsRuntime} {ENV : Environment}.

Lemma move_if_given_frame (cid : option string) (s : ConversationState)
    (reason : string) (now : Z) (w : World) :
  auditLogs (move_if_given cid s reason now w).2 = auditLogs w /\
  rollbackActions (move_if_given cid s reason now w).2 = rollbackActions w /\
  sheetsCalls (move_if_given cid s reason now w).2 = sheetsCalls w /\
  googleTokens (move_if_given cid s reason now w).2 = googleTokens w.
Proof.
  unfold move_if_given, Conversations.transitionState, transitionState.
  destruct (given cid) as [id|]; [|auto].
  destruct (conversations w !! id) as [c|]; [|auto].
  destruct (isValidTransition (state c) s); auto.
Qed.

Lemma move_if_given_throws (cid : option string) (s : ConversationState)
    (reason : string) (now : Z) (w w' : World) (e : JsError) :
  move_if_given cid s reason now w = (Throws e, w') ->
  exists id, given cid = Some id /\ conversations w !! id = None.
Proof.
  unfold move_if_given, Conversations.transitionState, transitionState.
  destruct (given cid) as [id|]; [|discriminate].
  destruct (conversations w !! id) as [c|] eqn:Hc; [|eauto].
  destruct (isValidTransition (state c) s); discriminate.
Qed.

Lemma move_if_given_keeps (cid : option string) (s : ConversationState)
    (reason : string) (now : Z) (w : World) (id : string) :
  is_Some (conversations w !! id) ->
  is_Some (conversations (move_if_given cid s reason now w).2 !! id).
Proof.
  intros Hid. unfold move_if_given, Conversations.transitionState, transitionState.
  destruct (given cid) as [id'|]; [|exact Hid].
  destruct (conversations w !! id') as [c|] eqn:Hc; [|exact Hid].
  destruct (isValidTransition (state c) s); [|exact Hid]. simpl.
  rewrite lookup_insert. case_decide; [eauto | exact Hid].
Qed.

Lemma move_if_given_returned (cid : option string) (s : ConversationState)
    (reason : string) (now : Z) (w w' : World) (id : string) :
  move_if_given cid s reason now w = (Returns tt, w') ->
  given cid = Some id ->
  is_Some (conversations w !! id).
Proof.
  unfold move_if_given, Conversations.transitionState, transitionState.
  intros H Hid. rewrite Hid in H.
  destruct (conversations w !! id) as [c|]; [eauto | discriminate].
Qed.

Lemma executeAction_frame (i : SheetActionIntent) (sheet : option string) (w : World) :
  auditLogs (executeAction i sheet w).2 = auditLogs w /\
  rollbackActions (executeAction i sheet w).2 = rollbackActions w /\
  conversations (executeAction i sheet w).2 = conversations w.
Proof.
  unfold executeAction, need_sheet, invoke, call_sheets. repeat split; by_cases.
Qed.

Lemma snapshot_if_sheet_frame (userId auditId : string) (req : ExecuteRequest)
    (now : Z) (w : World) :
  auditLogs (snapshot_if_sheet userId auditId req now w) = auditLogs w /\
  conversations (snapshot_if_sheet userId auditId req now w) = conversations w.
Proof. unfold snapshot_if_sheet, createSnapshot. split; by_cases. Qed.

Lemma execute_failed_audited (userId : string) (req : ExecuteRequest) (e : JsError)
    (now : Z) (w0 w : World) :
  auditLogs w = auditLogs w0 ->
  match (execute_failed userId req e now w).1 with
  | execution_failed e' =>
      e' = e /\ audited w0 (execute_failed userId req e now w).2 (failure_entry userId req e)
  | handler_rejected _ =>
      audited w0 (execute_failed userId req e now w).2 (failure_entry userId req e)
  | _ => False
  end /\
  rollbackActions (execute_failed userId req e now w).2 = rollbackActions w.
Proof.
  intros Hsame.
  assert (Hfresh : auditLogs w0 !! fresh (dom (auditLogs w)) = None).
  { rewrite <- Hsame. apply not_elem_of_dom, is_fresh. }
  assert (Haud : forall w',
             auditLogs w'
             = <[fresh (dom (auditLogs w)) := failure_entry userId req e]> (auditLogs w) ->
             audited w0 w' (failure_entry userId req e)).
  { intros w' Hw'. exists (fresh (dom (auditLogs w))).
    split; [exact Hfresh | by rewrite Hw', Hsame]. }
  unfold execute_failed, logAction, Conversations.handleError, getCurrentState, handleError.
  destruct (given (conversationId req)) as [cid|]; simpl.
  - destruct (conversations w !! cid) as [c|]; simpl.
    + split; [|reflexivity]. split; [reflexivity|]. by apply Haud.
    + split; [|reflexivity]. by apply Haud.
  - split; [|reflexivity]. split; [reflexivity|]. by apply Haud.
Qed.

(** The answer of the [catch] block, read for its audit record. *)
Lemma execute_failed_answer (userId : string) (req : ExecuteRequest) (e : JsError)
    (now : Z) (w0 w : World) :
  auditLogs w = auditLogs w0 ->
  match (execute_failed userId req e now w).1 with
  | requires_confirmation => (execute_failed userId req e now w).2 = w0
  | executed_ok result =>
      audited w0 (execute_failed userId req e now w).2 (success_entry userId req result)
  | execution_failed e' =>
      audited w0 (execute_failed userId req e now w).2 (failure_entry userId req e')
  | handler_rejected _ =>
      exists e', audited w0 (execute_failed userId req e now w).2 (failure_entry userId req e')
  end.
Proof.
  intros Hsame. destruct (execute_failed_audited userId req e now w0 w Hsame) as [H _].
  destruct ((execute_failed userId req e now w).1); try contradiction.
  - destruct H as [-> H]. exact H.
  - eauto.
Qed.

(** X15.  The execute route writes one audit record for every request it
    does not refuse, and none for a refused one: the record of a request
    that went through carries the action, the sheet id of the result and
    [success = true], the record of a failed one carries the error and
    [success = false].  A refused request changes nothing at all. *)
Theorem execute_audits_once (userId : string) (req : ExecuteRequest) (now : Z) (w : World) :
  match (execute_route userId req now w).1 with
  | requires_confirmation => (execute_route userId req now w).2 = w
  | executed_ok result =>
      audited w (execute_route userId req now w).2 (success_entry userId req result)
  | execution_failed e =>
      audited w (execute_route userId req now w).2 (failure_entry userId req e)
  | handler_rejected _ =>
      exists e, audited w (execute_route userId req now w).2 (failure_entry userId req e)
  end.
Proof.
  unfold execute_route.
  destruct (confirmationRequired (intent req) && negb (confirmed req)); [reflexivity|].
  destruct (getGoogleSheetsService userId now w) as [[]|e];
    [|by apply execute_failed_answer].
  destruct (move_if_given (conversationId req) EXECUTING _ now w) as [[[]|e] w1] eqn:Hstart.
  2:{ apply execute_failed_answer.
      pose proof (move_if_given_frame (conversationId req) EXECUTING
                    "Starting sheet operation execution" now w) as [Ha _].
      by rewrite Hstart in Ha. }
  assert (H1 : auditLogs w1 = auditLogs w /\ conversations w1
               = conversations (move_if_given (conversationId req) EXECUTING
                                  "Starting sheet operation execution" now w).2).
  { pose proof (move_if_given_frame (conversationId req) EXECUTING
                  "Starting sheet operation execution" now w) as [Ha _].
    rewrite Hstart in *. auto. }
  destruct H1 as [Ha1 Hc1].
  pose proof (executeAction_frame (intent req) (sheetId req) w1) as (Ha2 & _ & Hc2).
  destruct (executeAction (intent req) (sheetId req) w1) as [[result|e] w2];
    simpl in Ha2, Hc2.
  2:{ apply execute_failed_answer. congruence. }
  unfold logAction.
  set (entry := {| audit_userId := userId; audit_action := action (intent req);
                   audit_sheetId := get result "sheetId"; audit_success := true;
                   audit_errorMessage := None |}).
  set (auditId := fresh (dom (auditLogs w2))).
  set (w3 := set_auditLogs (insert auditId entry) w2).
  pose proof (snapshot_if_sheet_frame userId auditId req now w3) as [Ha4 Hc4].
  set (w4 := snapshot_if_sheet userId auditId req now w3) in *.
  pose proof (move_if_given_frame (conversationId req) COMPLETED
                "Sheet operation completed successfully" now w4) as [Ha5 _].
  destruct (move_if_given (conversationId req) COMPLETED _ now w4) as [[[]|e] w5] eqn:Hfin.
  - simpl in *. exists auditId. split.
    + rewrite <- Ha1, <- Ha2. apply not_elem_of_dom, is_fresh.
    + rewrite Ha5, Ha4. simpl. by rewrite Ha2, Ha1.
  - exfalso. apply move_if_given_throws in Hfin as (cid & Hcid & Hgone).
    pose proof (move_if_given_returned _ _ _ _ _ _ cid Hstart Hcid) as Hthere.
    apply (move_if_given_keeps (conversationId req) EXECUTING
             "Starting sheet operation execution" now) in Hthere.
    rewrite <- Hc1, <- Hc2 in Hthere.
    rewrite Hc4 in Hgone. simpl in Hgone. rewrite Hgone in Hthere.
    by destruct Hthere.
Qed.

Lemma executeAction_outcome (i : SheetActionIntent) (sheet : option string)
    (w w1 : World) :
  sheetsCalls w1 = sheetsCalls w ->
  (executeAction i sheet w1).1 = (executeAction i sheet w).1.
Proof.
  intros Hcalls. unfold executeAction, need_sheet, invoke, call_sheets, record_call.
  rewrite !Hcalls. by_cases.
Qed.

Lemma executeAction_calls (i : SheetActionIntent) (sheet : option string)
    (w w1 : World) :
  sheetsCalls w1 = sheetsCalls w ->
  sheetsCalls (executeAction i sheet w1).2 = sheetsCalls (executeAction i sheet w).2.
Proof.
  intros Hcalls. unfold executeAction, need_sheet, invoke, call_sheets, record_call.
  rewrite !Hcalls. by_cases; rewrite ?Hcalls; reflexivity.
Qed.

Lemma move_if_given_state (cid : option string) (id : string) (s : ConversationState)
    (reason : string) (now : Z) (w : World) (c : Conversation) :
  given cid = Some id ->
  conversations w !! id = Some c ->
  exists c',
    conversations (move_if_given cid s reason now w).2 !! id = Some c' /\
    (move_if_given cid s reason now w).1 = Returns tt /\
    state c' = if isValidTransition (state c) s then s else state c.
Proof.
  intros Hid Hc. unfold move_if_given, Conversations.transitionState, transitionState.
  rewrite Hid, Hc. destruct (isValidTransition (state c) s); simpl.
  - rewrite lookup_insert_eq. eauto.
  - eauto.
Qed.

Lemma execute_failed_state (userId : string) (req : ExecuteRequest) (e : JsError)
    (now : Z) (w : World) (id : string) (c : Conversation) :
  given (conversationId req) = Some id ->
  conversations w !! id = Some c ->
  exists c',
    conversations (execute_failed userId req e now w).2 !! id = Some c' /\
    state c' = ERROR.
Proof.
  intros Hid Hc.
  unfold execute_failed, logAction, Conversations.handleError, getCurrentState, handleError.
  rewrite Hid. simpl. rewrite Hc. simpl. rewrite lookup_insert_eq. eauto.
Qed.

(** X16.  For a request that passes the gate, with a good token and a
    conversation, the executor runs the action whatever state the
    conversation is in, and only then looks at the table: after an action
    that went through the conversation is COMPLETED when it was in
    READY_TO_EXECUTE or EXECUTING and is left in its state otherwise, and
    after an action that threw it is in ERROR. *)
Theorem execute_final_state (userId : string) (req : ExecuteRequest) (now : Z)
    (w : World) (id : string) (c : Conversation) :
  confirmationRequired (intent req) && negb (confirmed req) = false ->
  getGoogleSheetsService userId now w = Returns tt ->
  given (conversationId req) = Some id ->
  conversations w !! id = Some c ->
  sheetsCalls (execute_route userId req now w).2
  = sheetsCalls (executeAction (intent req) (sheetId req) w).2 /\
  exists c',
    conversations (execute_route userId req now w).2 !! id = Some c' /\
    state c' = match (executeAction (intent req) (sheetId req) w).1 with
               | Returns _ =>
                   if bool_decide (state c = READY_TO_EXECUTE \/ state c = EXECUTING)
                   then COMPLETED
                   else state c
               | Throws _ => ERROR
               end.
Proof.
  intros Hgate Htoken Hid Hc. unfold execute_route. rewrite Hgate, Htoken.
  destruct (move_if_given_state (conversationId req) id EXECUTING
              "Starting sheet operation execution" now w c Hid Hc)
    as (c1 & Hc1 & Hr1 & Hs1).
  pose proof (move_if_given_frame (conversationId req) EXECUTING
                "Starting sheet operation execution" now w) as (_ & _ & Hcalls1 & _).
  destruct (move_if_given (conversationId req) EXECUTING _ now w) as [started w1].
  simpl in Hc1, Hr1, Hcalls1. subst started.
  pose proof (executeAction_outcome (intent req) (sheetId req) w w1 Hcalls1) as Hout.
  pose proof (executeAction_calls (intent req) (sheetId req) w w1 Hcalls1) as Hcalls2.
  pose proof (executeAction_frame (intent req) (sheetId req) w1) as (_ & _ & Hconv2).
  rewrite <- Hout, <- Hcalls2.
  destruct (executeAction (intent req) (sheetId req) w1) as [[result|e] w2];
    simpl in Hconv2 |- *.
  - unfold logAction.
    match goal with
    | |- context [snapshot_if_sheet userId ?a req now ?w3] =>
        pose proof (snapshot_if_sheet_frame userId a req now w3) as [_ Hconv4];
        pose proof (snapshot_if_sheet_sheetsCalls userId a req now w3) as Hcalls4;
        set (w4 := snapshot_if_sheet userId a req now w3) in *
    end.
    simpl in Hconv4, Hcalls4.
    assert (Hc4 : conversations w4 !! id = Some c1) by (by rewrite Hconv4, Hconv2).
    destruct (move_if_given_state (conversationId req) id COMPLETED
                "Sheet operation completed successfully" now w4 c1 Hid Hc4)
      as (c5 & Hc5 & Hr5 & Hs5).
    pose proof (move_if_given_frame (conversationId req) COMPLETED
                  "Sheet operation completed successfully" now w4) as (_ & _ & Hcalls5 & _).
    destruct (move_if_given (conversationId req) COMPLETED _ now w4) as [finished w5].
    simpl in Hc5, Hr5, Hcalls5. subst finished. simpl.
    split; [by rewrite Hcalls5, Hcalls4|].
    exists c5. split; [exact Hc5|]. rewrite Hs5, Hs1.
    destruct (state c); reflexivity.
  - assert (Hc2 : conversations w2 !! id = Some c1) by (by rewrite Hconv2).
    destruct (execute_failed_state userId req e now w2 id c1 Hid Hc2) as (c' & Hc' & Hs').
    split; [apply execute_failed_sheetsCalls | eauto].
Qed.

Lemma executeAction_unserved (i : SheetActionIntent) (sheet : option string) (w : World) :
  one_of served_kinds (action i) = false ->
  exists e, executeAction i sheet w = (Throws e, w).
Proof.
  destruct i as [a p hint clar conf]. unfold one_of, served_kinds. simpl. intros Hkind.
  unfold executeAction. simpl.
  case_action a; try discriminate Hkind; simpl; unfold need_sheet;
    destruct (given sheet); try (eexists; reflexivity).
  destruct (transaction_amount_is_finite p) as [[]|]; eexists; reflexivity.
Qed.

Lemma executeAction_without_sheet (i : SheetActionIntent) (sheet : option string)
    (w : World) :
  given sheet = None ->
  one_of creating_kinds (action i) = false ->
  exists e, executeAction i sheet w = (Throws e, w).
Proof.
  destruct i as [a p hint clar conf]. unfold one_of, creating_kinds. simpl.
  intros Hsheet Hkind. unfold executeAction. simpl.
  case_action a; try discriminate Hkind; simpl; unfold need_sheet;
    rewrite ?Hsheet; eexists; reflexivity.
Qed.

(** X17.  [executeAction] reaches the Sheets service only for the thirteen
    kinds it has a working case for, and, except for the two kinds that
    create a spreadsheet, only with a sheet id: in every other case it
    throws and calls nothing.  Four of the kinds it cannot run
    (delete_column, freeze_columns, clear_range, append_transaction) are
    kinds the simulator does report on. *)
Theorem executor_serves_only (i : SheetActionIntent) (sheet : option string) (w : World) :
  (one_of served_kinds (action i) = false \/
   (given sheet = None /\ one_of creating_kinds (action i) = false) ->
   exists e, executeAction i sheet w = (Throws e, w)) /\
  supported (action i) && negb (one_of served_kinds (action i))
  = one_of simulated_only_kinds (action i).
Proof.
  split.
  - intros [Hkind | [Hsheet Hkind]];
      [by apply executeAction_unserved | by apply executeAction_without_sheet].
  - destruct i as [a p hint clar conf]. simpl.
    unfold supported, one_of, supported_actions, served_kinds, simulated_only_kinds.
    simpl. case_action a; reflexivity.
Qed.

Lemma served_has_undo_kind (a : string) :
  one_of served_kinds a = true -> exists undo, getUndoAction a = Some undo.
Proof.
  unfold one_of, served_kinds. simpl. intros Hkind.
  repeat match type of Hkind with
         | context [String.eqb a ?lit] =>
             let E := fresh "E" in
             destruct (String.eqb a lit) eqn:E;
             [apply String.eqb_eq in E; subst a; eexists; reflexivity | ]
         end.
  discriminate.
Qed.

(** X18.  A request the execute route carries out on a sheet leaves
    exactly one new rollback record: it belongs to the user, names the
    sheet and the audit record of the execution, is not executed and
    expires 24 hours later.  Without a sheet id no record is made, and a
    request that is refused or fails leaves the rollback records as they
    were. *)
Theorem execute_leaves_one_undo_record (userId : string) (req : ExecuteRequest)
    (now : Z) (w : World) :
  match (execute_route userId req now w).1 with
  | executed_ok result =>
      match given (sheetId req) with
      | Some sheet =>
          exists id rb auditId,
            rollbackActions w !! id = None /\
            rollbackActions (execute_route userId req now w).2
            = <[id := rb]> (rollbackActions w) /\
            rb_userId rb = userId /\
            rb_sheetId rb = sheet /\
            rb_actionId rb = auditId /\
            executed rb = false /\
            expiresAt rb = now + undo_window /\
            auditLogs w !! auditId = None /\
            auditLogs (execute_route userId req now w).2 !! auditId
            = Some (success_entry userId req result)
      | None =>
          rollbackActions (execute_route userId req now w).2 = rollbackActions w
      end
  | _ => rollbackActions (execute_route userId req now w).2 = rollbackActions w
  end.
Proof.
  assert (Hfailed : forall e w1,
             rollbackActions w1 = rollbackActions w ->
             match (execute_failed userId req e now w1).1 with
             | executed_ok _ => False
             | _ => rollbackActions (execute_failed userId req e now w1).2
                    = rollbackActions w
             end).
  { intros e w1 Hsame.
    destruct (execute_failed_audited userId req e now w1 w1 eq_refl) as [Hans Hrb].
    rewrite Hrb, Hsame.
    destruct ((execute_failed userId req e now w1).1); try reflexivity; contradiction. }
  assert (Hanswer : forall e w1,
             rollbackActions w1 = rollbackActions w ->
             match (execute_failed userId req e now w1).1 with
             | executed_ok result =>
                 match given (sheetId req) with
                 | Some sheet =>
                     exists id rb auditId,
                       rollbackActions w !! id = None /\
                       rollbackActions (execute_failed userId req e now w1).2
                       = <[id := rb]> (rollbackActions w) /\
                       rb_userId rb = userId /\ rb_sheetId rb = sheet /\
                       rb_actionId rb = auditId /\ executed rb = false /\
                       expiresAt rb = now + undo_window /\
                       auditLogs w !! auditId = None /\
                       auditLogs (execute_failed userId req e now w1).2 !! auditId
                       = Some (success_entry userId req result)
                 | None =>
                     rollbackActions (execute_failed userId req e now w1).2
                     = rollbackActions w
                 end
             | _ => rollbackActions (execute_failed userId req e now w1).2
                    = rollbackActions w
             end).
  { intros e w1 Hsame. specialize (Hfailed e w1 Hsame).
    destruct ((execute_failed userId req e now w1).1); try exact Hfailed; contradiction. }
  unfold execute_route.
  destruct (confirmationRequired (intent req) && negb (confirmed req)); [reflexivity|].
  destruct (getGoogleSheetsService userId now w) as [[]|e]; [|by apply Hanswer].
  pose proof (move_if_given_frame (conversationId req) EXECUTING
                "Starting sheet operation execution" now w) as (Ha1 & Hr1 & _).
  destruct (move_if_given (conversationId req) EXECUTING _ now w) as [[[]|e] w1] eqn:Hstart;
    simpl in Ha1, Hr1; [|by apply Hanswer].
  pose proof (executeAction_frame (intent req) (sheetId req) w1) as (Ha2 & Hr2 & Hc2).
  destruct (executeAction (intent req) (sheetId req) w1) as [[result|e] w2] eqn:Hact;
    simpl in Ha2, Hr2, Hc2; [|apply Hanswer; congruence].
  assert (Hserved : one_of served_kinds (action (intent req)) = true).
  { destruct (one_of served_kinds (action (intent req))) eqn:Hk; [reflexivity|].
    destruct (executeAction_unserved (intent req) (sheetId req) w1 Hk) as [e He].
    congruence. }
  destruct (served_has_undo_kind _ Hserved) as [undo Hundo].
  unfold logAction.
  set (auditId := fresh (dom (auditLogs w2))).
  set (w3 := set_auditLogs (insert auditId (success_entry userId req result)) w2).
  change (set_auditLogs _ w2) with w3.
  pose proof (snapshot_if_sheet_frame userId auditId req now w3) as [Ha4 Hc4].
  pose proof (move_if_given_frame (conversationId req) COMPLETED
                "Sheet operation completed successfully" now
                (snapshot_if_sheet userId auditId req now w3)) as (Ha5 & Hr5 & _).
  destruct (move_if_given (conversationId req) COMPLETED _ now
              (snapshot_if_sheet userId auditId req now w3)) as [[[]|e] w5] eqn:Hfin;
    simpl in Ha5, Hr5.
  - simpl. unfold snapshot_if_sheet, createSnapshot in Hr5, Ha5.
    destruct (given (sheetId req)) as [sheet|]; [|by rewrite Hr5, <- Hr1, <- Hr2].
    rewrite Hundo in Hr5, Ha5. simpl in Hr5, Ha5.
    eexists _, _, auditId. split; [|split; [rewrite Hr5, Hr2, Hr1; reflexivity|]].
    + rewrite <- Hr1, <- Hr2. apply not_elem_of_dom, is_fresh.
    + repeat split.
      * rewrite <- Ha1, <- Ha2. apply not_elem_of_dom, is_fresh.
      * rewrite Ha5. apply lookup_insert_eq.
  - exfalso. apply move_if_given_throws in Hfin as (cid & Hcid & Hgone).
    pose proof (move_if_given_returned _ _ _ _ _ _ cid Hstart Hcid) as Hthere.
    apply (move_if_given_keeps (conversationId req) EXECUTING
             "Starting sheet operation execution" now) in Hthere.
    rewrite Hstart in Hthere. simpl in Hthere.
    rewrite Hc4 in Hgone. simpl in Hgone. rewrite Hc2 in Hgone.
    rewrite Hgone in Hthere. by destruct Hthere.
Qed.

End ExecuteRoute.

(** Two rows are inserted for a conversation that is ready: it ends
    COMPLETED.  The same request for a conversation that still waits for
    a confirmation inserts the rows too and leaves the state as it is. *)
Lemma execute_final_state_witness :
  (exists c',
      conversations
        (@execute_route Sample.decimal_runtime Sample.accepting "user-1"
           (MoreSamples.confirmed_request MoreSamples.insert_two_rows) 1000
           (MoreSamples.world_in READY_TO_EXECUTE)).2 !! "conv-1" = Some c' /\
      state c' = COMPLETED) /\
  (exists c',
      conversations
        (@execute_route Sample.decimal_runtime Sample.accepting "user-1"
           (MoreSamples.confirmed_request MoreSamples.insert_two_rows) 1000
           (MoreSamples.world_in CONFIRMATION_REQUIRED)).2 !! "conv-1" = Some c' /\
      state c' = CONFIRMATION_REQUIRED).
Proof.
  assert (Hready : conversations (MoreSamples.world_in READY_TO_EXECUTE) !! "conv-1"
                   = Some (Sample.conversation_in READY_TO_EXECUTE
                             [IDLE; READY_TO_EXECUTE] 900))
    by (vm_compute; reflexivity).
  assert (Hwaiting : conversations (MoreSamples.world_in CONFIRMATION_REQUIRED) !! "conv-1"
                     = Some (Sample.conversation_in CONFIRMATION_REQUIRED
                               [IDLE; CONFIRMATION_REQUIRED] 900))
    by (vm_compute; reflexivity).
  split.
  - destruct (@execute_final_state Sample.decimal_runtime Sample.accepting "user-1"
                (MoreSamples.confirmed_request MoreSamples.insert_two_rows) 1000
                (MoreSamples.world_in READY_TO_EXECUTE) "conv-1" _
                eq_refl eq_refl eq_refl Hready) as (_ & c' & Hc' & Hs').
    exists c'. split; [exact Hc' | exact Hs'].
  - destruct (@execute_final_state Sample.decimal_runtime Sample.accepting "user-1"
                (MoreSamples.confirmed_request MoreSamples.insert_two_rows) 1000
                (MoreSamples.world_in CONFIRMATION_REQUIRED) "conv-1" _
                eq_refl eq_refl eq_refl Hwaiting) as (_ & c' & Hc' & Hs').
    exists c'. split; [exact Hc' | exact Hs'].
Defined.

(* ===================================================================== *)
(** * Rate limiting *)
(* ===================================================================== *)

(** The key under which a request is counted. *)
Lemma limit_key_inj (id id' : string) (a a' : RateLimitAction) (t t' : Z) :
  (id, action_name a, t - windowMs (RATE_LIMIT_CONFIGS a))
  = (id', action_name a', t' - windowMs (RATE_LIMIT_CONFIGS a'))
  <-> (id, a, t) = (id', a', t').
Proof.
  split.
  - intros [= -> Ha Ht].
    assert (a = a') as -> by (destruct a, a'; simpl in Ha; congruence).
    f_equal. lia.
  - intros [= -> -> ->]. reflexivity.
Qed.

Lemma maxRequests_positive (a : RateLimitAction) :
  1 <= maxRequests (RATE_LIMIT_CONFIGS a).
Proof. destruct a; simpl; lia. Qed.

Lemma same_instant_snoc (x r : string * RateLimitAction * Z)
    (requests : list (string * RateLimitAction * Z)) :
  same_instant x (requests ++ [r])
  = (same_instant x requests + if bool_decide (r = x) then 1 else 0)%nat.
Proof.
  unfold same_instant. rewrite List.filter_app, length_app. simpl.
  destruct (bool_decide (r = x)); reflexivity.
Qed.

(** What the table holds for a request that was made [n] times. *)
Lemma limit_step (done : list (string * RateLimitAction * Z)) (table : RateLimits)
    (id : string) (a : RateLimitAction) (t later : Z) :
  (forall id' a' t',
      table !! (id', action_name a', t' - windowMs (RATE_LIMIT_CONFIGS a'))
      = if (same_instant (id', a', t') done =? 0)%nat then None
        else Some (Z.min (Z.of_nat (same_instant (id', a', t') done))
                     (maxRequests (RATE_LIMIT_CONFIGS a')))) ->
  ((withRateLimit id a t later table).1 = None
   <-> Z.of_nat (same_instant (id, a, t) done) < maxRequests (RATE_LIMIT_CONFIGS a)) /\
  (forall id' a' t',
      (withRateLimit id a t later table).2
        !! (id', action_name a', t' - windowMs (RATE_LIMIT_CONFIGS a'))
      = if (same_instant (id', a', t') (done ++ [(id, a, t)]) =? 0)%nat then None
        else Some (Z.min (Z.of_nat (same_instant (id', a', t') (done ++ [(id, a, t)])))
                     (maxRequests (RATE_LIMIT_CONFIGS a')))).
Proof.
  intros Hinv. pose proof (maxRequests_positive a) as Hmax.
  unfold withRateLimit, checkRateLimit. unfold RateLimits in *.
  pose proof (Hinv id a t) as Hhere. rewrite Hhere.
  set (n := same_instant (id, a, t) done) in *.
  set (limit := maxRequests (RATE_LIMIT_CONFIGS a)) in *.
  set (width := windowMs (RATE_LIMIT_CONFIGS a)) in *.
  assert (Hkey : forall id' a' t',
             (id', a', t') = (id, a, t) ->
             (id', action_name a', t' - windowMs (RATE_LIMIT_CONFIGS a'))
             = (id, action_name a, t - width)).
  { intros id' a' t' [= -> -> ->]. reflexivity. }
  assert (Hother : forall id' a' t' (v : Z),
             (id', a', t') <> (id, a, t) ->
             <[(id, action_name a, t - width) := v]> table
               !! (id', action_name a', t' - windowMs (RATE_LIMIT_CONFIGS a'))
             = table !! (id', action_name a', t' - windowMs (RATE_LIMIT_CONFIGS a'))).
  { intros id' a' t' v Hne. apply lookup_insert_ne.
    intros Heq. apply limit_key_inj in Heq. congruence. }
  assert (Hcount : forall x, x <> (id, a, t) ->
             same_instant x (done ++ [(id, a, t)]) = same_instant x done).
  { intros x Hne. rewrite same_instant_snoc, bool_decide_eq_false_2 by congruence. lia. }
  assert (Hself : same_instant (id, a, t) (done ++ [(id, a, t)]) = S n).
  { rewrite same_instant_snoc, bool_decide_eq_true_2 by reflexivity. unfold n. lia. }
  destruct (n =? 0)%nat eqn:Hn; [apply Nat.eqb_eq in Hn | apply Nat.eqb_neq in Hn].
  - cbn [fst snd allowed]. split; [split; [lia | reflexivity]|].
    intros id' a' t'. destruct (decide ((id', a', t') = (id, a, t))) as [Heq | Hne].
    + rewrite (Hkey _ _ _ Heq), lookup_insert_eq, Heq, Hself.
      injection Heq as -> -> ->. fold limit. simpl. f_equal. lia.
    + rewrite Hother, Hcount by exact Hne. apply Hinv.
  - destruct (limit <=? Z.min (Z.of_nat n) limit) eqn:Hfull;
      [apply Z.leb_le in Hfull | apply Z.leb_gt in Hfull]; cbn [fst snd allowed].
    + split; [split; [discriminate | lia]|].
      intros id' a' t'. destruct (decide ((id', a', t') = (id, a, t))) as [Heq | Hne].
      * rewrite (Hkey _ _ _ Heq), Hhere, Heq, Hself.
        injection Heq as -> -> ->. fold limit.
        destruct (n =? 0)%nat eqn:Hn'; [apply Nat.eqb_eq in Hn'; lia|].
        simpl. f_equal. lia.
      * rewrite Hcount by exact Hne. apply Hinv.
    + split; [split; [lia | reflexivity]|].
      intros id' a' t'. destruct (decide ((id', a', t') = (id, a, t))) as [Heq | Hne].
      * rewrite (Hkey _ _ _ Heq), lookup_insert_eq, Heq, Hself.
        injection Heq as -> -> ->. fold limit. simpl. f_equal. lia.
      * rewrite Hother, Hcount by exact Hne. apply Hinv.
Qed.

Lemma limit_all_stored (requests done : list (string * RateLimitAction * Z))
    (table : RateLimits) :
  (forall id' a' t',
      table !! (id', action_name a', t' - windowMs (RATE_LIMIT_CONFIGS a'))
      = if (same_instant (id', a', t') done =? 0)%nat then None
        else Some (Z.min (Z.of_nat (same_instant (id', a', t') done))
                     (maxRequests (RATE_LIMIT_CONFIGS a')))) ->
  forall id' a' t',
    limit_all requests table
      !! (id', action_name a', t' - windowMs (RATE_LIMIT_CONFIGS a'))
    = if (same_instant (id', a', t') (done ++ requests) =? 0)%nat then None
      else Some (Z.min (Z.of_nat (same_instant (id', a', t') (done ++ requests)))
                   (maxRequests (RATE_LIMIT_CONFIGS a'))).
Proof.
  revert done table. induction requests as [|[[id a] t] rest IH]; intros done table Hinv.
  - rewrite app_nil_r. exact Hinv.
  - simpl. intros id' a' t'.
    replace (done ++ (id, a, t) :: rest)%list with ((done ++ [(id, a, t)]) ++ rest)%list
      by (by rewrite <- app_assoc).
    apply IH. apply (limit_step done table id a t t Hinv).
Qed.

(** X19.  The limiter counts a request only together with the requests
    the same identifier made for the same action at the very same
    millisecond: starting from an empty table, a request is refused exactly
    when at least [maxRequests] such requests came before it.  A request
    whose identifier made none for that action at that instant is always
    let through, whatever was asked before, so requests at distinct times
    are never limited. *)
Theorem limiter_counts_one_instant (requests : list (string * RateLimitAction * Z))
    (id : string) (a : RateLimitAction) (t later : Z) :
  ((withRateLimit id a t later (limit_all requests ∅)).1 = None
   <-> Z.of_nat (same_instant (id, a, t) requests) < maxRequests (RATE_LIMIT_CONFIGS a)) /\
  ((id, a, t) ∉ requests -> (withRateLimit id a t later (limit_all requests ∅)).1 = None).
Proof.
  assert (Hinv : forall id' a' t',
             limit_all requests ∅
               !! (id', action_name a', t' - windowMs (RATE_LIMIT_CONFIGS a'))
             = if (same_instant (id', a', t') requests =? 0)%nat then None
               else Some (Z.min (Z.of_nat (same_instant (id', a', t') requests))
                            (maxRequests (RATE_LIMIT_CONFIGS a')))).
  { apply (limit_all_stored requests [] ∅). intros id' a' t'. apply lookup_empty. }
  destruct (limit_step requests (limit_all requests ∅) id a t later Hinv) as [Hiff _].
  split; [exact Hiff|].
  intros Hnew. apply Hiff.
  assert (same_instant (id, a, t) requests = 0%nat) as ->.
  { unfold same_instant. clear -Hnew. induction requests as [|r rest IH]; [reflexivity|].
    simpl. apply not_elem_of_cons in Hnew as [Hne Hrest].
    rewrite bool_decide_eq_false_2 by congruence. by apply IH. }
  pose proof (maxRequests_positive a). lia.
Qed.

(** X20.  Every answer of the limiter names the time of the request
    itself as the time of the reset, so the [Retry-After] header of a
    refusal, computed from a later reading of the clock, is never
    positive: the caller is told to retry at once. *)
Theorem limiter_resets_now (id : string) (a : RateLimitAction) (t later : Z)
    (table : RateLimits) :
  resetAt (checkRateLimit id (action_name a) (RATE_LIMIT_CONFIGS a) t table).1 = t /\
  (forall refusal,
      (withRateLimit id a t later table).1 = Some refusal ->
      reset_time refusal = t /\
      (t <= later -> retry_after refusal <= 0) /\
      (later = t -> retry_after refusal = 0)).
Proof.
  assert (Hheader : forall width,
             (t <= later -> - ((later - (t - width + width)) / 1000) <= 0) /\
             (later = t -> - ((later - (t - width + width)) / 1000) = 0)).
  { intros width. replace (later - (t - width + width)) with (later - t) by lia. split.
    - intros Hlater. pose proof (Z.div_pos (later - t) 1000). lia.
    - intros ->. by rewrite Z.sub_diag. }
  unfold withRateLimit, checkRateLimit.
  destruct (table !! _) as [count|]; [destruct (_ <=? count)|]; simpl;
    (split; [lia|]); intros refusal H; try discriminate H.
  injection H as <-. simpl. split; [lia | apply Hheader].
Qed.

(* ===================================================================== *)
(** * The validity of an intent *)
(* ===================================================================== *)

(** X21.  [validateIntent] calls an intent valid exactly when its
    confidence is at least 0.6 and the classifier asks no question.  A
    valid intent carries no message; an invalid one always carries a
    message that is not empty, and it is the classifier's own question
    whenever there is one, also when the confidence is low. *)
Theorem validateIntent_verdict (i : SheetActionIntent) :
  (valid (validateIntent i) = true
   <-> (6 # 10 <= confidence i)%Q /\ given (clarificationNeeded i) = None) /\
  (valid (validateIntent i) = true -> validation_message (validateIntent i) = None) /\
  (valid (validateIntent i) = false ->
   exists text, validation_message (validateIntent i) = Some text /\ text <> "") /\
  (forall question,
      given (clarificationNeeded i) = Some question ->
      validateIntent i = {| valid := false; validation_message := Some question |}).
Proof.
  assert (Hgiven : forall s text, given s = Some text -> text <> "").
  { intros [s|] text; simpl; [|discriminate].
    destruct (String.eqb s "") eqn:E; [discriminate|].
    intros [= <-]. by apply String.eqb_neq. }
  unfold validateIntent.
  destruct (Qle_bool (6 # 10) (confidence i)) eqn:Hconf.
  - apply Qle_bool_iff in Hconf.
    destruct (given (clarificationNeeded i)) as [text|] eqn:Hq; simpl.
    + repeat split; try discriminate.
      * intros [_ H]. discriminate.
      * intros _. exists text. split; [reflexivity | by eapply Hgiven].
      * intros question [= <-]. reflexivity.
    + repeat split; try discriminate; try tauto.
  - assert (Hlow : ~ (6 # 10 <= confidence i)%Q).
    { intros H. apply Qle_bool_iff in H. congruence. }
    simpl. repeat split; try discriminate; try tauto.
    + intros _. destruct (given (clarificationNeeded i)) as [text|] eqn:Hq; simpl.
      * exists text. split; [reflexivity | by eapply Hgiven].
      * eexists. split; [reflexivity | discriminate].
    + intros question Hq. rewrite Hq. reflexivity.
Qed.

(* ===================================================================== *)
(** * More on the state machine and its callers *)
(* ===================================================================== *)

Section StateMachineMore.
Context {RT : JsRuntime} {ENV : Environment}.

Lemma put_state_route_moves (id : string) (s : ConversationState) (now : Z)
    (w : World) (c : Conversation) :
  conversations w !! id = Some c ->
  s ∈ VALID_TRANSITIONS (state c) ->
  (put_state_route id s None now w).1 = Returns s /\
  conversations (put_state_route id s None now w).2 !! id = Some (write_state now s c).
Proof.
  intros Hc Hs. apply isValidTransition_spec in Hs.
  unfold put_state_route, Conversations.transitionState, transitionState.
  rewrite Hc, Hs. simpl. rewrite lookup_insert_eq. auto.
Qed.

(** X22.  No state of the table is a trap: from every state other than
    IDLE at most two state requests, each one allowed by the table, bring
    the conversation back to IDLE. *)
Theorem idle_within_two_moves (id : string) (now : Z) (w : World) (c : Conversation) :
  conversations w !! id = Some c ->
  state c <> IDLE ->
  exists path c',
    (List.length path <= 2)%nat /\
    walk table_step (state c :: path) /\
    conversations (request_states path id now w) !! id = Some c' /\
    state c' = IDLE.
Proof.
  intros Hc Hidle.
  assert (Hone : IDLE ∈ VALID_TRANSITIONS (state c) ->
                 exists path c',
                   (List.length path <= 2)%nat /\
                   walk table_step (state c :: path) /\
                   conversations (request_states path id now w) !! id = Some c' /\
                   state c' = IDLE).
  { intros Hv. exists [IDLE]. eexists. split; [simpl; lia|]. split; [by split|].
    simpl. split; [apply (put_state_route_moves id IDLE now w c Hc Hv) | reflexivity]. }
  assert (Htwo : forall m, m ∈ VALID_TRANSITIONS (state c) ->
                 IDLE ∈ VALID_TRANSITIONS m ->
                 exists path c',
                   (List.length path <= 2)%nat /\
                   walk table_step (state c :: path) /\
                   conversations (request_states path id now w) !! id = Some c' /\
                   state c' = IDLE).
  { intros m Hm Hv. exists [m; IDLE]. eexists. split; [simpl; lia|].
    split; [repeat split; assumption|].
    destruct (put_state_route_moves id m now w c Hc Hm) as [_ Hc1]. simpl.
    split; [apply (put_state_route_moves id IDLE now _ _ Hc1 Hv) | reflexivity]. }
  destruct (state c) eqn:Hs; try contradiction;
    first [ apply Hone; apply isValidTransition_spec; reflexivity
          | apply (Htwo ERROR); apply isValidTransition_spec; reflexivity ].
Qed.

End StateMachineMore.

Lemma idle_within_two_moves_witness :
  exists path c',
    (List.length path <= 2)%nat /\
    walk table_step (EXECUTING :: path) /\
    conversations (@request_states Sample.accepting path "conv-1" 1000
                     (MoreSamples.world_in EXECUTING)) !! "conv-1" = Some c' /\
    state c' = IDLE.
Proof.
  assert (Hc : conversations (MoreSamples.world_in EXECUTING) !! "conv-1"
               = Some (Sample.conversation_in EXECUTING [IDLE; EXECUTING] 900))
    by (vm_compute; reflexivity).
  apply (@idle_within_two_moves Sample.accepting "conv-1" 1000 _ _ Hc).
  discriminate.
Defined.

Section SweepAndRoutes.
Context {RT : JsRuntime} {ENV : Environment}.

Lemma world_eta (w : World) :
  {| conversations := conversations w; rollbackActions := rollbackActions w;
     auditLogs := auditLogs w; googleTokens := googleTokens w;
     sheetsCalls := sheetsCalls w |} = w.
Proof. destruct w; reflexivity. Qed.

(** X23.  After the sweep no conversation is left behind in a working
    state: each one is in IDLE, COMPLETED or ERROR or was updated at or
    after the cutoff.  The number returned is the number of rows the
    filter matched, and no table but the conversations is touched.  Where
    the schema refreshes [updatedAt] on every write and the age threshold
    is positive, a second sweep at the same time finds nothing and changes
    nothing. *)
Theorem sweep_leaves_none_stuck (maxAgeMinutes : option Z) (now : Z) (w : World) :
  (forall id c',
      conversations (cleanupStuckConversations maxAgeMinutes now w).2 !! id = Some c' ->
      (state c' ∈ [IDLE; COMPLETED; ERROR]) \/
      now - default 30 maxAgeMinutes * 60000 <= updatedAt c') /\
  (cleanupStuckConversations maxAgeMinutes now w).1
  = size (filter (fun row : string * Conversation =>
                    stuck (now - default 30 maxAgeMinutes * 60000) row.2 = true)
            (conversations w)) /\
  rollbackActions (cleanupStuckConversations maxAgeMinutes now w).2 = rollbackActions w /\
  auditLogs (cleanupStuckConversations maxAgeMinutes now w).2 = auditLogs w /\
  sheetsCalls (cleanupStuckConversations maxAgeMinutes now w).2 = sheetsCalls w /\
  (updatedAt_managed = true ->
   0 < default 30 maxAgeMinutes ->
   cleanupStuckConversations maxAgeMinutes now
     (cleanupStuckConversations maxAgeMinutes now w).2
   = (0%nat, (cleanupStuckConversations maxAgeMinutes now w).2)).
Proof.
  set (cutoff := now - default 30 maxAgeMinutes * 60000).
  assert (Hafter : forall id c',
             conversations (cleanupStuckConversations maxAgeMinutes now w).2 !! id = Some c' ->
             exists c, conversations w !! id = Some c /\
                       c' = if stuck cutoff c then write_state now ERROR c else c).
  { intros id c'. simpl. rewrite lookup_fmap.
    destruct (conversations w !! id) as [c|]; simpl; [|discriminate].
    intros [= <-]. eauto. }
  split; [|split; [reflexivity|split; [reflexivity|split; [reflexivity|split; [reflexivity|]]]]].
  - intros id c' Hc'. destruct (Hafter id c' Hc') as (c & _ & ->).
    destruct (stuck cutoff c) eqn:Hstuck.
    + left. apply includes_elem_of. reflexivity.
    + unfold stuck in Hstuck. apply andb_false_iff in Hstuck as [Hstate | Hold].
      * left. apply negb_false_iff in Hstate. apply includes_elem_of.
        destruct (state c); try discriminate Hstate; reflexivity.
      * right. apply Z.ltb_ge in Hold. exact Hold.
  - intros Hmanaged Hage.
    assert (Hnone : forall id c',
               conversations (cleanupStuckConversations maxAgeMinutes now w).2 !! id
               = Some c' ->
               stuck cutoff c' = false).
    { intros id c' Hc'. destruct (Hafter id c' Hc') as (c & _ & ->).
      destruct (stuck cutoff c) eqn:Hstuck; [|exact Hstuck].
      unfold stuck, write_state. simpl. rewrite Hmanaged.
      apply Z.ltb_ge. unfold cutoff. lia. }
    set (w1 := (cleanupStuckConversations maxAgeMinutes now w).2) in *.
    unfold cleanupStuckConversations at 1. fold cutoff. f_equal.
    + rewrite map_empty_filter_2; [apply map_size_empty|].
      intros id c' Hc' Hstuck. simpl in Hstuck. rewrite (Hnone id c' Hc') in Hstuck.
      discriminate.
    + rewrite <- (world_eta w1) at 2. unfold set_conversations. f_equal.
      apply map_eq. intros id. rewrite lookup_fmap.
      destruct (conversations w1 !! id) as [c'|] eqn:Hc'; [|reflexivity].
      simpl. by rewrite (Hnone id c' Hc').
Qed.

End SweepAndRoutes.

(* ===================================================================== *)
(** * Conversation rows and their owner *)
(* ===================================================================== *)

Section ConversationOwnership.
Context {ENV : Environment}.

Lemma update_owned_other (conversationId userId other : string)
    (change : Conversation -> Conversation) (w : World) :
  other <> conversationId ->
  conversations (update_owned conversationId userId change w) !! other
  = conversations w !! other.
Proof.
  intros Hother. unfold update_owned.
  destruct (conversations w !! conversationId) as [c|]; [|reflexivity].
  destruct (String.eqb (conv_userId c) userId); [|reflexivity].
  simpl. by rewrite lookup_insert_ne.
Qed.

Lemma update_owned_stranger (conversationId userId : string)
    (change : Conversation -> Conversation) (w : World) :
  (forall c, conversations w !! conversationId = Some c -> conv_userId c <> userId) ->
  update_owned conversationId userId change w = w.
Proof.
  intros Hstranger. unfold update_owned.
  destruct (conversations w !! conversationId) as [c|] eqn:Hc; [|reflexivity].
  destruct (String.eqb (conv_userId c) userId) eqn:Huser; [|reflexivity].
  apply String.eqb_eq in Huser. by destruct (Hstranger c).
Qed.

Lemma update_owned_owner (conversationId userId : string)
    (change : Conversation -> Conversation) (w : World) (c : Conversation) :
  conversations w !! conversationId = Some c ->
  conv_userId c = userId ->
  conversations (update_owned conversationId userId change w) !! conversationId
  = Some (change c).
Proof.
  intros Hc Huser. unfold update_owned. rewrite Hc.
  apply String.eqb_eq in Huser. rewrite Huser. simpl. by rewrite lookup_insert_eq.
Qed.

(** X24.  [endConversation], [updateConversationSheet] and
    [deleteConversation] change nothing unless the row exists and belongs
    to the user, and they never touch another row.  Ending a conversation
    does not close its state machine: every later state request gets the
    answer it would have got without the ending.  After the owner has
    deleted the row its state can neither be read nor moved. *)
Theorem conversation_rows_by_owner (conversationId sheetId userId : string) (now : Z)
    (w : World) :
  ((forall c, conversations w !! conversationId = Some c -> conv_userId c <> userId) ->
   endConversation conversationId userId now w = w /\
   updateConversationSheet conversationId sheetId userId now w = w /\
   deleteConversation conversationId userId w = w) /\
  (forall other,
      other <> conversationId ->
      conversations (endConversation conversationId userId now w) !! other
      = conversations w !! other /\
      conversations (updateConversationSheet conversationId sheetId userId now w) !! other
      = conversations w !! other /\
      conversations (deleteConversation conversationId userId w) !! other
      = conversations w !! other) /\
  (forall c,
      conversations w !! conversationId = Some c ->
      conv_userId c = userId ->
      (forall s reason later,
          (transitionState conversationId s reason later
             (endConversation conversationId userId now w)).1
          = (transitionState conversationId s reason later w).1) /\
      (exists c',
          conversations (updateConversationSheet conversationId sheetId userId now w)
            !! conversationId = Some c' /\
          conv_sheetId c' = Some sheetId /\ state c' = state c /\
          conv_userId c' = conv_userId c /\ endedAt c' = endedAt c) /\
      getCurrentState conversationId (deleteConversation conversationId userId w)
      = Throws (Error "Failed to retrieve conversation state") /\
      (forall s reason later,
          transitionState conversationId s reason later
            (deleteConversation conversationId userId w)
          = (Throws (Error "Failed to transition state"),
             deleteConversation conversationId userId w))).
Proof.
  split; [|split].
  - intros Hstranger. unfold endConversation, updateConversationSheet.
    rewrite !update_owned_stranger by exact Hstranger.
    split; [reflexivity|]. split; [reflexivity|].
    unfold deleteConversation.
    destruct (conversations w !! conversationId) as [c|] eqn:Hc; [|reflexivity].
    destruct (String.eqb (conv_userId c) userId) eqn:Huser; [|reflexivity].
    apply String.eqb_eq in Huser. by destruct (Hstranger c).
  - intros other Hother. unfold endConversation, updateConversationSheet.
    rewrite !update_owned_other by exact Hother.
    split; [reflexivity|]. split; [reflexivity|].
    unfold deleteConversation.
    destruct (conversations w !! conversationId) as [c|]; [|reflexivity].
    destruct (String.eqb (conv_userId c) userId); [|reflexivity].
    simpl. by rewrite lookup_delete_ne.
  - intros c Hc Huser.
    assert (Hdeleted : conversations (deleteConversation conversationId userId w)
                         !! conversationId = None).
    { unfold deleteConversation. rewrite Hc.
      apply String.eqb_eq in Huser. rewrite Huser. simpl. apply lookup_delete_eq. }
    split; [|split; [|split]].
    + intros s reason later. unfold transitionState, endConversation.
      rewrite (update_owned_owner _ _ _ _ c Hc Huser), Hc. simpl.
      by destruct (isValidTransition (state c) s).
    + eexists. unfold updateConversationSheet.
      rewrite (update_owned_owner _ _ _ _ c Hc Huser). split; [reflexivity|]. by simpl.
    + unfold getCurrentState. by rewrite Hdeleted.
    + intros s reason later. unfold transitionState. by rewrite Hdeleted.
Qed.

End ConversationOwnership.

(* ===================================================================== *)
(** * The kinds of the request schema *)
(* ===================================================================== *)

Section SchemaKinds.
Context {RT : JsRuntime} {ENV : Environment}.

(** X25.  Every action kind the simulator reports on and every kind the
    executor serves is a kind of the request schema.  The schema admits
    four more kinds (open_spreadsheet, filter_data, rename_sheet,
    add_data_validation): for these the simulator and the executor both
    throw that the action is not supported, and the executor calls nothing
    and writes nothing. *)
Theorem schema_kinds_without_a_case (i : SheetActionIntent) (sheet : option string)
    (w : World) :
  (supported (action i) || one_of served_kinds (action i) = true ->
   one_of schema_actions (action i) = true) /\
  one_of schema_actions (action i) && negb (supported (action i))
  = one_of unknown_kinds (action i) /\
  (one_of unknown_kinds (action i) = true ->
   simulate (action i) (parameters i)
   = Throws (Wrapped "Dry-run failed: "
               (Error ("Unsupported action for dry-run: " +:+ action i))) /\
   executeAction i sheet w
   = (Throws (Error ("Unsupported action: " +:+ action i)), w)).
Proof.
  destruct i as [a p hint clar conf]. simpl.
  unfold supported, one_of, supported_actions, served_kinds, schema_actions, unknown_kinds.
  simpl. split; [|split].
  - case_action a; simpl; intros H; try reflexivity; discriminate H.
  - case_action a; reflexivity.
  - intros Hkind. unfold simulate, handler, executeAction. simpl.
    case_action a; try discriminate Hkind; simpl; split; reflexivity.
Qed.

End SchemaKinds.

(* ===================================================================== *)
(** * The dry-run route from any state *)
(* ===================================================================== *)

Section DryRunRoute.
Context {RT : JsRuntime} {ENV : Environment}.

(** X26.  A dry-run that names a conversation and whose simulation
    succeeds answers with the report whatever the state of the
    conversation is, and moves the conversation only along the table: from
    INTENT_CLASSIFIED to the state the report asks for, from
    CONFIRMATION_REQUIRED to READY_TO_EXECUTE when the report needs no
    confirmation, and from no other state.  For a conversation that does
    not exist the route fails after the simulation and changes nothing. *)
Theorem dry_run_moves_by_the_table (req : DryRunRequest) (id : string)
    (report : DryRunResult) (now : Z) (w : World) :
  dr_action req <> "" ->
  given (dr_conversationId req) = Some id ->
  simulate (dr_action req) (dr_parameters req) = Returns report ->
  match conversations w !! id with
  | None =>
      dry_run_route req now w
      = (dry_run_failed (Error "Failed to retrieve conversation state"), w)
  | Some c =>
      dry_run_route req now w
      = (dry_run_ok report (requiresConfirmation report),
         if bool_decide (state c = INTENT_CLASSIFIED)
            || bool_decide (state c = CONFIRMATION_REQUIRED)
               && negb (requiresConfirmation report)
         then set_conversations (insert id (write_state now (nextState report) c)) w
         else w)
  end.
Proof.
  intros Haction Hid Hsim. unfold dry_run_route.
  apply String.eqb_neq in Haction. rewrite Haction, Hsim, Hid.
  unfold Conversations.getConversationState, getCurrentState.
  destruct (conversations w !! id) as [c|] eqn:Hc; [|reflexivity].
  unfold Conversations.transitionState, transitionState. rewrite Hc.
  unfold nextState, requiresConfirmation.
  destruct (bool_decide (risk_level report = high) || negb (reversible report));
    destruct (state c); reflexivity.
Qed.

End DryRunRoute.

Lemma dry_run_moves_by_the_table_witness :
  exists c',
    conversations
      (@dry_run_route Sample.decimal_runtime Sample.accepting
         (dry_run_of MoreSamples.overwrite_cell "conv-1") 1000
         (MoreSamples.world_in CONFIRMATION_REQUIRED)).2
      !! "conv-1" = Some c' /\
    state c' = READY_TO_EXECUTE.
Proof.
  destruct (@simulate Sample.decimal_runtime (action MoreSamples.overwrite_cell)
              (parameters MoreSamples.overwrite_cell))
    as [report|e] eqn:Hsim; [|vm_compute in Hsim; discriminate].
  pose proof (@dry_run_moves_by_the_table Sample.decimal_runtime Sample.accepting
                (dry_run_of MoreSamples.overwrite_cell "conv-1") "conv-1" report 1000
                (MoreSamples.world_in CONFIRMATION_REQUIRED)) as Hroute.
  assert (Hc : conversations (MoreSamples.world_in CONFIRMATION_REQUIRED) !! "conv-1"
               = Some (Sample.conversation_in CONFIRMATION_REQUIRED
                         [IDLE; CONFIRMATION_REQUIRED] 900))
    by (vm_compute; reflexivity).
  rewrite Hc in Hroute. rewrite Hroute.
  - vm_compute in Hsim. injection Hsim as <-.
    eexists. split; [apply lookup_insert_eq | reflexivity].
  - discriminate.
  - reflexivity.
  - exact Hsim.
Defined.
